(** * create_project.py: a shallow embedding and its verified properties

    The program reads [project_template.json] next to the script, computes a
    project root, refuses to run when the root already exists and otherwise
    writes a CMake project skeleton.  The embedding follows the Python source:

    - text is [string]; an f-string becomes a concatenation with [+:+];
    - the configuration is a record per JSON object of the data model, an
      optional key is an [option];
    - [pathlib.Path] values are a root marker and a list of components, with
      the parsing rules of [PurePosixPath];
    - the file system is a finite map from absolute, normalised paths to
      nodes; every [mkdir], [write_text] and [exists] resolves its path
      against it as POSIX does (no symbolic links, no permissions);
    - [main] runs in a small monad of state, exceptions and output: the
      state is the world (file system, working directory, directory of the
      script), the output the lines printed;
    - the template is a file of that file system like any other: [main]
      opens it at [script_dir / "project_template.json"], and a write of
      [main] that resolves to the same place replaces it.

    What is left out: values of the wrong JSON type (a configuration is
    typed as section 3 of the specification has it, so [KeyError] and
    [TypeError] do not arise), floating-point standards, symbolic links and
    permissions.  The JSON parser is not modelled: what [json.load] returns
    for the text of a file is a function that the world carries.  A text is
    a string of bytes, and [str.upper] is modelled on ASCII text; the
    statements that depend on what it computes say so. *)

From stdpp Require Import gmap strings list fin_maps.
From Stdlib Require Import Ascii String ZArith DecimalString.

Local Open Scope string_scope.
Local Open Scope list_scope.

(** ** Text *)

Module Text.

(** The characters that cannot be written inside a string literal. *)
Definition nl : string := String (ascii_of_nat 10) EmptyString.
Definition dq : string := String (ascii_of_nat 34) EmptyString.

(** [sep.join(xs)] *)
Definition join (sep : string) (xs : list string) : string := String.concat sep xs.

(** A text given line by line, every line closed by a line feed. *)
Definition unlines (ls : list string) : string :=
  foldr (fun l acc => l +:+ nl +:+ acc) EmptyString ls.

(** [s.split(c)] for a one-character separator. *)
Fixpoint split (c : ascii) (s : string) : list string :=
  match s with
  | EmptyString => [EmptyString]
  | String a s' =>
      if decide (a = c) then EmptyString :: split c s'
      else match split c s' with
           | h :: t => String a h :: t
           | [] => [String a EmptyString]
           end
  end.

(** The lines of a text: [s.split("\n")]. *)
Definition lines (s : string) : list string := split (ascii_of_nat 10) s.

(** [c not in s] *)
Fixpoint lacks (c : ascii) (s : string) : bool :=
  match s with
  | EmptyString => true
  | String a s' => if decide (a = c) then false else lacks c s'
  end.

Definition single_line (s : string) : bool := lacks (ascii_of_nat 10) s.

(** [str.upper] on ASCII text: the letters [a] to [z] become [A] to [Z] and
    every other character stays.  Outside ASCII [str.upper] follows the
    Unicode case mapping, which is not modelled; [ascii_text] is the range
    in which [upper] is [str.upper]. *)
Definition ascii_text (s : string) : bool :=
  forallb (fun a => (nat_of_ascii a <? 128)%nat) (list_ascii_of_string s).

Definition upper_ascii (a : ascii) : ascii :=
  let n := nat_of_ascii a in
  if (97 <=? n)%nat && (n <=? 122)%nat then ascii_of_nat (n - 32) else a.

Fixpoint upper (s : string) : string :=
  match s with
  | EmptyString => EmptyString
  | String a s' => String (upper_ascii a) (upper s')
  end.

(** [str(n)] for an integer. *)
Definition str_Z (z : Z) : string := NilZero.string_of_int (Z.to_int z).
Definition str_nat (n : nat) : string := NilZero.string_of_uint (Nat.to_uint n).

End Text.
Import Text.

(** ** The configuration document (spec section 3) *)

(** A language standard is a JSON number or a JSON string; an f-string
    formats either with [str]. *)
Inductive scalar :=
  | SInt (z : Z)
  | SStr (s : string).

Definition py_str (v : scalar) : string :=
  match v with
  | SInt z => str_Z z
  | SStr s => s
  end.

Record Library := {
  lib_name : string;
  lib_sources : list string;
  lib_headers : list string
}.

Record Executable := {
  exe_name : string;
  exe_sources : list string;
  exe_dependencies : option (list string)   (* the key may be absent *)
}.

Record Config := {
  projectName : string;
  cStandard : scalar;
  cppStandard : scalar;
  libraries : list Library;
  executables : list Executable;
  enableTests : option bool;                (* the key may be absent *)
  outputDir : option string                 (* the key may be absent *)
}.

(** [d.get(key, dflt)] on an optional key. *)
Definition dict_get {A} (v : option A) (dflt : A) : A :=
  match v with
  | Some a => a
  | None => dflt
  end.

(** ** Generated text *)

(** The opening f-string of [create_main_cmakelists]. *)
Definition main_header_lines (project_name c_standard cpp_standard : string)
  : list string :=
  [
    "cmake_minimum_required(VERSION 3.10)";
    EmptyString;
    "project(" +:+ project_name +:+ " C CXX)";
    EmptyString;
    "cmake_policy(SET CMP0135 NEW)";
    EmptyString;
    "set(CMAKE_C_STANDARD " +:+ c_standard +:+ ")";
    "set(CMAKE_CXX_STANDARD " +:+ cpp_standard +:+ ")";
    "set(CMAKE_C_STANDARD_REQUIRED ON)";
    "set(CMAKE_CXX_STANDARD_REQUIRED ON)";
    EmptyString;
    "# Set a default build type if none was specified";
    "if(NOT CMAKE_BUILD_TYPE AND NOT CMAKE_CONFIGURATION_TYPES)";
    "  message(STATUS " +:+ dq +:+ "Setting build type to 'Release' as none was specified." +:+ dq +:+ ")";
    "  set(CMAKE_BUILD_TYPE Release CACHE STRING " +:+ dq +:+ "Choose the type of build, options are: Debug Release RelWithDebInfo MinSizeRel." +:+ dq +:+ " FORCE)";
    "endif()";
    EmptyString;
    "# Compiler flags";
    "set(CMAKE_C_FLAGS " +:+ dq +:+ "-Wall -Wextra" +:+ dq +:+ ")";
    "set(CMAKE_CXX_FLAGS " +:+ dq +:+ "-Wall -Wextra" +:+ dq +:+ ")";
    "set(CMAKE_C_FLAGS_DEBUG " +:+ dq +:+ "-g" +:+ dq +:+ ")";
    "set(CMAKE_C_FLAGS_RELEASE " +:+ dq +:+ "-O3" +:+ dq +:+ ")";
    "set(CMAKE_CXX_FLAGS_DEBUG " +:+ dq +:+ "-g" +:+ dq +:+ ")";
    "set(CMAKE_CXX_FLAGS_RELEASE " +:+ dq +:+ "-O3" +:+ dq +:+ ")";
    EmptyString;
    "# Add library subdirectories"
  ].

Definition main_header (project_name c_standard cpp_standard : string) : string :=
  unlines (main_header_lines project_name c_standard cpp_standard).

(** One round of [for lib in config["libraries"]]. *)
Definition add_library_line (content : string) (lib : Library) : string :=
  content +:+ "add_subdirectory(lib/" +:+ lib_name lib +:+ ")" +:+ nl.

(** The trailing f-string of an executable's block. *)
Definition target_properties (exe_name : string) : string :=
  nl +:+ unlines [
    "set_target_properties(" +:+ exe_name +:+ " PROPERTIES";
    "    RUNTIME_OUTPUT_DIRECTORY ${CMAKE_BINARY_DIR}/bin";
    ")"
  ].

(** [if "dependencies" in exe and exe["dependencies"]]: present and not
    the empty list. *)
Definition has_dependencies (exe : Executable) : bool :=
  match exe_dependencies exe with
  | Some (_ :: _) => true
  | Some [] => false
  | None => false
  end.

(** One round of [for exe in config["executables"]]. *)
Definition add_executable_block (content : string) (exe : Executable) : string :=
  let exe_name := exe_name exe in
  let sources := join " " (exe_sources exe) in
  let content := content +:+ "add_executable(" +:+ exe_name +:+ " " +:+ sources +:+ ")" +:+ nl in
  let content :=
    if has_dependencies exe then
      let deps := join " " (dict_get (exe_dependencies exe) []) in
      content +:+ "target_link_libraries(" +:+ exe_name +:+ " PRIVATE " +:+ deps +:+ ")" +:+ nl
    else content in
  content +:+ target_properties exe_name.

Definition testing_block : string :=
  nl +:+ nl +:+ unlines [
    "# --- Testing ---";
    "enable_testing()";
    "add_subdirectory(tests)"
  ].

Definition create_main_cmakelists (config : Config) : string :=
  let project_name := projectName config in
  let c_standard := py_str (cStandard config) in
  let cpp_standard := py_str (cppStandard config) in
  let content := main_header project_name c_standard cpp_standard in
  let content := fold_left add_library_line (libraries config) content in
  let content := content +:+ nl +:+ "# Add executables" +:+ nl in
  let content := fold_left add_executable_block (executables config) content in
  if dict_get (enableTests config) true then content +:+ testing_block
  else content.

Definition create_lib_cmakelists (lib_config : Library) : string :=
  let lib_name := lib_name lib_config in
  let sources := join " " (lib_sources lib_config) in     (* assigned, not used *)
  unlines [
    "add_library(" +:+ lib_name +:+ " " +:+ join " " (lib_sources lib_config) +:+ ")";
    EmptyString;
    "target_include_directories(" +:+ lib_name +:+ " PUBLIC include)"
  ].

(** The placeholder program written for every source of an executable. *)
Definition exe_source_text (exe : Executable) : string :=
  unlines [
    "#include <stdio.h>";
    EmptyString;
    "int main(void) {";
    "    printf(" +:+ dq +:+ "Hello from " +:+ exe_name exe +:+ "\n" +:+ dq +:+ ");";
    "    return 0;";
    "}"
  ].

(** The placeholder written for every source of a library. *)
Definition lib_source_text (lib : Library) : string :=
  unlines [
    "#include " +:+ dq +:+ lib_name lib +:+ ".h" +:+ dq;
    "#include <stdio.h>";
    EmptyString;
    "void " +:+ lib_name lib +:+ "_hello() {";
    "    printf(" +:+ dq +:+ "Hello from " +:+ lib_name lib +:+ "\n" +:+ dq +:+ ");";
    "}"
  ].

(** [header_guard], computed inside [for hdr in lib["headers"]]; the loop
    variable is in scope and unused. *)
Definition header_guard (lib : Library) (hdr : string) : string :=
  upper (lib_name lib) +:+ "_H".

(** The text written to the header [hdr] of [lib]. *)
Definition header_text (lib : Library) (hdr : string) : string :=
  let header_guard := header_guard lib hdr in
  unlines [
    "#ifndef " +:+ header_guard;
    "#define " +:+ header_guard;
    EmptyString;
    "void " +:+ lib_name lib +:+ "_hello(void);";
    EmptyString;
    "#endif"
  ].

(** [tests/CMakeLists.txt]; its second line is fifty spaces in the source. *)
Definition tests_cmakelists : string :=
  unlines [
    "# Add GTest";
    "                                                  ";
    "include(FetchContent)";
    "FetchContent_Declare(";
    "  googletest";
    "  URL https://github.com/google/googletest/archive/refs/tags/v1.14.0.zip";
    ")";
    "# For Windows: Prevent overriding the parent project's compiler/linker settings";
    "set(gtest_force_shared_crt ON CACHE BOOL " +:+ dq +:+ dq +:+ " FORCE)";
    "FetchContent_MakeAvailable(googletest)";
    EmptyString;
    "# Create the test executable";
    "add_executable(run_tests test_foo.cpp)";
    EmptyString;
    "# Link against GTest and the library to be tested";
    "target_link_libraries(run_tests PRIVATE GTest::gtest_main foo)";
    EmptyString;
    "# Discover and add tests to CTest";
    "include(GoogleTest)";
    "gtest_discover_tests(run_tests)"
  ].

(** [tests/test_foo.cpp] *)
Definition tests_source : string :=
  unlines [
    "#include <gtest/gtest.h>";
    "#include " +:+ dq +:+ "foo.h" +:+ dq;
    EmptyString;
    "TEST(FooTest, BasicTest) {";
    "    // A simple test to ensure the function can be called";
    "    foo_hello();";
    "    SUCCEED();";
    "}";
    EmptyString;
    "TEST(FooTest, AlwaysPasses) {";
    "    EXPECT_TRUE(true);";
    "}"
  ].

(** ** Paths: [pathlib.PurePosixPath] *)

(** The root of a path: none, [/], or the [//] that POSIX keeps apart. *)
Inductive anchor := Relative | Root | DoubleRoot.

Record Path := {
  path_anchor : anchor;
  path_parts : list string
}.

#[export] Instance anchor_eq_dec : EqDecision anchor.
Proof. solve_decision. Defined.

#[export] Instance Path_eq_dec : EqDecision Path.
Proof. solve_decision. Defined.

Fixpoint leading_slashes (s : string) : nat :=
  match s with
  | String a s' => if decide (a = "/"%char) then S (leading_slashes s') else 0
  | EmptyString => 0
  end.

(** Components that survive parsing: neither empty nor [.]. *)
Definition keeps_part (x : string) : bool :=
  negb (String.eqb x EmptyString) && negb (String.eqb x ".").

(** [Path(s)]: exactly two leading slashes are kept, any other number is one
    root; empty components and [.] are dropped, [..] stays. *)
Definition parse_path (s : string) : Path :=
  {| path_anchor := match leading_slashes s with
                    | 0 => Relative
                    | 2 => DoubleRoot
                    | _ => Root
                    end;
     path_parts := List.filter keeps_part (split "/"%char s) |}.

(** [p / s]: an absolute right operand replaces the left one. *)
Definition path_div (p : Path) (s : string) : Path :=
  let q := parse_path s in
  match path_anchor q with
  | Relative => {| path_anchor := path_anchor p; path_parts := path_parts p ++ path_parts q |}
  | _ => q
  end.

Notation "p // s" := (path_div p s) (at level 40, left associativity).

Definition anchor_str (a : anchor) : string :=
  match a with
  | Relative => EmptyString
  | Root => "/"
  | DoubleRoot => "//"
  end.

(** [str(p)] *)
Definition path_str (p : Path) : string :=
  match path_anchor p, path_parts p with
  | Relative, [] => "."
  | a, parts => anchor_str a +:+ join "/" parts
  end.

(** ** The world *)

Inductive errno := ENOENT | ENOTDIR | EEXIST | EISDIR.

Inductive node :=
  | File (content : string)
  | Dir.

(** [json.JSONDecodeError]: message and the position of the error. *)
Record JSONDecodeError := {
  err_msg : string;
  err_lineno : nat;
  err_colno : nat;
  err_pos : nat
}.

(** The location part of [str(e)]. *)
Definition error_location (e : JSONDecodeError) : string :=
  "line " +:+ str_nat (err_lineno e) +:+ " column " +:+ str_nat (err_colno e)
  +:+ " (char " +:+ str_nat (err_pos e) +:+ ")".

(** [str(e)]: ["%s: line %d column %d (char %d)"]. *)
Definition JSONDecodeError_str (e : JSONDecodeError) : string :=
  err_msg e +:+ ": " +:+ error_location e.

(** What the [try] block of [main] finds at the template path: [open]
    raises [FileNotFoundError], [json.load] raises [JSONDecodeError], the
    document is loaded, or [open] fails with another error, which no
    handler catches. *)
Inductive template_file :=
  | TemplateMissing
  | TemplateMalformed (e : JSONDecodeError)
  | TemplateDocument (config : Config)
  | TemplateUnreadable (e : errno).

(** File-system keys are absolute and normalised: the components from the
    root down, [[]] being the root directory itself.  [json_load] is what
    [json.load] makes of the text of a file. *)
Record world := {
  fs : gmap (list string) node;
  cwd : list string;
  script_dir : Path;            (* [Path(__file__).parent.resolve()] *)
  json_load : string -> JSONDecodeError + Config
}.

Definition set_fs (w : world) (m : gmap (list string) node) : world :=
  {| fs := m; cwd := cwd w; script_dir := script_dir w; json_load := json_load w |}.

(** ** Path resolution and the system calls *)

(** The root directory always exists. *)
Definition node_at (m : gmap (list string) node) (k : list string) : option node :=
  match k with
  | [] => Some Dir
  | _ => m !! k
  end.

(** One step of path resolution from the directory [cur]. *)
Definition step_into (cur : list string) (c : string) : list string :=
  if String.eqb c ".." then removelast cur else cur ++ [c].

(** Resolution walks the components from [cur]; the directory a component is
    looked up in must exist and be a directory.  The key that is returned
    need not exist. *)
Fixpoint walk (m : gmap (list string) node) (cur : list string) (comps : list string)
  : errno + list string :=
  match comps with
  | [] => inr cur
  | c :: cs =>
      match node_at m cur with
      | None => inl ENOENT
      | Some (File _) => inl ENOTDIR
      | Some Dir => walk m (step_into cur c) cs
      end
  end.

Definition start_of (w : world) (p : Path) : list string :=
  match path_anchor p with
  | Relative => cwd w
  | _ => []
  end.

Definition resolve (w : world) (p : Path) : errno + list string :=
  walk (fs w) (start_of w p) (path_parts p).

(** [os.stat] *)
Definition os_stat (w : world) (p : Path) : errno + node :=
  match resolve w p with
  | inl e => inl e
  | inr k =>
      match node_at (fs w) k with
      | None => inl ENOENT
      | Some n => inr n
      end
  end.

(** [os.mkdir] *)
Definition os_mkdir (w : world) (p : Path) : errno + world :=
  match resolve w p with
  | inl e => inl e
  | inr k =>
      match node_at (fs w) k with
      | Some _ => inl EEXIST
      | None => inr (set_fs w (<[k := Dir]> (fs w)))
      end
  end.

(** [open(p, "w")], the write and the close: the file is created or
    replaced. *)
Definition os_write (w : world) (p : Path) (data : string) : errno + world :=
  match resolve w p with
  | inl e => inl e
  | inr k =>
      match node_at (fs w) k with
      | Some Dir => inl EISDIR
      | _ => inr (set_fs w (<[k := File data]> (fs w)))
      end
  end.

(** [open(p, "r")] and the read: the text of the file. *)
Definition os_read (w : world) (p : Path) : errno + string :=
  match resolve w p with
  | inl e => inl e
  | inr k =>
      match node_at (fs w) k with
      | None => inl ENOENT
      | Some Dir => inl EISDIR
      | Some (File data) => inr data
      end
  end.

(** [with open(template_path, "r") as f: config = json.load(f)] and what
    comes of it. *)
Definition load_template (w : world) (template_path : Path) : template_file :=
  match os_read w template_path with
  | inl ENOENT => TemplateMissing
  | inl e => TemplateUnreadable e
  | inr data =>
      match json_load w data with
      | inl e => TemplateMalformed e
      | inr config => TemplateDocument config
      end
  end.

(** The template as [main] finds it in the world [w], next to the script. *)
Definition template (w : world) : template_file :=
  load_template w (script_dir w // "project_template.json").

(** ** The monad of [main]: state, exceptions and printed lines *)

(** The subclasses of [OSError] that the calls above raise, each with the
    [filename] it carries. *)
Inductive exn :=
  | FileNotFoundError (filename : string)
  | NotADirectoryError (filename : string)
  | FileExistsError (filename : string)
  | IsADirectoryError (filename : string).

Definition os_error (e : errno) (p : Path) : exn :=
  match e with
  | ENOENT => FileNotFoundError (path_str p)
  | ENOTDIR => NotADirectoryError (path_str p)
  | EEXIST => FileExistsError (path_str p)
  | EISDIR => IsADirectoryError (path_str p)
  end.

Inductive result (A : Type) :=
  | Returned (a : A)
  | Raised (e : exn).
Arguments Returned {A} a.
Arguments Raised {A} e.

(** A run ends with a result, the world it leaves and the lines it
    printed. *)
Definition M (A : Type) : Type := world -> result A * world * list string.

Definition ret {A} (a : A) : M A := fun w => (Returned a, w, []).

Definition raise {A} (e : exn) : M A := fun w => (Raised e, w, []).

Definition bind {A B} (m : M A) (k : A -> M B) : M B :=
  fun w =>
    match m w with
    | (Returned a, w', out) =>
        match k a w' with
        | (r, w'', out') => (r, w'', (out ++ out')%list)
        end
    | (Raised e, w', out) => (Raised e, w', out)
    end.

Declare Scope io_scope.
Delimit Scope io_scope with io.
Notation "'let*' x ':=' m 'in' k" := (bind m (fun x => k))
  (at level 10, x name, m at level 100, k at level 200) : io_scope.
Notation "m ';;' k" := (bind m (fun _ => k))
  (at level 100, k at level 200, right associativity) : io_scope.

(** [for x in xs: body(x)] *)
Fixpoint for_each {A} (xs : list A) (body : A -> M unit) : M unit :=
  match xs with
  | [] => ret tt
  | x :: xs' => bind (body x) (fun _ => for_each xs' body)
  end.

(** [print(line)] *)
Definition print (line : string) : M unit :=
  fun w => (Returned tt, w, [line]).

(** ** [pathlib.Path] methods *)

(** [p.exists()]: a failed [stat] is [False]. *)
Definition Path_exists (p : Path) : M bool :=
  fun w =>
    (Returned (match os_stat w p with inr _ => true | inl _ => false end), w, []).

(** [p.is_dir()] *)
Definition is_dir (w : world) (p : Path) : bool :=
  match os_stat w p with
  | inr Dir => true
  | _ => false
  end.

(** [p.mkdir(parents=False, exist_ok=exist_ok)]: with [exist_ok] an error of
    [os.mkdir] is swallowed when [p] is a directory. *)
Definition Path_mkdir (exist_ok : bool) (p : Path) : M unit :=
  fun w =>
    match os_mkdir w p with
    | inr w' => (Returned tt, w', [])
    | inl ENOENT => (Raised (os_error ENOENT p), w, [])
    | inl e => if exist_ok && is_dir w p then (Returned tt, w, [])
               else (Raised (os_error e p), w, [])
    end.

(** [p.mkdir(parents=True, exist_ok=exist_ok)] for the path with anchor [a]
    and the components [rparts] in reverse, so that the parent is the tail:
    on [FileNotFoundError] the parent is made with [parents=True,
    exist_ok=True] and [os.mkdir] is tried once more. *)
Fixpoint mkdir_parents (a : anchor) (rparts : list string) (exist_ok : bool) : M unit :=
  let self := {| path_anchor := a; path_parts := rev rparts |} in
  fun w =>
    match os_mkdir w self with
    | inr w' => (Returned tt, w', [])
    | inl ENOENT =>
        match rparts with
        | [] => (Raised (os_error ENOENT self), w, [])   (* self.parent == self *)
        | _ :: rparent =>
            bind (mkdir_parents a rparent true) (fun _ => Path_mkdir exist_ok self) w
        end
    | inl e => if exist_ok && is_dir w self then (Returned tt, w, [])
               else (Raised (os_error e self), w, [])
    end.

(** [p.mkdir(parents=True)] *)
Definition Path_mkdir_parents (p : Path) : M unit :=
  mkdir_parents (path_anchor p) (rev (path_parts p)) false.

(** [p.write_text(data)] *)
Definition Path_write_text (p : Path) (data : string) : M unit :=
  fun w =>
    match os_write w p data with
    | inr w' => (Returned tt, w', [])
    | inl e => (Raised (os_error e p), w, [])
    end.

(** ** [main] *)

Local Open Scope io_scope.

Definition read_template (template_path : Path) : M template_file :=
  fun w => (Returned (load_template w template_path), w, []).

Definition read_script_dir : M Path :=
  fun w => (Returned (script_dir w), w, []).

(** The project root, from the configuration alone. *)
Definition project_root (config : Config) : Path :=
  let project_name := projectName config in
  match outputDir config with
  | Some d => parse_path d // project_name
  | None => parse_path project_name
  end.

(** [# Create executables sources] *)
Definition create_executable_sources (config : Config) (root : Path) : M unit :=
  for_each (executables config) (fun exe =>
    for_each (exe_sources exe) (fun src =>
      Path_write_text (root // src) (exe_source_text exe))).

(** The body of [for lib in config["libraries"]]. *)
Definition create_library (lib_dir : Path) (lib : Library) : M unit :=
  let lib_path := lib_dir // lib_name lib in
  Path_mkdir false lib_path;;
  Path_write_text (lib_path // "CMakeLists.txt") (create_lib_cmakelists lib);;
  for_each (lib_sources lib) (fun src =>
    Path_write_text (lib_path // src) (lib_source_text lib));;
  let include_path := lib_path // "include" in
  Path_mkdir false include_path;;
  for_each (lib_headers lib) (fun hdr =>
    Path_write_text (include_path // hdr) (header_text lib hdr)).

(** [# Create libraries] *)
Definition create_libraries (config : Config) (root : Path) : M unit :=
  let lib_dir := root // "lib" in
  Path_mkdir false lib_dir;;
  for_each (libraries config) (create_library lib_dir).

(** [# Create tests directory] *)
Definition create_tests (config : Config) (root : Path) : M unit :=
  if dict_get (enableTests config) false then
    let tests_dir := root // "tests" in
    Path_mkdir false tests_dir;;
    Path_write_text (tests_dir // "CMakeLists.txt") tests_cmakelists;;
    Path_write_text (tests_dir // "test_foo.cpp") tests_source
  else ret tt.

Definition already_exists_message (root : Path) : string :=
  "Error: Directory '" +:+ path_str root +:+ "' already exists.".

(** [main] from the existence check on, for a loaded configuration. *)
Definition generate (config : Config) : M unit :=
  let project_name := projectName config in
  let root := project_root config in
  let* found := Path_exists root in
  if (found : bool) then print (already_exists_message root)
  else
    print ("Creating project '" +:+ project_name +:+ "' in '" +:+ path_str root +:+ "'...");;
    Path_mkdir_parents root;;
    Path_write_text (root // "CMakeLists.txt") (create_main_cmakelists config);;
    create_executable_sources config root;;
    create_libraries config root;;
    create_tests config root;;
    print ("Project '" +:+ project_name +:+ "' created successfully in '" +:+ path_str root +:+ "'.");;
    print "To build:";;
    print ("  cd " +:+ path_str root);;
    print "  cmake -B build -G Ninja";;
    print "  cmake --build build".

(** [main]; [outputDir] is the optional positional argument that [argparse]
    stores in [args], already converted by [type=Path]. *)
Definition main (outputDir : option Path) : M unit :=
  let args := outputDir in
  let* script_dir := read_script_dir in
  let template_path := script_dir // "project_template.json" in
  let* loaded := read_template template_path in
  match loaded with
  | TemplateMissing =>
      print ("Error: '" +:+ path_str template_path +:+ "' not found.")
  | TemplateMalformed e =>
      print ("Error decoding JSON from '" +:+ path_str template_path +:+ "': "
             +:+ JSONDecodeError_str e)
  | TemplateDocument config => generate config
  | TemplateUnreadable e => raise (os_error e template_path)
  end.

(** [config] with another list of executables. *)
Definition with_executables (config : Config) (exes : list Executable) : Config :=
  {| projectName := projectName config;
     cStandard := cStandard config;
     cppStandard := cppStandard config;
     libraries := libraries config;
     executables := exes;
     enableTests := enableTests config;
     outputDir := outputDir config |}.

(** The dependencies an executable's block is generated from:
    [exe.get("dependencies") or []]. *)
Definition effective_dependencies (exe : Executable) : list string :=
  dict_get (exe_dependencies exe) [].

(** ** Vocabulary of the statements *)

(** The uppercased name, in the words of the specification: every small
    letter gives way to the capital letter at its place in the alphabet,
    and every other character stays. *)
Definition small_letters : string := "abcdefghijklmnopqrstuvwxyz".
Definition capital_letters : string := "ABCDEFGHIJKLMNOPQRSTUVWXYZ".

Fixpoint place_in (a : ascii) (s : string) : option nat :=
  match s with
  | EmptyString => None
  | String b s' => if decide (a = b) then Some 0%nat else option_map S (place_in a s')
  end.

Definition capital (a : ascii) : ascii :=
  match place_in a small_letters with
  | Some i => default a (String.get i capital_letters)
  | None => a
  end.

Fixpoint uppercased (s : string) : string :=
  match s with
  | EmptyString => EmptyString
  | String a s' => String (capital a) (uppercased s')
  end.

(** The lines the claims speak of, as [create_main_cmakelists] writes
    them. *)
Definition library_line (lib : Library) : string :=
  "add_subdirectory(lib/" +:+ lib_name lib +:+ ")".

Definition executable_line (exe : Executable) : string :=
  "add_executable(" +:+ exe_name exe +:+ " " +:+ join " " (exe_sources exe) +:+ ")".

Definition link_line (exe : Executable) : string :=
  "target_link_libraries(" +:+ exe_name exe +:+ " PRIVATE "
  +:+ join " " (effective_dependencies exe) +:+ ")".

(** The text one executable adds to the manifest. *)
Definition executable_block (exe : Executable) : string :=
  executable_line exe +:+ nl
  +:+ (match exe_dependencies exe with
       | Some (_ :: _) => link_line exe +:+ nl
       | _ => EmptyString
       end)
  +:+ target_properties (exe_name exe).

(** The lines one executable adds to the manifest. *)
Definition executable_lines (exe : Executable) : list string :=
  executable_line exe
  :: (match exe_dependencies exe with
      | Some (_ :: _) => [link_line exe]
      | _ => []
      end)
  ++ [ EmptyString;
       "set_target_properties(" +:+ exe_name exe +:+ " PROPERTIES";
       "    RUNTIME_OUTPUT_DIRECTORY ${CMAKE_BINARY_DIR}/bin";
       ")" ].

(** The manifest, line by line. *)
Definition manifest_lines (config : Config) : list string :=
  main_header_lines (projectName config) (py_str (cStandard config))
                    (py_str (cppStandard config))
  ++ map library_line (libraries config)
  ++ [ EmptyString; "# Add executables" ]
  ++ flat_map executable_lines (executables config)
  ++ (if dict_get (enableTests config) true
      then [ EmptyString; EmptyString; "# --- Testing ---"; "enable_testing()";
             "add_subdirectory(tests)" ]
      else []).

(** No text of the executable holds a line feed. *)
Definition executable_single_line (exe : Executable) : bool :=
  single_line (exe_name exe)
  && forallb single_line (exe_sources exe)
  && forallb single_line (effective_dependencies exe).

(** No text that reaches the root manifest holds a line feed. *)
Definition config_single_line (config : Config) : bool :=
  single_line (projectName config)
  && single_line (py_str (cStandard config))
  && single_line (py_str (cppStandard config))
  && forallb (fun lib => single_line (lib_name lib)) (libraries config)
  && forallb executable_single_line (executables config).

(** A source path with a line feed in it: one executable, two
    [add_executable] lines. *)
Definition two_line_source_config : Config :=
  {| projectName := "demo"; cStandard := SInt 11; cppStandard := SInt 17;
     libraries := [];
     executables :=
       [ {| exe_name := "app";
            exe_sources := [ "main.c)" +:+ nl +:+ "add_executable(ghost ghost.c" ];
            exe_dependencies := None |} ];
     enableTests := Some false; outputDir := None |}.

(** The lines of a text that start with [p]. *)
Definition lines_starting (p : string) (text : string) : list string :=
  List.filter (String.prefix p) (lines text).

(** ** Vocabulary of the file-system statements *)

(** The world a run leaves. *)
Definition world_after {A} (r : result A * world * list string) : world :=
  snd (fst r).

Definition same_kind (n n' : node) : Prop :=
  match n, n' with
  | Dir, Dir => True
  | File _, File _ => True
  | _, _ => False
  end.

(** Nothing is removed and nothing changes its kind: the only changes are
    new nodes and new contents of files. *)
Definition grows (m m' : gmap (list string) node) : Prop :=
  forall k n, node_at m k = Some n -> exists n', node_at m' k = Some n' /\ same_kind n n'.

Definition extends (w w' : world) : Prop :=
  cwd w' = cwd w /\ script_dir w' = script_dir w /\ json_load w' = json_load w
  /\ grows (fs w) (fs w').

(** A well-formed file system: every node sits in a directory. *)
Definition fs_wf (m : gmap (list string) node) : Prop :=
  forall k n, m !! k = Some n -> node_at m (removelast k) = Some Dir.

(** A well-formed world: moreover the working directory exists. *)
Definition world_wf (w : world) : Prop :=
  fs_wf (fs w) /\ node_at (fs w) (cwd w) = Some Dir.

(** [I] holds after [m] whenever it holds before, however [m] ends. *)
Definition preserves {A} (I : world -> Prop) (m : M A) : Prop :=
  forall w, I w -> I (world_after (m w)).

(** [I] is kept by the two system calls that change the file system. *)
Definition call_stable (I : world -> Prop) : Prop :=
  (forall w p w', I w -> os_mkdir w p = inr w' -> I w')
  /\ (forall w p data w', I w -> os_write w p data = inr w' -> I w').

(** The steps of [main] after the root directory has been made. *)
Definition populate (config : Config) (root : Path) : M unit :=
  (Path_write_text (root // "CMakeLists.txt") (create_main_cmakelists config);;
   create_executable_sources config root;;
   create_libraries config root;;
   create_tests config root;;
   print ("Project '" +:+ projectName config +:+ "' created successfully in '"
          +:+ path_str root +:+ "'.");;
   print "To build:";;
   print ("  cd " +:+ path_str root);;
   print "  cmake -B build -G Ninja";;
   print "  cmake --build build")%io.

(** ** Example worlds and configurations *)

(** The JSON text of a configuration, as [json.dumps] writes it.  The texts
    of the examples need no escapes. *)
Module Json.

Definition text (s : string) : string := dq +:+ s +:+ dq.

Definition array (items : list string) : string := "[" +:+ join ", " items +:+ "]".

Definition object (members : list (string * string)) : string :=
  "{" +:+ join ", " (map (fun m => text (fst m) +:+ ": " +:+ snd m) members) +:+ "}".

Definition number_or_text (v : scalar) : string :=
  match v with
  | SInt z => str_Z z
  | SStr s => text s
  end.

Definition library (lib : Library) : string :=
  object [ ("name", text (lib_name lib));
           ("sources", array (map text (lib_sources lib)));
           ("headers", array (map text (lib_headers lib))) ].

Definition executable (exe : Executable) : string :=
  object ([ ("name", text (exe_name exe));
            ("sources", array (map text (exe_sources exe))) ]
          ++ match exe_dependencies exe with
             | Some deps => [ ("dependencies", array (map text deps)) ]
             | None => []
             end).

Definition dumps (config : Config) : string :=
  object ([ ("projectName", text (projectName config));
            ("cStandard", number_or_text (cStandard config));
            ("cppStandard", number_or_text (cppStandard config));
            ("libraries", array (map library (libraries config)));
            ("executables", array (map executable (executables config))) ]
          ++ match enableTests config with
             | Some true => [ ("enableTests", "true") ]
             | Some false => [ ("enableTests", "false") ]
             | None => []
             end
          ++ match outputDir config with
             | Some d => [ ("outputDir", text d) ]
             | None => []
             end).

End Json.

(** The error of [json.load] on a text that does not start with a JSON
    value, such as a C source. *)
Definition expecting_value : JSONDecodeError :=
  {| err_msg := "Expecting value"; err_lineno := 1; err_colno := 1; err_pos := 0 |}.

(** A document that breaks off in its second line. *)
Definition malformed_text : string :=
  "{" +:+ dq +:+ "a" +:+ dq +:+ ":[" +:+ nl +:+ "  x".

(** The parser of the examples.  For a document it decodes the JSON text
    of the configuration and finds no JSON value in any other text; for a
    malformed template it fails with the template's error. *)
Definition parser_for (t : template_file) (data : string) : JSONDecodeError + Config :=
  match t with
  | TemplateDocument config =>
      if String.eqb data (Json.dumps config) then inr config else inl expecting_value
  | TemplateMalformed e => inl e
  | _ => inl expecting_value
  end.

Definition template_key : list string := ["opt"; "tool"; "project_template.json"].

(** The directory of the script, [/opt/tool], added to a file system, with
    the template as [t] has it: no file, a document that breaks off, the
    JSON text of a configuration, or a directory in the place of the
    file. *)
Definition with_tool (t : template_file) (m : gmap (list string) node)
  : gmap (list string) node :=
  let m := <[ ["opt"; "tool"] := Dir ]> (<[ ["opt"] := Dir ]> m) in
  match t with
  | TemplateMissing => m
  | TemplateMalformed _ => <[ template_key := File malformed_text ]> m
  | TemplateDocument config => <[ template_key := File (Json.dumps config) ]> m
  | TemplateUnreadable _ => <[ template_key := Dir ]> m
  end.

(** A home directory with nothing in it. *)
Definition empty_home (t : template_file) : world :=
  {| fs := with_tool t (<[ ["home"; "u"] := Dir ]> (<[ ["home"] := Dir ]> ∅));
     cwd := ["home"; "u"];
     script_dir := parse_path "/opt/tool";
     json_load := parser_for t |}.

(** The scenario of the spec, section 8. *)
Definition demo_config : Config :=
  {| projectName := "demo"; cStandard := SInt 11; cppStandard := SInt 17;
     libraries := [ {| lib_name := "foo"; lib_sources := ["foo.c"];
                       lib_headers := ["foo.h"] |} ];
     executables := [ {| exe_name := "app"; exe_sources := ["main.c"];
                         exe_dependencies := Some ["foo"] |} ];
     enableTests := Some true; outputDir := None |}.

(** An output directory that turns out to be a regular file, reached
    through a directory that does not exist yet. *)
Definition blocked_config : Config :=
  {| projectName := "p"; cStandard := SInt 11; cppStandard := SInt 17;
     libraries := []; executables := [];
     enableTests := None; outputDir := Some "new/../notes.txt" |}.

Definition blocked_world : world :=
  {| fs := with_tool (TemplateDocument blocked_config)
             (<[ ["home"; "u"; "notes.txt"] := File "remember the milk" ]>
                (<[ ["home"; "u"] := Dir ]> (<[ ["home"] := Dir ]> ∅)));
     cwd := ["home"; "u"];
     script_dir := parse_path "/opt/tool";
     json_load := parser_for (TemplateDocument blocked_config) |}.

(** A name that is one path component: [Path(s)] is [s] itself, and [s] is
    not [..]. *)
Definition single_component (s : string) : bool :=
  bool_decide (parse_path s = {| path_anchor := Relative; path_parts := [s] |})
  && negb (String.eqb s "..").

Definition not_dotdot (c : string) : bool := negb (String.eqb c "..").

(** A path that stays below the directory it is joined to: relative and
    without [..]. *)
Definition confined (s : string) : bool :=
  match path_anchor (parse_path s) with
  | Relative => forallb not_dotdot (path_parts (parse_path s))
  | _ => false
  end.

(** What [create_tests] leaves in the tests directory. *)
Definition tests_tree : gmap (list string) node :=
  <[ ["test_foo.cpp"] := File tests_source ]>
    (<[ ["CMakeLists.txt"] := File tests_cmakelists ]> ∅).

(** [I] is kept by the two changing system calls on the path [p]. *)
Definition call_keeps (I : world -> Prop) (p : Path) : Prop :=
  (forall w w', I w -> os_mkdir w p = inr w' -> I w')
  /\ (forall w data w', I w -> os_write w p data = inr w' -> I w').

(** The steps of [main] from making the root to the end of the libraries
    [earlier], the ones in front of the library under consideration. *)
Definition before_library (config : Config) (root : Path) (earlier : list Library)
  : M unit :=
  (Path_mkdir_parents root;;
   Path_write_text (root // "CMakeLists.txt") (create_main_cmakelists config);;
   create_executable_sources config root;;
   Path_mkdir false (root // "lib");;
   for_each earlier (create_library (root // "lib")))%io.

(** A library whose directory name is one component and whose sources and
    headers stay below the directories they are written to. *)
Definition library_confined (lib : Library) : bool :=
  single_component (lib_name lib)
  && forallb confined (lib_sources lib)
  && forallb confined (lib_headers lib).

(** Two libraries with different names; a source of the first is the path
    of the second one's directory. *)
Definition escaping_source_config : Config :=
  {| projectName := "demo"; cStandard := SInt 11; cppStandard := SInt 17;
     libraries := [ {| lib_name := "a"; lib_sources := ["../b"]; lib_headers := [] |};
                    {| lib_name := "b"; lib_sources := []; lib_headers := [] |} ];
     executables := [];
     enableTests := None; outputDir := None |}.

(** The invariant of the loop over the libraries, from the world [w0] in
    which [lib] has just been made at the key [lib_key]: the world is
    well-formed, it extends [w0], and what lies directly in [lib] is named
    after one of [names]. *)
Definition library_loop_inv (w0 : world) (lib_key : list string) (names : list string)
    (w : world) : Prop :=
  world_wf w
  /\ extends w0 w
  /\ forall c, node_at (fs w) (lib_key ++ [c]) <> None -> In c names.

(** The path [q] is [lib_dir / name / ...] with no [..] after [lib_dir]. *)
Definition below_library (lib_dir : Path) (name : string) (q : Path) : Prop :=
  path_anchor q = path_anchor lib_dir
  /\ exists comps,
       path_parts q = path_parts lib_dir ++ name :: comps
       /\ forallb not_dotdot comps = true.

#[export] Instance node_eq_dec : EqDecision node.
Proof. solve_decision. Defined.

#[export] Instance fs_wf_dec (m : gmap (list string) node) : Decision (fs_wf m).
Proof.
  exact (map_Forall_dec (fun k (_ : node) => node_at m (removelast k) = Some Dir)
           (H7 := fun k _ => decide (node_at m (removelast k) = Some Dir)) m).
Defined.

#[export] Instance world_wf_dec (w : world) : Decision (world_wf w).
Proof. unfold world_wf. apply _. Defined.

(** The home directory with a directory [demo] already in it. *)
Definition occupied_home (t : template_file) : world :=
  {| fs := with_tool t
             (<[ ["home"; "u"; "demo"] := Dir ]>
                (<[ ["home"; "u"] := Dir ]> (<[ ["home"] := Dir ]> ∅)));
     cwd := ["home"; "u"];
     script_dir := parse_path "/opt/tool";
     json_load := parser_for t |}.

(** One executable without the [dependencies] key, and the same executable
    with an empty list. *)
Definition plain_executable (deps : option (list string)) : Executable :=
  {| exe_name := "app"; exe_sources := ["main.c"; "util.c"]; exe_dependencies := deps |}.

Definition plain_config : Config :=
  {| projectName := "demo"; cStandard := SStr "11"; cppStandard := SInt 17;
     libraries := [];
     executables := [ plain_executable None ];
     enableTests := None; outputDir := Some "out" |}.

(** An executable with the template's own path among its sources:
    [root / src] is [src] when [src] is absolute. *)
Definition overwriting_config : Config :=
  {| projectName := "demo"; cStandard := SInt 11; cppStandard := SInt 17;
     libraries := [];
     executables :=
       [ {| exe_name := "app";
            exe_sources := ["main.c"; "/opt/tool/project_template.json"];
            exe_dependencies := None |} ];
     enableTests := None; outputDir := None |}.

(** The message of [json.loads] on a document broken in its second line. *)
Definition sample_decode_error : JSONDecodeError :=
  {| err_msg := "Expecting value"; err_lineno := 2; err_colno := 3; err_pos := 9 |}.

Definition library_named (name : string) : Library :=
  {| lib_name := name; lib_sources := [name +:+ ".c"]; lib_headers := [name +:+ ".h"] |}.

(** Two libraries, with the same name or with different ones. *)
Definition two_libraries_config (first second : string) : Config :=
  {| projectName := "demo"; cStandard := SInt 11; cppStandard := SInt 17;
     libraries := [ library_named first; library_named second ];
     executables := [ plain_executable None ];
     enableTests := Some true; outputDir := None |}.

(** ** Vocabulary of the further properties *)

(** A program that prints nothing. *)
Definition silent {A} (m : M A) : Prop := forall w, snd (m w) = [].

(** The first line [main] prints once the root is known to be absent. *)
Definition creating_line (config : Config) : string :=
  "Creating project '" +:+ projectName config +:+ "' in '"
  +:+ path_str (project_root config) +:+ "'...".

(** The five lines [main] prints at its end. *)
Definition success_lines (config : Config) : list string :=
  [ "Project '" +:+ projectName config +:+ "' created successfully in '"
    +:+ path_str (project_root config) +:+ "'.";
    "To build:";
    "  cd " +:+ path_str (project_root config);
    "  cmake -B build -G Ninja";
    "  cmake --build build" ].

(** A run whose output is [final] when it returns and nothing when it
    raises. *)
Definition reports {A} (final : list string) (r : result A * world * list string) : Prop :=
  snd r = match fst (fst r) with
          | Returned _ => final
          | Raised _ => []
          end.

(** A source path with a directory in front of the file name: relative,
    at least two components, the first of them not [..]. *)
Definition has_directory_part (s : string) : bool :=
  match path_anchor (parse_path s), path_parts (parse_path s) with
  | Relative, d :: _ :: _ => not_dotdot d
  | _, _ => false
  end.

(** No directory lies directly in the directory with key [k]. *)
Definition no_subdirectory (k : list string) (w : world) : Prop :=
  forall c, node_at (fs w) (k ++ [c]) <> Some Dir.

(** ** The tree of a project, built without a file system

    What the steps of [main] add to a file system when every one of them
    goes through, as functions on the map: the same writes in the same
    order, at the keys the paths resolve to. *)

(** [for s in names: (dir / s).write_text(text(s))] *)
Definition write_all (dir : list string) (names : list string) (text : string -> string)
    (m : gmap (list string) node) : gmap (list string) node :=
  fold_left (fun m s => <[dir ++ [s] := File (text s)]> m) names m.

Definition build_executables (root_key : list string) (exes : list Executable)
    (m : gmap (list string) node) : gmap (list string) node :=
  fold_left
    (fun m exe => write_all root_key (exe_sources exe) (fun _ => exe_source_text exe) m)
    exes m.

Definition build_library (lib_key : list string) (m : gmap (list string) node)
    (lib : Library) : gmap (list string) node :=
  let dir := lib_key ++ [lib_name lib] in
  let m := <[dir := Dir]> m in
  let m := <[dir ++ ["CMakeLists.txt"] := File (create_lib_cmakelists lib)]> m in
  let m := write_all dir (lib_sources lib) (fun _ => lib_source_text lib) m in
  let m := <[dir ++ ["include"] := Dir]> m in
  write_all (dir ++ ["include"]) (lib_headers lib) (header_text lib) m.

Definition build_tests (root_key : list string) (config : Config)
    (m : gmap (list string) node) : gmap (list string) node :=
  if dict_get (enableTests config) false then
    let dir := root_key ++ ["tests"] in
    <[dir ++ ["test_foo.cpp"] := File tests_source]>
      (<[dir ++ ["CMakeLists.txt"] := File tests_cmakelists]> (<[dir := Dir]> m))
  else m.

Definition build_project (root_key : list string) (config : Config)
    (m : gmap (list string) node) : gmap (list string) node :=
  let m := <[root_key ++ ["CMakeLists.txt"] := File (create_main_cmakelists config)]> m in
  let m := build_executables root_key (executables config) m in
  let m := <[root_key ++ ["lib"] := Dir]> m in
  let m := fold_left (build_library (root_key ++ ["lib"])) (libraries config) m in
  build_tests root_key config m.

(** ** Configurations that [main] can materialise *)

(** A source of an executable: one path component, and not the name of a
    directory that [main] makes in the root. *)
Definition safe_executable_source (tests : bool) (s : string) : bool :=
  single_component s
  && negb (String.eqb s "lib")
  && negb (tests && String.eqb s "tests").

(** A library: the name, every source and every header is one path
    component, and no source is called [include]. *)
Definition safe_library (lib : Library) : bool :=
  single_component (lib_name lib)
  && forallb (fun s => single_component s && negb (String.eqb s "include"))
             (lib_sources lib)
  && forallb single_component (lib_headers lib).

Definition safe_config (config : Config) : bool :=
  forallb (fun exe =>
             forallb (safe_executable_source (dict_get (enableTests config) false))
                     (exe_sources exe))
          (executables config)
  && forallb safe_library (libraries config)
  && bool_decide (NoDup (map lib_name (libraries config))).

(** In the well-formed world [w] the path [p] is the directory with key
    [k]. *)
Definition directory_at (w : world) (p : Path) (k : list string) : Prop :=
  world_wf w /\ resolve w p = inr k /\ node_at (fs w) k = Some Dir.

(** Nothing lies below the key [k]. *)
Definition empty_below (k : list string) (m : gmap (list string) node) : Prop :=
  forall rel, rel <> [] -> m !! (k ++ rel) = None.

(** ** The directories on the way to the root *)

(** What [root.mkdir(parents=True)] adds when it goes through: every
    component below [cur] that is not there yet becomes a directory, from
    the outermost one inwards. *)
Fixpoint make_dirs (m : gmap (list string) node) (cur : list string) (comps : list string)
  : gmap (list string) node :=
  match comps with
  | [] => m
  | c :: cs =>
      let k := cur ++ [c] in
      make_dirs (match m !! k with
                 | Some _ => m
                 | None => <[k := Dir]> m
                 end) k cs
  end.

(** The directory a path is resolved from, by its anchor. *)
Definition start_at (w : world) (a : anchor) : list string :=
  start_of w {| path_anchor := a; path_parts := [] |}.


(** ** More example worlds and configurations *)

(** One executable [app] with the given sources, no library. *)
Definition hello_config (sources : list string) (tests : bool) : Config :=
  {| projectName := "demo"; cStandard := SInt 11; cppStandard := SInt 17;
     libraries := [];
     executables := [ {| exe_name := "app"; exe_sources := sources;
                         exe_dependencies := None |} ];
     enableTests := Some tests; outputDir := None |}.

(** A library with a source that is called as its directory of headers. *)
Definition include_source_library : Library :=
  {| lib_name := "foo"; lib_sources := ["./include"]; lib_headers := ["foo.h"] |}.

Definition include_source_config : Config :=
  {| projectName := "demo"; cStandard := SInt 11; cppStandard := SInt 17;
     libraries := [ include_source_library ];
     executables := [];
     enableTests := None; outputDir := None |}.

(** The scenario of the spec with an output directory two levels down. *)
Definition deep_config : Config :=
  {| projectName := projectName demo_config;
     cStandard := cStandard demo_config;
     cppStandard := cppStandard demo_config;
     libraries := libraries demo_config;
     executables := executables demo_config;
     enableTests := enableTests demo_config;
     outputDir := Some "out/projects" |}.

(** The scenario of the spec with a regular file as its output directory. *)
Definition under_file_config : Config :=
  {| projectName := projectName demo_config;
     cStandard := cStandard demo_config;
     cppStandard := cppStandard demo_config;
     libraries := libraries demo_config;
     executables := executables demo_config;
     enableTests := enableTests demo_config;
     outputDir := Some "notes.txt" |}.

(** A home directory with one regular file in it. *)
Definition notes_home (t : template_file) : world :=
  {| fs := with_tool t
             (<[ ["home"; "u"; "notes.txt"] := File "remember the milk" ]>
                (<[ ["home"; "u"] := Dir ]> (<[ ["home"] := Dir ]> ∅)));
     cwd := ["home"; "u"];
     script_dir := parse_path "/opt/tool";
     json_load := parser_for t |}.

(** The empty home directory with a template that holds [config]. *)
Definition home_with (config : Config) : world :=
  empty_home (TemplateDocument config).

(** The world in which [main] has just made the root of [config]. *)
Definition root_made_in (w : world) (config : Config) : world :=
  world_after (Path_mkdir_parents (project_root config) w).


(** * Lemmas and theorems *)

(** * Facts about text *)

Section TextFacts.

(** stdpp keeps [simpl] from unfolding [+:+]; these two equations do it. *)
Lemma append_cons (x : ascii) (a b : string) :
  String x a +:+ b = String x (a +:+ b).
Proof. reflexivity. Qed.

Lemma append_nil_l (b : string) : EmptyString +:+ b = b.
Proof. reflexivity. Qed.

Lemma append_assoc (a b c : string) : (a +:+ b) +:+ c = a +:+ (b +:+ c).
Proof.
  induction a as [|x a IH]; [reflexivity |].
  now rewrite !append_cons, IH.
Qed.

Lemma append_nil_r (a : string) : a +:+ EmptyString = a.
Proof.
  induction a as [|x a IH]; [reflexivity |].
  now rewrite append_cons, IH.
Qed.

Lemma unlines_app (xs ys : list string) :
  unlines (xs ++ ys) = unlines xs +:+ unlines ys.
Proof.
  induction xs as [|x xs IH]; simpl; [reflexivity |].
  now rewrite IH, !append_assoc.
Qed.

Lemma lacks_append c (a b : string) :
  lacks c (a +:+ b) = lacks c a && lacks c b.
Proof.
  induction a as [|x a IH]; [reflexivity |].
  rewrite append_cons. simpl.
  destruct (decide (x = c)); [reflexivity | exact IH].
Qed.

Lemma lacks_join c sep (xs : list string) :
  lacks c sep = true ->
  forallb (lacks c) xs = true ->
  lacks c (join sep xs) = true.
Proof.
  intros Hsep. unfold join.
  induction xs as [|x [|y ys] IH]; simpl; intros H; [reflexivity | |].
  - now rewrite andb_true_r in H.
  - apply andb_true_iff in H as [Hx H].
    rewrite !lacks_append, Hx, Hsep. simpl. exact (IH H).
Qed.

(** Splitting at a separator that the first piece lacks. *)
Lemma split_cons c (a b : string) :
  lacks c a = true ->
  split c (a +:+ String c b) = a :: split c b.
Proof.
  induction a as [|x a IH]; intros H.
  - rewrite append_nil_l. simpl.
    destruct (decide (c = c)); [reflexivity | contradiction].
  - rewrite append_cons. simpl in *.
    destruct (decide (x = c)); [discriminate |].
    now rewrite (IH H).
Qed.

Lemma nl_append (s : string) : nl +:+ s = String (ascii_of_nat 10) s.
Proof. reflexivity. Qed.

Lemma lines_unlines (ls : list string) (rest : string) :
  forallb single_line ls = true ->
  lines (unlines ls +:+ rest) = ls ++ lines rest.
Proof.
  unfold lines, single_line.
  induction ls as [|l ls IH]; simpl; intros H; [reflexivity |].
  apply andb_true_iff in H as [Hl H].
  rewrite !append_assoc, nl_append.
  rewrite (split_cons _ _ _ Hl). now rewrite (IH H).
Qed.

(** A line that stands between two line feeds is a line of the text,
    whatever comes before. *)
Lemma line_after_any_text (x l y : string) :
  single_line l = true ->
  In l (tl (lines (x +:+ nl +:+ l +:+ nl +:+ y))).
Proof.
  unfold lines, single_line. intros Hl.
  rewrite !nl_append.
  induction x as [|a x IH].
  - rewrite append_nil_l. simpl.
    rewrite (split_cons _ _ _ Hl). now left.
  - rewrite append_cons. simpl.
    destruct (decide (a = ascii_of_nat 10)) as [_|_].
    + simpl. destruct (split _ _); [destruct IH | now right].
    + destruct (split _ _) as [|h t]; [destruct IH | exact IH].
Qed.

Lemma prefix_append (p x : string) : String.prefix p (p +:+ x) = true.
Proof.
  induction p as [|a p IH]; [now destruct x |].
  rewrite append_cons. simpl.
  destruct (ascii_dec a a); [exact IH | contradiction].
Qed.

End TextFacts.

(** * The root manifest as a list of lines *)

Section Manifest.

Lemma add_executable_block_eq content exe :
  add_executable_block content exe = content +:+ executable_block exe.
Proof.
  unfold add_executable_block, executable_block, executable_line, link_line,
    has_dependencies, effective_dependencies.
  destruct (exe_dependencies exe) as [[|d ds]|]; simpl dict_get; cbv iota;
    now rewrite ?append_assoc.
Qed.

Lemma fold_library_lines libs content :
  fold_left add_library_line libs content
  = content +:+ unlines (map library_line libs).
Proof.
  revert content. induction libs as [|lib libs IH]; intros content; simpl.
  - now rewrite append_nil_r.
  - rewrite IH. unfold add_library_line, library_line.
    now rewrite !append_assoc.
Qed.

Lemma fold_executable_blocks exes content :
  fold_left add_executable_block exes content
  = content +:+ foldr (fun exe acc => executable_block exe +:+ acc) EmptyString exes.
Proof.
  revert content. induction exes as [|exe exes IH]; intros content; simpl.
  - now rewrite append_nil_r.
  - now rewrite IH, add_executable_block_eq, append_assoc.
Qed.

(** The manifest, spelled out: header, one line per library, one block
    per executable, and the testing block under its flag. *)
Lemma create_main_cmakelists_eq config :
  create_main_cmakelists config
  = main_header (projectName config) (py_str (cStandard config))
                (py_str (cppStandard config))
    +:+ unlines (map library_line (libraries config))
    +:+ nl +:+ "# Add executables" +:+ nl
    +:+ foldr (fun exe acc => executable_block exe +:+ acc) EmptyString
              (executables config)
    +:+ (if dict_get (enableTests config) true then testing_block else EmptyString).
Proof.
  unfold create_main_cmakelists. cbv zeta.
  rewrite fold_executable_blocks, fold_library_lines.
  destruct (dict_get (enableTests config) true);
    now rewrite ?append_assoc, ?append_nil_r.
Qed.

End Manifest.

(** * The claims about generated text *)

(** C1: when [enableTests] is absent, the manifest's default is enabled (the
    manifest ends with the testing block and has the line
    [add_subdirectory(tests)]) and the directory's default is disabled (the
    tests step does nothing, in every world): the two defaults disagree. *)
Theorem enableTests_absent_defaults_disagree (config : Config) :
  enableTests config = None ->
  dict_get (enableTests config) true <> dict_get (enableTests config) false
  /\ (exists body, create_main_cmakelists config = body +:+ testing_block)
  /\ In "add_subdirectory(tests)" (lines (create_main_cmakelists config))
  /\ forall root w, create_tests config root w = (Returned tt, w, []).
Proof.
  intros Habsent. split; [| split; [| split]].
  - rewrite Habsent. discriminate.
  - unfold create_main_cmakelists. rewrite Habsent. cbv zeta. simpl dict_get.
    eexists. reflexivity.
  - unfold create_main_cmakelists. rewrite Habsent. cbv zeta. simpl dict_get.
    unfold testing_block.
    set (body := fold_left add_executable_block _ _).
    change (unlines _) with
      ("# --- Testing ---" +:+ nl +:+ "enable_testing()" +:+ nl
       +:+ "add_subdirectory(tests)" +:+ nl +:+ EmptyString).
    replace (body +:+ nl +:+ nl +:+ "# --- Testing ---" +:+ nl
             +:+ "enable_testing()" +:+ nl +:+ "add_subdirectory(tests)"
             +:+ nl +:+ EmptyString)
      with ((body +:+ nl +:+ nl +:+ "# --- Testing ---" +:+ nl
             +:+ "enable_testing()") +:+ nl +:+ "add_subdirectory(tests)"
            +:+ nl +:+ EmptyString)
      by now rewrite !append_assoc.
    pose proof (line_after_any_text
      (body +:+ nl +:+ nl +:+ "# --- Testing ---" +:+ nl +:+ "enable_testing()")
      "add_subdirectory(tests)" EmptyString eq_refl) as Hin.
    destruct (lines _); [destruct Hin | now right].
  - intros root w. unfold create_tests. now rewrite Habsent.
Qed.

(** A run without the key: the manifest that is written includes [tests],
    and no [tests] is made. *)
Example enableTests_absent_run :
  let w' := world_after (main None (empty_home (TemplateDocument plain_config))) in
  (exists text,
      fs w' !! ["home"; "u"; "out"; "demo"; "CMakeLists.txt"] = Some (File text)
      /\ In "add_subdirectory(tests)" (lines text))
  /\ fs w' !! ["home"; "u"; "out"; "demo"; "lib"] = Some Dir
  /\ fs w' !! ["home"; "u"; "out"; "demo"; "tests"] = None.
Proof.
  cbv zeta. split; [| split; vm_compute; reflexivity].
  eexists. split; [vm_compute; reflexivity | vm_compute; tauto].
Qed.

Lemma upper_ascii_capital (a : ascii) : upper_ascii a = capital a.
Proof. destruct a as [[] [] [] [] [] [] [] []]; vm_compute; reflexivity. Qed.

Lemma upper_uppercased (s : string) : upper s = uppercased s.
Proof.
  induction s as [|a s IH]; [reflexivity |].
  simpl. now rewrite IH, upper_ascii_capital.
Qed.

Lemma length_uppercased (s : string) : String.length (uppercased s) = String.length s.
Proof. induction s as [|a s IH]; simpl; [reflexivity | now rewrite IH]. Qed.

Lemma length_append (a b : string) :
  String.length (a +:+ b) = (String.length a + String.length b)%nat.
Proof. induction a as [|x a IH]; simpl; [reflexivity | now rewrite IH]. Qed.

Lemma get_uppercased_append (s rest : string) (i : nat) (a : ascii) :
  String.get i s = Some a -> String.get i (uppercased s +:+ rest) = Some (capital a).
Proof.
  revert i. induction s as [|x s IH]; intros i; simpl; [discriminate |].
  destruct i as [|i]; simpl.
  - now intros [= ->].
  - apply IH.
Qed.

Lemma capital_ascii (a : ascii) :
  (nat_of_ascii a <? 128)%nat = true -> (nat_of_ascii (capital a) <? 128)%nat = true.
Proof. destruct a as [[] [] [] [] [] [] [] []]; vm_compute; trivial. Qed.

Lemma ascii_text_uppercased_append (s rest : string) :
  ascii_text s = true -> ascii_text rest = true ->
  ascii_text (uppercased s +:+ rest) = true.
Proof.
  unfold ascii_text. intros Hs Hrest.
  induction s as [|a s IH]; simpl in *; [exact Hrest |].
  apply andb_true_iff in Hs as [Ha Hs].
  apply andb_true_iff. split; [now apply capital_ascii | now apply IH].
Qed.

(** C5: for a library name of ASCII characters, the range in which [upper]
    is [str.upper], the include guard of a header is the uppercased library
    name followed by [_H]: character by character the name with every small
    letter replaced by its capital, two characters longer than the name.
    The text of the header opens with [#ifndef] and [#define] of that guard.
    Neither depends on the header's file name, so all headers of a library
    get the same guard and the same text. *)
Theorem header_guard_from_library_name (lib : Library) (hdr : string) :
  ascii_text (lib_name lib) = true ->
  header_guard lib hdr = uppercased (lib_name lib) +:+ "_H"
  /\ ascii_text (header_guard lib hdr) = true
  /\ String.length (header_guard lib hdr) = (String.length (lib_name lib) + 2)%nat
  /\ (forall i a, String.get i (lib_name lib) = Some a ->
        String.get i (header_guard lib hdr) = Some (capital a))
  /\ (exists rest,
        header_text lib hdr
        = "#ifndef " +:+ uppercased (lib_name lib) +:+ "_H" +:+ nl
          +:+ "#define " +:+ uppercased (lib_name lib) +:+ "_H" +:+ nl +:+ rest)
  /\ forall hdr', header_guard lib hdr' = header_guard lib hdr
                  /\ header_text lib hdr' = header_text lib hdr.
Proof.
  intros Hascii.
  assert (Hguard : header_guard lib hdr = uppercased (lib_name lib) +:+ "_H")
    by (unfold header_guard; now rewrite upper_uppercased).
  split; [exact Hguard | split; [| split; [| split; [| split]]]].
  - rewrite Hguard. now apply ascii_text_uppercased_append.
  - rewrite Hguard, length_append, length_uppercased. reflexivity.
  - intros i a Hi. rewrite Hguard. now apply get_uppercased_append.
  - unfold header_text. cbv zeta. rewrite Hguard. simpl unlines.
    eexists. now rewrite !append_assoc.
  - intros hdr'. split; reflexivity.
Qed.

(** ** The manifest line by line *)

Section ManifestLines.

Lemma executable_block_lines exe :
  executable_block exe = unlines (executable_lines exe).
Proof.
  unfold executable_block, executable_lines, target_properties.
  destruct (exe_dependencies exe) as [[|d ds]|]; simpl unlines;
    now rewrite ?append_assoc.
Qed.

Lemma executable_blocks_lines exes :
  foldr (fun exe acc => executable_block exe +:+ acc) EmptyString exes
  = unlines (flat_map executable_lines exes).
Proof.
  induction exes as [|exe exes IH]; [reflexivity |].
  cbn [foldr flat_map]. now rewrite unlines_app, IH, executable_block_lines.
Qed.

Lemma create_main_cmakelists_lines config :
  create_main_cmakelists config = unlines (manifest_lines config).
Proof.
  rewrite create_main_cmakelists_eq. unfold manifest_lines, main_header.
  rewrite !unlines_app, executable_blocks_lines.
  destruct (dict_get (enableTests config) true); simpl unlines;
    now rewrite ?append_assoc, ?append_nil_r.
Qed.

Lemma single_line_append a b :
  single_line (a +:+ b) = single_line a && single_line b.
Proof. apply lacks_append. Qed.

Lemma single_line_join_space xs :
  forallb single_line xs = true -> single_line (join " " xs) = true.
Proof. apply lacks_join. reflexivity. Qed.

Lemma forallb_app' {A} (f : A -> bool) xs ys :
  forallb f (xs ++ ys) = forallb f xs && forallb f ys.
Proof. induction xs as [|x xs IH]; simpl; [reflexivity | now rewrite IH, andb_assoc]. Qed.

Lemma executable_lines_single exe :
  executable_single_line exe = true ->
  forallb single_line (executable_lines exe) = true.
Proof.
  unfold executable_single_line, executable_lines, executable_line, link_line.
  intros H. apply andb_true_iff in H as [H Hd]. apply andb_true_iff in H as [Hn Hs].
  apply single_line_join_space in Hs, Hd.
  destruct (exe_dependencies exe) as [[|d ds]|]; cbn [forallb app];
    rewrite !single_line_append, ?Hn, ?Hs, ?Hd; reflexivity.
Qed.

Lemma manifest_lines_single config :
  config_single_line config = true ->
  forallb single_line (manifest_lines config) = true.
Proof.
  unfold config_single_line, manifest_lines. intros H.
  apply andb_true_iff in H as [H He]. apply andb_true_iff in H as [H Hl].
  apply andb_true_iff in H as [H Hcpp]. apply andb_true_iff in H as [Hp Hc].
  rewrite !forallb_app'.
  apply andb_true_iff; split; [| apply andb_true_iff; split;
    [| apply andb_true_iff; split; [| apply andb_true_iff; split]]].
  - unfold main_header_lines. cbn [forallb].
    rewrite !single_line_append, Hp, Hc, Hcpp. reflexivity.
  - clear -Hl. induction (libraries config) as [|lib libs IH]; [reflexivity |].
    cbn [forallb map] in *.
    apply andb_true_iff in Hl as [Hn Hl]. unfold library_line at 1.
    rewrite !single_line_append, Hn, (IH Hl). reflexivity.
  - reflexivity.
  - clear -He. induction (executables config) as [|exe exes IH]; [reflexivity |].
    cbn [forallb flat_map] in *.
    apply andb_true_iff in He as [Hx He].
    now rewrite forallb_app', (executable_lines_single _ Hx), (IH He).
  - now destruct (dict_get (enableTests config) true).
Qed.

Lemma lines_create_main_cmakelists config :
  config_single_line config = true ->
  lines (create_main_cmakelists config) = manifest_lines config ++ [EmptyString].
Proof.
  intros H. rewrite create_main_cmakelists_lines.
  rewrite <- (append_nil_r (unlines _)).
  now rewrite (lines_unlines _ _ (manifest_lines_single _ H)).
Qed.

Lemma filter_library_lines libs :
  List.filter (String.prefix "add_subdirectory(lib/") (map library_line libs)
  = map library_line libs.
Proof.
  induction libs as [|lib libs IH]; simpl; [reflexivity |].
  unfold library_line at 1. now rewrite prefix_append, IH.
Qed.

Lemma filter_executable_lines_lib exes :
  List.filter (String.prefix "add_subdirectory(lib/") (flat_map executable_lines exes)
  = [].
Proof.
  induction exes as [|exe exes IH]; simpl; [reflexivity |].
  rewrite List.filter_app, IH, app_nil_r. unfold executable_lines.
  destruct (exe_dependencies exe) as [[|d ds]|]; reflexivity.
Qed.

Lemma filter_executable_lines_exe exes :
  List.filter (String.prefix "add_executable(") (flat_map executable_lines exes)
  = map executable_line exes.
Proof.
  induction exes as [|exe exes IH]; simpl; [reflexivity |].
  unfold executable_line at 1. rewrite prefix_append.
  rewrite List.filter_app, IH. fold (executable_line exe). f_equal.
  destruct (exe_dependencies exe) as [[|d ds]|]; reflexivity.
Qed.

Lemma filter_library_lines_exe libs :
  List.filter (String.prefix "add_executable(") (map library_line libs) = [].
Proof. induction libs as [|lib libs IH]; simpl; [reflexivity | exact IH]. Qed.

End ManifestLines.

(** C3, as the code has it: when no text of the configuration holds a line
    feed, the lines of the root manifest that start with
    [add_subdirectory(lib/] are the libraries' inclusion lines, one per
    library and in the order of the configuration, and the lines that start
    with [add_executable(] are the executables' target lines, one per
    executable and in order. *)
Theorem manifest_lines_follow_configuration (config : Config) :
  config_single_line config = true ->
  lines_starting "add_subdirectory(lib/" (create_main_cmakelists config)
  = map library_line (libraries config)
  /\ lines_starting "add_executable(" (create_main_cmakelists config)
     = map executable_line (executables config)
  /\ List.length (lines_starting "add_subdirectory(lib/" (create_main_cmakelists config))
     = List.length (libraries config)
  /\ List.length (lines_starting "add_executable(" (create_main_cmakelists config))
     = List.length (executables config).
Proof.
  intros H.
  assert (Hlib : lines_starting "add_subdirectory(lib/" (create_main_cmakelists config)
                 = map library_line (libraries config)).
  { unfold lines_starting. rewrite (lines_create_main_cmakelists _ H).
    unfold manifest_lines. rewrite !List.filter_app.
    rewrite filter_library_lines, filter_executable_lines_lib.
    destruct (dict_get (enableTests config) true); simpl; now rewrite ?app_nil_r. }
  assert (Hexe : lines_starting "add_executable(" (create_main_cmakelists config)
                 = map executable_line (executables config)).
  { unfold lines_starting. rewrite (lines_create_main_cmakelists _ H).
    unfold manifest_lines. rewrite !List.filter_app.
    rewrite filter_library_lines_exe, filter_executable_lines_exe.
    destruct (dict_get (enableTests config) true); simpl; now rewrite ?app_nil_r. }
  rewrite Hlib, Hexe, !length_map. auto.
Qed.

(** C3 as stated fails: a source path may hold a line feed, and then one
    executable gives two lines that start with [add_executable(]. *)
Lemma manifest_lines_counterexample :
  List.length (executables two_line_source_config) = 1
  /\ lines_starting "add_executable(" (create_main_cmakelists two_line_source_config)
     = [ "add_executable(app main.c)"; "add_executable(ghost ghost.c)" ].
Proof. split; reflexivity. Qed.

(** * The claims about early exits *)

(** C2: when the project root exists, as a file or as a directory, [main]
    prints the error that names it and returns; the world, and so the file
    system, is the one it started in. *)
Theorem existing_root_aborts (arg : option Path) (w : world) (config : Config) (n : node) :
  template w = TemplateDocument config ->
  os_stat w (project_root config) = inr n ->
  main arg w
  = (Returned tt, w,
     [ "Error: Directory '" +:+ path_str (project_root config) +:+ "' already exists." ]).
Proof.
  intros Htemplate Hstat.
  unfold main, bind, read_script_dir, read_template. fold (template w). rewrite Htemplate.
  unfold generate, bind, Path_exists. rewrite Hstat. reflexivity.
Qed.

(** C8: a missing template is reported with its path, a malformed one with
    the parser's message and position; in both cases [main] returns and the
    world is the one it started in. *)
Theorem template_errors_write_nothing (arg : option Path) (w : world) :
  (template w = TemplateMissing ->
   main arg w
   = (Returned tt, w,
      [ "Error: '" +:+ path_str (script_dir w // "project_template.json")
        +:+ "' not found." ]))
  /\ (forall e, template w = TemplateMalformed e ->
      main arg w
      = (Returned tt, w,
         [ "Error decoding JSON from '"
           +:+ path_str (script_dir w // "project_template.json") +:+ "': "
           +:+ err_msg e +:+ ": line " +:+ str_nat (err_lineno e)
           +:+ " column " +:+ str_nat (err_colno e)
           +:+ " (char " +:+ str_nat (err_pos e) +:+ ")" ])).
Proof.
  split.
  - intros H. unfold main, bind, read_script_dir, read_template. fold (template w).
    now rewrite H.
  - intros e H. unfold main, bind, read_script_dir, read_template. fold (template w).
    rewrite H.
    unfold print, JSONDecodeError_str, error_location. reflexivity.
Qed.

(** * The monad and the file system *)

Section MonadFacts.

Context {A B : Type}.

Lemma bind_returned (m : M A) (k : A -> M B) w b w' out :
  bind m k w = (Returned b, w', out) ->
  exists a w1 o1 o2,
    m w = (Returned a, w1, o1) /\ k a w1 = (Returned b, w', o2) /\ out = o1 ++ o2.
Proof.
  unfold bind. destruct (m w) as [[[a|e] w1] o1]; [| discriminate].
  destruct (k a w1) as [[r w2] o2] eqn:Hk. intros [= -> -> <-].
  now exists a, w1, o1, o2.
Qed.

Lemma bind_run (m : M A) (k : A -> M B) w a w1 o1 :
  m w = (Returned a, w1, o1) ->
  bind m k w = (fst (fst (k a w1)), world_after (k a w1), o1 ++ snd (k a w1)).
Proof.
  intros H. unfold bind, world_after. rewrite H.
  now destruct (k a w1) as [[r w2] o2].
Qed.

Lemma world_after_bind (m : M A) (k : A -> M B) w a w1 o1 :
  m w = (Returned a, w1, o1) -> world_after (bind m k w) = world_after (k a w1).
Proof. intros H. now rewrite (bind_run _ _ _ _ _ _ H). Qed.

Lemma bind_raised (m : M A) (k : A -> M B) w e w1 o1 :
  m w = (Raised e, w1, o1) -> bind m k w = (Raised e, w1, o1).
Proof. intros H. unfold bind. now rewrite H. Qed.

Lemma preserves_bind I (m : M A) (k : A -> M B) :
  preserves I m -> (forall a, preserves I (k a)) -> preserves I (bind m k).
Proof.
  intros Hm Hk w Hw. specialize (Hm w Hw). unfold bind, world_after in *.
  destruct (m w) as [[[a|e] w1] o1]; simpl in *; [| exact Hm].
  specialize (Hk a w1 Hm). unfold world_after in Hk.
  now destruct (k a w1) as [[r w2] o2].
Qed.

End MonadFacts.

Lemma preserves_ret {A} I (a : A) : preserves I (ret a).
Proof. intros w Hw. exact Hw. Qed.

Lemma preserves_print I line : preserves I (print line).
Proof. intros w Hw. exact Hw. Qed.

Lemma preserves_for_each {A} I (xs : list A) (body : A -> M unit) :
  (forall x, preserves I (body x)) -> preserves I (for_each xs body).
Proof.
  intros Hbody. induction xs as [|x xs IH]; simpl.
  - apply preserves_ret.
  - apply preserves_bind; [apply Hbody | intros _; exact IH].
Qed.

Lemma preserves_Path_exists I p : preserves I (Path_exists p).
Proof. intros w Hw. exact Hw. Qed.

Lemma preserves_Path_mkdir I exist_ok p :
  call_stable I -> preserves I (Path_mkdir exist_ok p).
Proof.
  intros [Hmk _] w Hw. unfold Path_mkdir, world_after.
  destruct (os_mkdir w p) as [e|w'] eqn:H; simpl.
  - destruct e; try exact Hw; destruct (exist_ok && is_dir w p); exact Hw.
  - exact (Hmk _ _ _ Hw H).
Qed.

Lemma preserves_mkdir_parents I a rparts exist_ok :
  call_stable I -> preserves I (mkdir_parents a rparts exist_ok).
Proof.
  intros HI. revert exist_ok.
  induction rparts as [|c rparent IH]; intros exist_ok w Hw; simpl;
    (destruct (os_mkdir w _) as [e|w'] eqn:H; [| exact (proj1 HI _ _ _ Hw H)]).
  - unfold world_after.
    destruct e; try exact Hw; destruct (exist_ok && _); exact Hw.
  - destruct e;
      try (unfold world_after; destruct (exist_ok && _); exact Hw).
    apply preserves_bind; [apply IH | intros _; now apply preserves_Path_mkdir | exact Hw].
Qed.

Lemma preserves_Path_write_text I p data :
  call_stable I -> preserves I (Path_write_text p data).
Proof.
  intros [_ Hwr] w Hw. unfold Path_write_text, world_after.
  destruct (os_write w p data) as [e|w'] eqn:H; simpl; [exact Hw |].
  exact (Hwr _ _ _ _ Hw H).
Qed.

Create HintDb io discriminated.
#[local] Hint Resolve preserves_ret preserves_print preserves_for_each
  preserves_Path_exists preserves_Path_mkdir preserves_mkdir_parents
  preserves_Path_write_text : io.

Ltac preserves_steps :=
  repeat first
    [ progress auto with io
    | apply preserves_bind
    | apply preserves_for_each
    | intro ].

Lemma preserves_create_executable_sources I config root :
  call_stable I -> preserves I (create_executable_sources config root).
Proof. intros HI. unfold create_executable_sources. preserves_steps. Qed.

Lemma preserves_create_library I lib_dir lib :
  call_stable I -> preserves I (create_library lib_dir lib).
Proof. intros HI. unfold create_library. preserves_steps. Qed.

Lemma preserves_create_libraries I config root :
  call_stable I -> preserves I (create_libraries config root).
Proof.
  intros HI. unfold create_libraries.
  apply preserves_bind; [auto with io | intros _].
  apply preserves_for_each. intros lib. now apply preserves_create_library.
Qed.

Lemma preserves_create_tests I config root :
  call_stable I -> preserves I (create_tests config root).
Proof.
  intros HI. unfold create_tests.
  destruct (dict_get (enableTests config) false); preserves_steps.
Qed.

Section FileSystemFacts.

Implicit Types (m : gmap (list string) node) (k cur : list string) (n : node).

Lemma node_at_insert_eq m k n : k <> [] -> node_at (<[k := n]> m) k = Some n.
Proof. destruct k; [congruence |]. intros _. apply lookup_insert_eq. Qed.

Lemma node_at_insert_ne m k k' n :
  k <> k' -> node_at (<[k := n]> m) k' = node_at m k'.
Proof. intros H. destruct k'; [reflexivity |]. now apply lookup_insert_ne. Qed.

Lemma node_at_None_ne_root m k : node_at m k = None -> k <> [].
Proof. now destruct k. Qed.

Lemma same_kind_refl n : same_kind n n.
Proof. now destruct n. Qed.

Lemma same_kind_trans n1 n2 n3 : same_kind n1 n2 -> same_kind n2 n3 -> same_kind n1 n3.
Proof. now destruct n1, n2, n3. Qed.

Lemma grows_refl m : grows m m.
Proof. intros k n H. exists n. split; [exact H | apply same_kind_refl]. Qed.

Lemma grows_trans m1 m2 m3 : grows m1 m2 -> grows m2 m3 -> grows m1 m3.
Proof.
  intros H12 H23 k n H. destruct (H12 k n H) as (n2 & H2 & K2).
  destruct (H23 k n2 H2) as (n3 & H3 & K3).
  exists n3. split; [exact H3 | eapply same_kind_trans; eassumption].
Qed.

Lemma grows_Dir m m' k : grows m m' -> node_at m k = Some Dir -> node_at m' k = Some Dir.
Proof. intros H Hk. destruct (H k Dir Hk) as ([|] & Hk' & K); [destruct K | exact Hk']. Qed.

Lemma grows_insert_new m k n : node_at m k = None -> grows m (<[k := n]> m).
Proof.
  intros Hnew k' n' H. exists n'. split; [| apply same_kind_refl].
  rewrite node_at_insert_ne; [exact H | congruence].
Qed.

Lemma grows_insert_file m k data data' :
  node_at m k = Some (File data) -> grows m (<[k := File data']> m).
Proof.
  intros Hfile k' n' H. destruct (decide (k = k')) as [<-|Hne].
  - exists (File data'). rewrite node_at_insert_eq; [| now destruct k].
    split; [reflexivity |]. rewrite Hfile in H. now injection H as <-.
  - exists n'. rewrite node_at_insert_ne by exact Hne. split; [exact H | apply same_kind_refl].
Qed.

Lemma walk_grows m m' cur comps k :
  grows m m' -> walk m cur comps = inr k -> walk m' cur comps = inr k.
Proof.
  intros Hg. revert cur. induction comps as [|c cs IH]; intros cur; simpl; [trivial |].
  destruct (node_at m cur) as [[data|]|] eqn:Hcur; try discriminate.
  rewrite (grows_Dir _ _ _ Hg Hcur). apply IH.
Qed.

Lemma walk_app m cur cs1 cs2 k1 :
  walk m cur cs1 = inr k1 -> walk m cur (cs1 ++ cs2) = walk m k1 cs2.
Proof.
  revert cur. induction cs1 as [|c cs IH]; intros cur; simpl.
  - now intros [= ->].
  - destruct (node_at m cur) as [[data|]|]; try discriminate. apply IH.
Qed.

Lemma extends_refl w : extends w w.
Proof. repeat split. apply grows_refl. Qed.

Lemma extends_trans w1 w2 w3 : extends w1 w2 -> extends w2 w3 -> extends w1 w3.
Proof.
  intros (Hc & Hs & Ht & Hg) (Hc' & Hs' & Ht' & Hg').
  repeat split; try congruence. eapply grows_trans; eassumption.
Qed.

Lemma os_mkdir_inv w p w' :
  os_mkdir w p = inr w' ->
  exists k, resolve w p = inr k /\ node_at (fs w) k = None
            /\ w' = set_fs w (<[k := Dir]> (fs w)).
Proof.
  unfold os_mkdir. destruct (resolve w p) as [e|k]; [discriminate |].
  destruct (node_at (fs w) k) eqn:Hk; [discriminate |].
  intros [= <-]. now exists k.
Qed.

Lemma os_write_inv w p data w' :
  os_write w p data = inr w' ->
  exists k, resolve w p = inr k /\ node_at (fs w) k <> Some Dir
            /\ w' = set_fs w (<[k := File data]> (fs w)).
Proof.
  unfold os_write. destruct (resolve w p) as [e|k]; [discriminate |].
  destruct (node_at (fs w) k) as [[old|]|] eqn:Hk; try discriminate;
    intros [= <-]; exists k; repeat split; congruence.
Qed.

Lemma os_mkdir_extends w p w' : os_mkdir w p = inr w' -> extends w w'.
Proof.
  intros (k & _ & Hnew & ->)%os_mkdir_inv. repeat split. simpl.
  now apply grows_insert_new.
Qed.

Lemma os_write_extends w p data w' : os_write w p data = inr w' -> extends w w'.
Proof.
  intros (k & _ & Hk & ->)%os_write_inv. repeat split. simpl.
  destruct (node_at (fs w) k) as [[old|]|] eqn:Hold.
  - eapply grows_insert_file; eassumption.
  - congruence.
  - now apply grows_insert_new.
Qed.

Lemma extends_call_stable w0 : call_stable (extends w0).
Proof.
  split.
  - intros w p w' Hw H. eapply extends_trans; [exact Hw | eapply os_mkdir_extends, H].
  - intros w p data w' Hw H. eapply extends_trans; [exact Hw | eapply os_write_extends, H].
Qed.

Lemma resolve_extends w w' p k :
  extends w w' -> resolve w p = inr k -> resolve w' p = inr k.
Proof.
  intros (Hc & _ & _ & Hg). unfold resolve, start_of. rewrite Hc.
  now apply walk_grows.
Qed.

Lemma stat_Dir_extends w w' p :
  extends w w' -> os_stat w p = inr Dir -> os_stat w' p = inr Dir.
Proof.
  intros He. unfold os_stat.
  destruct (resolve w p) as [e|k] eqn:Hr; [discriminate |].
  rewrite (resolve_extends _ _ _ _ He Hr).
  destruct (node_at (fs w) k) as [[data|]|] eqn:Hk; try discriminate.
  intros _. now rewrite (grows_Dir _ _ _ (proj2 (proj2 (proj2 He))) Hk).
Qed.

(** A directory that [os.mkdir] has made is there. *)
Lemma os_mkdir_stat w p w' : os_mkdir w p = inr w' -> os_stat w' p = inr Dir.
Proof.
  intros H. pose proof (os_mkdir_extends _ _ _ H) as He.
  apply os_mkdir_inv in H as (k & Hr & Hnew & ->).
  unfold os_stat. rewrite (resolve_extends _ _ _ _ He Hr). simpl.
  now rewrite node_at_insert_eq by (eapply node_at_None_ne_root; eassumption).
Qed.

Lemma Path_mkdir_stat p w w' out :
  Path_mkdir false p w = (Returned tt, w', out) -> os_stat w' p = inr Dir.
Proof.
  unfold Path_mkdir. destruct (os_mkdir w p) as [e|w1] eqn:H.
  - destruct e; discriminate.
  - intros [= <- _]. eapply os_mkdir_stat, H.
Qed.

(** When [mkdir(parents=True)] returns, the directory is there. *)
Lemma mkdir_parents_stat p w w' out :
  Path_mkdir_parents p w = (Returned tt, w', out) -> os_stat w' p = inr Dir.
Proof.
  unfold Path_mkdir_parents. destruct p as [a parts]. simpl.
  rewrite <- (rev_involutive parts) at 2.
  destruct (rev parts) as [|c rparent]; simpl.
  - destruct (os_mkdir w _) as [e|w1] eqn:H.
    + destruct e; discriminate.
    + intros [= <- _]. eapply os_mkdir_stat, H.
  - destruct (os_mkdir w _) as [e|w1] eqn:H.
    + destruct e; try discriminate.
      intros (? & w1 & o1 & o2 & _ & Hlast & _)%bind_returned.
      eapply Path_mkdir_stat, Hlast.
    + intros [= <- _]. eapply os_mkdir_stat, H.
Qed.

End FileSystemFacts.

(** * Runs of [main] *)

Lemma main_loaded arg w config :
  template w = TemplateDocument config -> main arg w = generate config w.
Proof.
  intros H. unfold main, bind, read_script_dir, read_template. fold (template w).
  rewrite H. now destruct (generate config w) as [[r w'] out].
Qed.

Lemma generate_root_exists w config n :
  os_stat w (project_root config) = inr n ->
  generate config w
  = (Returned tt, w,
     [ "Error: Directory '" +:+ path_str (project_root config) +:+ "' already exists." ]).
Proof. intros H. unfold generate, bind, Path_exists. now rewrite H. Qed.

Lemma preserves_populate I config root :
  call_stable I -> preserves I (populate config root).
Proof.
  intros HI. unfold populate.
  repeat (apply preserves_bind;
          [ first [ now apply preserves_create_executable_sources
                  | now apply preserves_create_libraries
                  | now apply preserves_create_tests
                  | now apply preserves_Path_write_text
                  | apply preserves_print ]
          | intros _ ]).
  apply preserves_print.
Qed.

Lemma generate_fresh w config e :
  os_stat w (project_root config) = inl e ->
  generate config w
  = bind (print ("Creating project '" +:+ projectName config +:+ "' in '"
                 +:+ path_str (project_root config) +:+ "'..."))
         (fun _ => bind (Path_mkdir_parents (project_root config))
                        (fun _ => populate config (project_root config))) w.
Proof.
  intros H. unfold generate. unfold bind at 1. unfold Path_exists. rewrite H.
  match goal with
  | |- match ?x with _ => _ end = ?y => change y with x; destruct x as [[? ?] ?]
  end.
  reflexivity.
Qed.

(** * The claims about repeated runs *)

(** Once the root is in place, found or made, the run of [main] leaves it in
    place. *)
Lemma main_leaves_root arg w config :
  template w = TemplateDocument config ->
  (exists n, os_stat w (project_root config) = inr n)
  \/ (exists w' out, Path_mkdir_parents (project_root config) w = (Returned tt, w', out)) ->
  exists n, os_stat (world_after (main arg w)) (project_root config) = inr n.
Proof.
  intros Htemplate Hroot. rewrite (main_loaded arg _ _ Htemplate).
  destruct (os_stat w (project_root config)) as [e|n] eqn:Hstat.
  - destruct Hroot as [[n Hn] | (w' & out & Hmk)]; [discriminate |].
    rewrite (generate_fresh _ _ _ Hstat).
    erewrite world_after_bind by reflexivity.
    erewrite world_after_bind by exact Hmk.
    set (w1 := world_after (populate config (project_root config) w')).
    assert (Hw' : extends w w').
    { pose proof (preserves_mkdir_parents (extends w) (path_anchor (project_root config))
        (rev (path_parts (project_root config))) false (extends_call_stable w) w
        (extends_refl w)) as H.
      unfold Path_mkdir_parents in Hmk. now rewrite Hmk in H. }
    assert (Hw1 : extends w' w1).
    { apply (preserves_populate (extends w') config (project_root config)
        (extends_call_stable w') w' (extends_refl w')). }
    exists Dir. eapply stat_Dir_extends; [exact Hw1 |]. eapply mkdir_parents_stat, Hmk.
  - rewrite (generate_root_exists _ _ _ Hstat). unfold world_after. cbn [fst snd].
    now exists n.
Qed.

(** C4, as the code has it: when the first run found the root in place or
    made it, then however that run ended, a second run in the world it left
    that loads the same configuration from the template prints the
    already-exists error and returns, and leaves that world as it is.  The
    template is a file like any other: the first run may have written over
    it, and then the second run loads something else. *)
Theorem second_run_fails_already_exists
    (arg1 arg2 : option Path) (w : world) (config : Config) :
  template w = TemplateDocument config ->
  (exists n, os_stat w (project_root config) = inr n)
  \/ (exists w' out, Path_mkdir_parents (project_root config) w = (Returned tt, w', out)) ->
  let w1 := world_after (main arg1 w) in
  template w1 = TemplateDocument config ->
  main arg2 w1
  = (Returned tt, w1,
     [ "Error: Directory '" +:+ path_str (project_root config) +:+ "' already exists." ]).
Proof.
  intros Htemplate Hroot w1 Ht1.
  destruct (main_leaves_root arg1 w config Htemplate Hroot) as (n & Hn).
  fold w1 in Hn. rewrite (main_loaded arg2 _ _ Ht1).
  now apply generate_root_exists with (n := n).
Qed.

(** C7: the positional argument does not reach the generation.  Two runs
    that differ in it alone end with the same result, world and output; the
    root is [outputDir / projectName] of the configuration, or [projectName]
    alone; and when that root can be made, whatever the argument, it is
    the directory the run leaves behind. *)
Theorem cli_argument_is_ignored (arg1 arg2 : option Path) (w : world) :
  main arg1 w = main arg2 w
  /\ (forall config,
        project_root config
        = match outputDir config with
          | Some d => parse_path d // projectName config
          | None => parse_path (projectName config)
          end)
  /\ (forall config w' out,
        template w = TemplateDocument config ->
        Path_mkdir_parents (project_root config) w = (Returned tt, w', out) ->
        exists n, os_stat (world_after (main arg1 w)) (project_root config) = inr n).
Proof.
  split; [reflexivity | split; [reflexivity |]].
  intros config w' out Ht Hmk.
  apply (main_leaves_root arg1 w config Ht). right. now exists w', out.
Qed.

(** C4 as stated fails, in two ways.  In the first world the first run
    makes the directory [new], then finds the regular file [notes.txt] where
    it needs a directory and stops; the second run, with that partial result
    in place, stops with [NotADirectoryError], not with the already-exists
    error.  In the second world an executable has the template's own path
    as a source: the first run goes through and leaves the root, and it has
    written the placeholder program over the template, so the second run
    reports a JSON error, not the already-exists error. *)
Lemma second_run_counterexample :
  (let first := main None blocked_world in
   let second := main None (world_after first) in
   fst (fst first) = Raised (FileExistsError "new/../notes.txt")
   /\ fs blocked_world !! ["home"; "u"; "new"] = None
   /\ fs (world_after first) !! ["home"; "u"; "new"] = Some Dir
   /\ fst (fst second) = Raised (NotADirectoryError "new/../notes.txt/p")
   /\ snd second = [ "Creating project 'p' in 'new/../notes.txt/p'..." ])
  /\ (let first := main None (empty_home (TemplateDocument overwriting_config)) in
      let second := main None (world_after first) in
      template (empty_home (TemplateDocument overwriting_config))
      = TemplateDocument overwriting_config
      /\ fst (fst first) = Returned tt
      /\ os_stat (world_after first) (project_root overwriting_config) = inr Dir
      /\ fs (world_after first) !! template_key
         = Some (File (exe_source_text (plain_executable None)))
      /\ second
         = (Returned tt, world_after first,
            [ "Error decoding JSON from '/opt/tool/project_template.json': Expecting value: line 1 column 1 (char 0)" ])).
Proof. vm_compute. repeat split; reflexivity. Qed.

(** * Well-formed file systems *)

Section WellFormed.

Implicit Types (m : gmap (list string) node) (k cur : list string) (n : node).

Lemma node_at_lookup m k n : m !! k = Some n -> exists n', node_at m k = Some n'.
Proof. destruct k; [now exists Dir | intros H; now exists n]. Qed.

Lemma fs_wf_parent m k n :
  fs_wf m -> node_at m k = Some n -> node_at m (removelast k) = Some Dir.
Proof. intros Hwf. destruct k as [|c k]; [reflexivity |]. intros H. exact (Hwf _ _ H). Qed.

Lemma removelast_snoc (k : list string) c : removelast (k ++ [c]) = k.
Proof. apply removelast_last. Qed.

Lemma step_into_parent cur c :
  not_dotdot c = true -> removelast (step_into cur c) = cur.
Proof.
  unfold step_into, not_dotdot. destruct (String.eqb c ".."); [discriminate |].
  intros _. apply removelast_snoc.
Qed.

(** The key that resolution returns lies in a directory. *)
Lemma walk_parent m cur comps k :
  fs_wf m -> node_at m cur = Some Dir -> walk m cur comps = inr k ->
  node_at m (removelast k) = Some Dir.
Proof.
  intros Hwf. revert cur. induction comps as [|c cs IH]; intros cur Hcur; simpl.
  - intros [= <-]. eapply fs_wf_parent; eassumption.
  - rewrite Hcur. destruct cs as [|c' cs'].
    + simpl. intros [= <-]. unfold step_into. destruct (String.eqb c "..").
      * eapply fs_wf_parent; [assumption |]. eapply fs_wf_parent; eassumption.
      * now rewrite removelast_snoc.
    + intros H. apply (IH (step_into cur c)); [| exact H].
      simpl in H. now destruct (node_at m (step_into cur c)) as [[data|]|].
Qed.

Lemma resolve_parent w p k :
  world_wf w -> resolve w p = inr k -> node_at (fs w) (removelast k) = Some Dir.
Proof.
  intros [Hwf Hcwd]. unfold resolve, start_of. apply walk_parent; [exact Hwf |].
  now destruct (path_anchor p).
Qed.

Lemma fs_wf_insert m k n :
  fs_wf m -> node_at m (removelast k) = Some Dir -> node_at m k <> Some Dir ->
  fs_wf (<[k := n]> m).
Proof.
  intros Hwf Hparent Hk k1 n1 H1.
  assert (Hne : removelast k1 <> k).
  { intros E. apply Hk. destruct (decide (k = k1)) as [->|Hkk].
    - rewrite <- E at 1. exact Hparent.
    - rewrite lookup_insert_ne in H1 by exact Hkk. rewrite <- E. exact (Hwf _ _ H1). }
  rewrite node_at_insert_ne by congruence.
  destruct (decide (k = k1)) as [<-|E]; [exact Hparent |].
  rewrite lookup_insert_ne in H1 by exact E. exact (Hwf _ _ H1).
Qed.

Lemma world_wf_insert w k n :
  world_wf w -> node_at (fs w) (removelast k) = Some Dir ->
  node_at (fs w) k <> Some Dir ->
  world_wf (set_fs w (<[k := n]> (fs w))).
Proof.
  intros [Hwf Hcwd] Hparent Hk. split; simpl.
  - now apply fs_wf_insert.
  - rewrite node_at_insert_ne; [exact Hcwd | congruence].
Qed.

Lemma world_wf_call_stable : call_stable world_wf.
Proof.
  split.
  - intros w p w' Hw (k & Hr & Hnew & ->)%os_mkdir_inv.
    apply world_wf_insert; [exact Hw | eapply resolve_parent; eassumption | congruence].
  - intros w p data w' Hw (k & Hr & Hk & ->)%os_write_inv.
    apply world_wf_insert; [exact Hw | eapply resolve_parent; eassumption | exact Hk].
Qed.

(** Nothing lies below a path that does not exist. *)
Lemma fresh_no_descendants m k rel :
  fs_wf m -> node_at m k = None -> m !! (k ++ rel) = None.
Proof.
  intros Hwf Hk. induction rel as [|x rel IH] using rev_ind.
  - rewrite app_nil_r. destruct k; [discriminate | exact Hk].
  - destruct (m !! (k ++ rel ++ [x])) as [n|] eqn:H; [| reflexivity].
    apply Hwf in H. rewrite app_assoc, removelast_snoc in H.
    destruct (k ++ rel) eqn:E; [| simpl in H; congruence].
    apply app_eq_nil in E as [-> _]. discriminate.
Qed.

Lemma walk_confined m cur comps k :
  forallb not_dotdot comps = true -> walk m cur comps = inr k -> k = cur ++ comps.
Proof.
  revert cur. induction comps as [|c cs IH]; intros cur; simpl.
  - intros _ [= <-]. now rewrite app_nil_r.
  - intros [Hc Hcs]%andb_true_iff.
    destruct (node_at m cur) as [[data|]|]; try discriminate.
    intros H. apply IH in H; [| exact Hcs]. subst k.
    unfold step_into, not_dotdot in *. destruct (String.eqb c ".."); [discriminate |].
    now rewrite <- app_assoc.
Qed.

End WellFormed.

(** * Paths below a directory *)

Section PathFacts.

Lemma path_div_single p s :
  single_component s = true ->
  p // s = {| path_anchor := path_anchor p; path_parts := path_parts p ++ [s] |}.
Proof.
  unfold single_component, path_div.
  intros [H%bool_decide_eq_true _]%andb_true_iff. now rewrite H.
Qed.

Lemma path_div_confined p s :
  confined s = true ->
  exists comps,
    forallb not_dotdot comps = true
    /\ p // s = {| path_anchor := path_anchor p; path_parts := path_parts p ++ comps |}.
Proof.
  unfold confined, path_div. destruct (path_anchor (parse_path s)); try discriminate.
  intros H. now exists (path_parts (parse_path s)).
Qed.

Lemma single_component_not_dotdot s : single_component s = true -> not_dotdot s = true.
Proof. unfold single_component. now intros [_ H]%andb_true_iff. Qed.

Lemma resolve_below w p k comps :
  resolve w p = inr k ->
  resolve w {| path_anchor := path_anchor p; path_parts := path_parts p ++ comps |}
  = walk (fs w) k comps.
Proof. unfold resolve, start_of. simpl. apply walk_app. Qed.

Lemma resolve_child w p k s :
  resolve w p = inr k -> node_at (fs w) k = Some Dir -> single_component s = true ->
  resolve w (p // s) = inr (k ++ [s]).
Proof.
  intros Hr Hk Hs. rewrite (path_div_single _ _ Hs), (resolve_below _ _ _ _ Hr).
  simpl. rewrite Hk. unfold step_into.
  apply single_component_not_dotdot in Hs. unfold not_dotdot in Hs.
  now destruct (String.eqb s "..").
Qed.

Lemma Path_mkdir_returned p w w' out :
  Path_mkdir false p w = (Returned tt, w', out) -> os_mkdir w p = inr w' /\ out = [].
Proof.
  unfold Path_mkdir. destruct (os_mkdir w p) as [e|w1].
  - destruct e; discriminate.
  - now intros [= <- <-].
Qed.

Lemma Path_mkdir_fresh p w k :
  resolve w p = inr k -> node_at (fs w) k = None ->
  Path_mkdir false p w = (Returned tt, set_fs w (<[k := Dir]> (fs w)), []).
Proof. intros Hr Hk. unfold Path_mkdir, os_mkdir. now rewrite Hr, Hk. Qed.

Lemma Path_mkdir_exists p w n :
  os_stat w p = inr n ->
  Path_mkdir false p w = (Raised (FileExistsError (path_str p)), w, []).
Proof.
  unfold os_stat, Path_mkdir, os_mkdir.
  destruct (resolve w p) as [e|k]; [discriminate |].
  now destruct (node_at (fs w) k).
Qed.

Lemma Path_write_text_ok p data w k :
  resolve w p = inr k -> node_at (fs w) k <> Some Dir ->
  Path_write_text p data w = (Returned tt, set_fs w (<[k := File data]> (fs w)), []).
Proof.
  intros Hr Hk. unfold Path_write_text, os_write. rewrite Hr.
  now destruct (node_at (fs w) k) as [[old|]|].
Qed.

Lemma preserves_run {A} (I : world -> Prop) (m : M A) w r w' out :
  preserves I m -> I w -> m w = (r, w', out) -> I w'.
Proof. intros Hm Hw H. specialize (Hm w Hw). now rewrite H in Hm. Qed.

End PathFacts.

(** * The tests directory *)

Section TestsDirectory.

Lemma snoc_ne_self (k : list string) c : k ++ [c] <> k.
Proof. intros H. apply (f_equal List.length) in H. rewrite length_app in H. simpl in H. lia. Qed.

(** What [create_tests] does once its [mkdir] has gone through. *)
Lemma create_tests_made config root w w1 o :
  world_wf w ->
  dict_get (enableTests config) false = true ->
  Path_mkdir false (root // "tests") w = (Returned tt, w1, o) ->
  exists k,
    resolve w (root // "tests") = inr k
    /\ node_at (fs w) k = None
    /\ create_tests config root w
       = (Returned tt,
          set_fs w (<[k ++ ["test_foo.cpp"] := File tests_source]>
                      (<[k ++ ["CMakeLists.txt"] := File tests_cmakelists]>
                         (<[k := Dir]> (fs w)))),
          []).
Proof.
  intros [Hwf Hcwd] Hflag [Hmk ->]%Path_mkdir_returned.
  pose proof (os_mkdir_extends _ _ _ Hmk) as Hext.
  apply os_mkdir_inv in Hmk as (k & Hr & Hnew & ->).
  exists k. split; [exact Hr | split; [exact Hnew |]].
  assert (Hk : k <> []) by (eapply node_at_None_ne_root; eassumption).
  unfold create_tests. rewrite Hflag.
  erewrite bind_run by (apply Path_mkdir_fresh; eassumption).
  pose proof (resolve_extends _ _ _ _ Hext Hr) as Hr1.
  assert (Hdir1 : node_at (fs (set_fs w (<[k := Dir]> (fs w)))) k = Some Dir)
    by (simpl; now apply node_at_insert_eq).
  erewrite bind_run.
  2:{ apply Path_write_text_ok with (k := k ++ ["CMakeLists.txt"]).
      - now apply resolve_child.
      - simpl. rewrite node_at_insert_ne by (symmetry; apply snoc_ne_self).
        destruct (k ++ ["CMakeLists.txt"]) eqn:E; [now destruct k |].
        simpl. rewrite <- E, (fresh_no_descendants _ _ _ Hwf Hnew). discriminate. }
  unfold world_after. cbn [fst snd].
  erewrite Path_write_text_ok with (k := k ++ ["test_foo.cpp"]).
  - reflexivity.
  - apply resolve_child; [| | reflexivity].
    + eapply resolve_extends; [| exact Hr1]. repeat split. simpl.
      apply grows_insert_new. simpl.
      rewrite node_at_insert_ne by (symmetry; apply snoc_ne_self).
      destruct (k ++ ["CMakeLists.txt"]) eqn:E; [now destruct k |].
      simpl. now rewrite <- E, (fresh_no_descendants _ _ _ Hwf Hnew).
    + simpl. rewrite node_at_insert_ne by apply snoc_ne_self. exact Hdir1.
  - simpl. destruct (k ++ ["test_foo.cpp"]) eqn:E; [now destruct k |].
    simpl. rewrite <- E.
    rewrite lookup_insert_ne by (intros [=]%app_inv_head).
    rewrite lookup_insert_ne by (symmetry; apply snoc_ne_self).
    rewrite (fresh_no_descendants _ _ _ Hwf Hnew). discriminate.
Qed.

(** Below a directory that was made in a well-formed file system and then
    filled by [create_tests] there is [tests_tree] and nothing else. *)
Lemma tests_directory_contents (m : gmap (list string) node) k rel :
  fs_wf m -> node_at m k = None -> rel <> [] ->
  (<[k ++ ["test_foo.cpp"] := File tests_source]>
     (<[k ++ ["CMakeLists.txt"] := File tests_cmakelists]> (<[k := Dir]> m)))
  !! (k ++ rel)
  = tests_tree !! rel.
Proof.
  intros Hwf Hnew Hrel. unfold tests_tree.
  destruct (decide (rel = ["test_foo.cpp"])) as [->|H1].
  { now rewrite !lookup_insert_eq. }
  rewrite lookup_insert_ne by (intros E%app_inv_head; congruence).
  rewrite (lookup_insert_ne _ ["test_foo.cpp"]) by congruence.
  destruct (decide (rel = ["CMakeLists.txt"])) as [->|H2].
  { now rewrite !lookup_insert_eq. }
  rewrite lookup_insert_ne by (intros E%app_inv_head; congruence).
  rewrite (lookup_insert_ne _ ["CMakeLists.txt"]) by congruence.
  rewrite lookup_insert_ne.
  - now rewrite lookup_empty, fresh_no_descendants.
  - intros E. apply Hrel. apply (app_inv_head k). now rewrite app_nil_r.
Qed.

End TestsDirectory.

(** A run of [populate] that returns, step by step. *)
Lemma populate_returned config root wa w' out :
  populate config root wa = (Returned tt, w', out) ->
  exists wb wc wd ob oc od ot,
    Path_write_text (root // "CMakeLists.txt") (create_main_cmakelists config) wa
    = (Returned tt, wb, ob)
    /\ create_executable_sources config root wb = (Returned tt, wc, oc)
    /\ create_libraries config root wc = (Returned tt, wd, od)
    /\ create_tests config root wd = (Returned tt, w', ot).
Proof.
  unfold populate.
  intros ([] & wb & ob & o1 & Hb & H & _)%bind_returned.
  apply bind_returned in H as ([] & wc & oc & o2 & Hc & H & _).
  apply bind_returned in H as ([] & wd & od & o3 & Hd & H & _).
  apply bind_returned in H as ([] & we & ot & o4 & He & H & _).
  exists wb, wc, wd, ob, oc, od, ot. repeat split; try assumption.
  unfold bind, print in H. now injection H as <- _.
Qed.

(** A run of [main] that starts without the root and returns. *)
Lemma main_returned arg w config e w' out :
  template w = TemplateDocument config ->
  os_stat w (project_root config) = inl e ->
  main arg w = (Returned tt, w', out) ->
  exists wa oa op,
    Path_mkdir_parents (project_root config) w = (Returned tt, wa, oa)
    /\ populate config (project_root config) wa = (Returned tt, w', op).
Proof.
  intros Ht Hstat. rewrite (main_loaded _ _ _ Ht), (generate_fresh _ _ _ Hstat).
  intros ([] & w0 & o0 & o1 & Hprint & H & _)%bind_returned.
  injection Hprint as <- _.
  apply bind_returned in H as ([] & wa & oa & op & Ha & H & _).
  now exists wa, oa, op.
Qed.

(** What a run of [main] that returns leaves below [tests]. *)
Lemma tests_directory_after_main arg w w' config e out :
  template w = TemplateDocument config ->
  world_wf w ->
  os_stat w (project_root config) = inl e ->
  dict_get (enableTests config) false = true ->
  main arg w = (Returned tt, w', out) ->
  exists k,
    resolve w' (project_root config // "tests") = inr k
    /\ node_at (fs w') k = Some Dir
    /\ forall rel, rel <> [] -> fs w' !! (k ++ rel) = tests_tree !! rel.
Proof.
  intros Ht Hwf Hstat Hflag Hmain.
  destruct (main_returned _ _ _ _ _ _ Ht Hstat Hmain) as (wa & oa & op & Ha & Hp).
  apply populate_returned in Hp as (wb & wc & wd & ob & oc & od & ot & Hb & Hc & Hd & He).
  assert (Hwfd : world_wf wd).
  { eapply preserves_run; [now apply preserves_create_libraries, world_wf_call_stable | | exact Hd].
    eapply preserves_run;
      [now apply preserves_create_executable_sources, world_wf_call_stable | | exact Hc].
    eapply preserves_run; [now apply preserves_Path_write_text, world_wf_call_stable | | exact Hb].
    eapply preserves_run; [| exact Hwf | exact Ha].
    now apply preserves_mkdir_parents, world_wf_call_stable. }
  assert (Hmk : exists w1 o1,
             Path_mkdir false (project_root config // "tests") wd = (Returned tt, w1, o1)).
  { unfold create_tests in He. rewrite Hflag in He.
    apply bind_returned in He as ([] & w1 & o1 & o2 & H & _). now exists w1, o1. }
  destruct Hmk as (w1 & o1 & Hmk).
  destruct (create_tests_made _ _ _ _ _ Hwfd Hflag Hmk) as (k & Hr & Hnew & Hrun).
  rewrite Hrun in He. injection He as <- _.
  assert (Hk : k <> []) by (eapply node_at_None_ne_root; eassumption).
  exists k. split; [| split].
  - eapply resolve_extends; [| exact Hr].
    eapply (preserves_run (extends wd));
      [apply preserves_create_tests, extends_call_stable | apply extends_refl | exact Hrun].
  - simpl. rewrite !node_at_insert_ne by apply snoc_ne_self.
    now apply node_at_insert_eq.
  - intros rel Hrel. simpl. apply tests_directory_contents; [apply Hwfd | exact Hnew | exact Hrel].
Qed.

(** C6: when [main] starts in a well-formed world without the root, with
    [enableTests] set, and returns, then [tests] is a directory of the root
    and what lies below it is [tests_tree]: the two files with their fixed
    texts and nothing else, whatever the configuration.  So any second such
    run, of any configuration in any world, leaves the same contents below
    its [tests].  The fixed manifest fetches googletest v1.14.0, builds
    [run_tests] from [test_foo.cpp] and links it against [GTest::gtest_main]
    and [foo]. *)
Theorem tests_directory_is_fixed
    (arg : option Path) (w w' : world) (config : Config) (e : errno) (out : list string) :
  template w = TemplateDocument config ->
  world_wf w ->
  os_stat w (project_root config) = inl e ->
  dict_get (enableTests config) false = true ->
  main arg w = (Returned tt, w', out) ->
  (exists k,
      resolve w' (project_root config // "tests") = inr k
      /\ node_at (fs w') k = Some Dir
      /\ forall rel, rel <> [] -> fs w' !! (k ++ rel) = tests_tree !! rel)
  /\ (forall arg2 v v' config2 e2 out2,
        template v = TemplateDocument config2 ->
        world_wf v ->
        os_stat v (project_root config2) = inl e2 ->
        dict_get (enableTests config2) false = true ->
        main arg2 v = (Returned tt, v', out2) ->
        exists k k2,
          resolve w' (project_root config // "tests") = inr k
          /\ resolve v' (project_root config2 // "tests") = inr k2
          /\ forall rel, rel <> [] -> fs w' !! (k ++ rel) = fs v' !! (k2 ++ rel))
  /\ tests_tree !! ["CMakeLists.txt"] = Some (File tests_cmakelists)
  /\ tests_tree !! ["test_foo.cpp"] = Some (File tests_source)
  /\ In "  URL https://github.com/google/googletest/archive/refs/tags/v1.14.0.zip"
        (lines tests_cmakelists)
  /\ In "add_executable(run_tests test_foo.cpp)" (lines tests_cmakelists)
  /\ In "target_link_libraries(run_tests PRIVATE GTest::gtest_main foo)"
        (lines tests_cmakelists).
Proof.
  intros Ht Hwf Hstat Hflag Hmain.
  destruct (tests_directory_after_main _ _ _ _ _ _ Ht Hwf Hstat Hflag Hmain)
    as (k & Hr & Hd & Hk).
  split; [now exists k | split; [| repeat split; vm_compute; tauto]].
  intros arg2 v v' config2 e2 out2 Ht2 Hwf2 Hstat2 Hflag2 Hmain2.
  destruct (tests_directory_after_main _ _ _ _ _ _ Ht2 Hwf2 Hstat2 Hflag2 Hmain2)
    as (k2 & Hr2 & _ & Hk2).
  exists k, k2. split; [exact Hr | split; [exact Hr2 |]].
  intros rel Hrel. now rewrite Hk, Hk2.
Qed.

(** * Monad laws, at every world *)

Section MonadLaws.

Context {A B C : Type}.

Lemma bind_assoc (m : M A) (k : A -> M B) (h : B -> M C) w :
  bind (bind m k) h w = bind m (fun a => bind (k a) h) w.
Proof.
  unfold bind. destruct (m w) as [[[a|e] w1] o1]; [| reflexivity].
  destruct (k a w1) as [[[b|e] w2] o2]; [| reflexivity].
  destruct (h b w2) as [[r w3] o3]. now rewrite app_assoc.
Qed.

Lemma bind_congr (m : M A) (k k' : A -> M B) w :
  (forall a w1, k a w1 = k' a w1) -> bind m k w = bind m k' w.
Proof.
  intros H. unfold bind. destruct (m w) as [[[a|e] w1] o1]; [| reflexivity].
  now rewrite H.
Qed.

Lemma bind_congr_l (m m' : M A) (k : A -> M B) w :
  m w = m' w -> bind m k w = bind m' k w.
Proof. intros H. unfold bind. now rewrite H. Qed.

End MonadLaws.

Lemma bind_ret_l {B} (k : unit -> M B) w : bind (ret tt) k w = k tt w.
Proof. unfold bind, ret. now destruct (k tt w) as [[r w'] o]. Qed.

Lemma for_each_app {A} (xs ys : list A) (body : A -> M unit) w :
  for_each (xs ++ ys) body w
  = bind (for_each xs body) (fun _ => for_each ys body) w.
Proof.
  revert w. induction xs as [|x xs IH]; intros w; simpl.
  - now rewrite bind_ret_l.
  - rewrite bind_assoc. apply bind_congr. intros _ w1. apply IH.
Qed.

(** A run of [main] in which the library [lib] is reached and
    [create_library] raises. *)
Lemma generate_raises_at_library config earlier lib later w e w1 out1 ex w2 o2 :
  libraries config = earlier ++ lib :: later ->
  os_stat w (project_root config) = inl e ->
  before_library config (project_root config) earlier w = (Returned tt, w1, out1) ->
  create_library (project_root config // "lib") lib w1 = (Raised ex, w2, o2) ->
  generate config w
  = (Raised ex, w2,
     [ "Creating project '" +:+ projectName config +:+ "' in '"
       +:+ path_str (project_root config) +:+ "'..." ] ++ out1 ++ o2).
Proof.
  intros Hlibs Hstat Hbefore Hraise.
  set (root := project_root config) in *.
  set (body := create_library (root // "lib")) in *.
  assert (Hsplit : forall T : unit -> M unit,
    bind (Path_mkdir_parents root)
      (fun _ => bind (Path_write_text (root // "CMakeLists.txt")
                        (create_main_cmakelists config))
         (fun _ => bind (create_executable_sources config root)
            (fun _ => bind (create_libraries config root) T))) w
    = bind (before_library config root earlier)
        (fun _ => bind (body lib) (fun _ => bind (for_each later body) T)) w).
  { intros T. unfold before_library.
    rewrite bind_assoc. apply bind_congr. intros _ wa. cbv beta.
    rewrite bind_assoc. apply bind_congr. intros _ wb. cbv beta.
    rewrite bind_assoc. apply bind_congr. intros _ wc. cbv beta.
    unfold create_libraries. rewrite !bind_assoc. apply bind_congr. intros _ wd. cbv beta.
    rewrite Hlibs. fold root. fold body.
    rewrite (bind_congr_l _ _ _ _ (for_each_app earlier (lib :: later) body wd)).
    rewrite bind_assoc. apply bind_congr. intros _ we. cbv beta.
    simpl for_each. now rewrite bind_assoc. }
  rewrite (generate_fresh _ _ _ Hstat). fold root.
  erewrite bind_run by reflexivity.
  unfold populate. rewrite Hsplit.
  erewrite bind_run by exact Hbefore.
  erewrite bind_raised by exact Hraise.
  reflexivity.
Qed.

(** A body that only adds to the world, run over a list: every element's
    round starts in a later world and ends in an earlier one than the
    loop's. *)
Lemma for_each_returned_In {A} (xs : list A) (body : A -> M unit) x w w' out :
  (forall y w0, preserves (extends w0) (body y)) ->
  for_each xs body w = (Returned tt, w', out) ->
  In x xs ->
  exists wa wb o,
    body x wa = (Returned tt, wb, o) /\ extends w wa /\ extends wb w'.
Proof.
  intros Hbody. revert w out. induction xs as [|a xs IH]; intros w out; simpl; [tauto |].
  intros ([] & w1 & o1 & o2 & Ha & Hrest & _)%bind_returned [<-|Hin].
  - exists w, w1, o1. split; [exact Ha | split; [apply extends_refl |]].
    eapply (preserves_run (extends w1)); [| apply extends_refl | exact Hrest].
    now apply preserves_for_each.
  - destruct (IH _ _ Hrest Hin) as (wa & wb & o & Hx & Hwa & Hwb).
    exists wa, wb, o. split; [exact Hx | split; [| exact Hwb]].
    eapply extends_trans; [| exact Hwa].
    eapply (preserves_run (extends w)); [apply Hbody | apply extends_refl | exact Ha].
Qed.

(** The directory of a library that [create_library] has gone through is
    there. *)
Lemma create_library_stat lib_dir lib w w' out :
  create_library lib_dir lib w = (Returned tt, w', out) ->
  os_stat w' (lib_dir // lib_name lib) = inr Dir.
Proof.
  unfold create_library.
  intros ([] & w1 & o1 & o2 & Hmk & Hrest & _)%bind_returned.
  eapply stat_Dir_extends; [| eapply Path_mkdir_stat, Hmk].
  eapply (preserves_run (extends w1)); [| apply extends_refl | exact Hrest].
  pose proof (extends_call_stable w1).
  repeat (apply preserves_bind; [| intros _]); auto with io.
Qed.

(** * The loop over the libraries *)

Section LibraryLoop.

Variables (w0 : world) (lib_dir : Path) (lib_key : list string) (names : list string).
Hypothesis lib_dir_resolves : resolve w0 lib_dir = inr lib_key.
Hypothesis lib_dir_is_dir : node_at (fs w0) lib_key = Some Dir.

Lemma lib_dir_later w :
  extends w0 w -> resolve w lib_dir = inr lib_key /\ node_at (fs w) lib_key = Some Dir.
Proof.
  intros He. split; [now apply (resolve_extends w0) |].
  eapply grows_Dir; [apply He | exact lib_dir_is_dir].
Qed.

Lemma below_library_resolve w name q k :
  extends w0 w -> not_dotdot name = true -> below_library lib_dir name q ->
  resolve w q = inr k ->
  exists comps, k = lib_key ++ name :: comps.
Proof.
  intros He Hname (Ha & comps & Hp & Hcomps) Hr.
  destruct (lib_dir_later _ He) as [Hl _].
  unfold resolve, start_of in *. rewrite Ha, Hp in Hr.
  rewrite (walk_app _ _ _ _ _ Hl) in Hr.
  apply walk_confined in Hr; [now exists comps |].
  simpl. now rewrite Hname, Hcomps.
Qed.

Lemma library_loop_inv_insert w name comps n :
  library_loop_inv w0 lib_key names w -> In name names ->
  world_wf (set_fs w (<[lib_key ++ name :: comps := n]> (fs w))) ->
  extends w (set_fs w (<[lib_key ++ name :: comps := n]> (fs w))) ->
  library_loop_inv w0 lib_key names (set_fs w (<[lib_key ++ name :: comps := n]> (fs w))).
Proof.
  intros (Hwf & He & Hch) Hin Hwf' He'. split; [exact Hwf' | split].
  - eapply extends_trans; eassumption.
  - intros c. simpl. destruct (decide (lib_key ++ name :: comps = lib_key ++ [c])) as [E|E].
    + apply app_inv_head in E. injection E as -> _. now intros _.
    + rewrite node_at_insert_ne by exact E. apply Hch.
Qed.

Lemma library_loop_call_keeps name q :
  In name names -> not_dotdot name = true -> below_library lib_dir name q ->
  call_keeps (library_loop_inv w0 lib_key names) q.
Proof.
  intros Hin Hname Hq. split.
  - intros w w' Hinv Hmk.
    pose proof (proj1 world_wf_call_stable _ _ _ (proj1 Hinv) Hmk) as Hwf'.
    pose proof (os_mkdir_extends _ _ _ Hmk) as He'.
    apply os_mkdir_inv in Hmk as (k & Hr & _ & ->).
    destruct (below_library_resolve _ _ _ _ (proj1 (proj2 Hinv)) Hname Hq Hr) as [comps ->].
    now apply library_loop_inv_insert.
  - intros w data w' Hinv Hwr.
    pose proof (proj2 world_wf_call_stable _ _ _ _ (proj1 Hinv) Hwr) as Hwf'.
    pose proof (os_write_extends _ _ _ _ Hwr) as He'.
    apply os_write_inv in Hwr as (k & Hr & _ & ->).
    destruct (below_library_resolve _ _ _ _ (proj1 (proj2 Hinv)) Hname Hq Hr) as [comps ->].
    now apply library_loop_inv_insert.
Qed.

End LibraryLoop.

Lemma preserves_Path_mkdir_at I exist_ok p :
  call_keeps I p -> preserves I (Path_mkdir exist_ok p).
Proof.
  intros [Hmk _] w Hw. unfold Path_mkdir, world_after.
  destruct (os_mkdir w p) as [e|w'] eqn:H; simpl.
  - destruct e; try exact Hw; destruct (exist_ok && is_dir w p); exact Hw.
  - exact (Hmk _ _ Hw H).
Qed.

Lemma preserves_Path_write_text_at I p data :
  call_keeps I p -> preserves I (Path_write_text p data).
Proof.
  intros [_ Hwr] w Hw. unfold Path_write_text, world_after.
  destruct (os_write w p data) as [e|w'] eqn:H; simpl; [exact Hw |].
  exact (Hwr _ _ _ Hw H).
Qed.

Lemma preserves_for_each_In {A} I (xs : list A) (body : A -> M unit) :
  (forall x, In x xs -> preserves I (body x)) -> preserves I (for_each xs body).
Proof.
  induction xs as [|x xs IH]; intros Hbody; simpl.
  - apply preserves_ret.
  - apply preserves_bind; [apply Hbody; now left | intros _].
    apply IH. intros y Hy. apply Hbody. now right.
Qed.

Lemma single_component_confined s : single_component s = true -> confined s = true.
Proof.
  intros H. pose proof (single_component_not_dotdot _ H) as Hd.
  unfold single_component in H. apply andb_true_iff in H as [H%bool_decide_eq_true _].
  unfold confined. rewrite H. simpl. now rewrite Hd.
Qed.

Lemma below_library_top lib_dir name :
  single_component name = true -> below_library lib_dir name (lib_dir // name).
Proof.
  intros H. rewrite (path_div_single _ _ H). split; [reflexivity |].
  now exists [].
Qed.

Lemma below_library_div lib_dir name q s :
  below_library lib_dir name q -> confined s = true -> below_library lib_dir name (q // s).
Proof.
  intros (Ha & comps & Hp & Hc) Hs.
  destruct (path_div_confined q _ Hs) as (more & Hmore & ->).
  split; [exact Ha |]. exists (comps ++ more). simpl. split.
  - now rewrite Hp, <- app_assoc.
  - now rewrite forallb_app', Hc, Hmore.
Qed.

(** A confined library keeps the invariant of the loop. *)
Lemma preserves_create_library_inv w0 lib_dir lib_key names lib :
  resolve w0 lib_dir = inr lib_key ->
  node_at (fs w0) lib_key = Some Dir ->
  library_confined lib = true ->
  In (lib_name lib) names ->
  preserves (library_loop_inv w0 lib_key names) (create_library lib_dir lib).
Proof.
  intros Hr Hd Hconf Hin.
  unfold library_confined in Hconf.
  apply andb_true_iff in Hconf as [Hconf Hhdrs].
  apply andb_true_iff in Hconf as [Hname Hsrcs].
  pose proof (single_component_not_dotdot _ Hname) as Hnd.
  pose proof (below_library_top lib_dir _ Hname) as Htop.
  assert (Hkeeps : forall q, below_library lib_dir (lib_name lib) q ->
                             call_keeps (library_loop_inv w0 lib_key names) q).
  { intros q Hq. eapply library_loop_call_keeps; eassumption. }
  unfold create_library.
  apply preserves_bind; [apply preserves_Path_mkdir_at, Hkeeps, Htop | intros _].
  apply preserves_bind; [| intros _].
  { apply preserves_Path_write_text_at, Hkeeps. now apply below_library_div. }
  apply preserves_bind; [| intros _].
  { apply preserves_for_each_In. intros src Hsrc.
    apply preserves_Path_write_text_at, Hkeeps, below_library_div; [exact Htop |].
    rewrite forallb_forall in Hsrcs. now apply Hsrcs. }
  apply preserves_bind; [| intros _].
  { apply preserves_Path_mkdir_at, Hkeeps. now apply below_library_div. }
  apply preserves_for_each_In. intros hdr Hhdr.
  apply preserves_Path_write_text_at, Hkeeps.
  apply below_library_div; [now apply below_library_div |].
  rewrite forallb_forall in Hhdrs. now apply Hhdrs.
Qed.

Lemma Path_write_text_stat p data w w' out :
  Path_write_text p data w = (Returned tt, w', out) -> os_stat w' p = inr (File data).
Proof.
  unfold Path_write_text. destruct (os_write w p data) as [e|w1] eqn:H; [discriminate |].
  intros [= <- _]. pose proof (os_write_extends _ _ _ _ H) as He.
  apply os_write_inv in H as (k & Hr & Hk & ->).
  unfold os_stat. rewrite (resolve_extends _ _ _ _ He Hr). simpl.
  rewrite node_at_insert_eq; [reflexivity |]. intros ->. now apply Hk.
Qed.

Lemma stat_File_extends w w' p data :
  extends w w' -> os_stat w p = inr (File data) ->
  exists data', os_stat w' p = inr (File data').
Proof.
  intros He. unfold os_stat.
  destruct (resolve w p) as [e|k] eqn:Hr; [discriminate |].
  rewrite (resolve_extends _ _ _ _ He Hr).
  destruct (node_at (fs w) k) as [n|] eqn:Hk; [| discriminate].
  intros [= ->]. destruct (proj2 (proj2 (proj2 He)) _ _ Hk) as ([data'|] & Hk' & K);
    [| destruct K].
  exists data'. now rewrite Hk'.
Qed.

(** A run of [before_library] that returns, step by step. *)
Lemma before_library_returned config root earlier w w1 out1 :
  before_library config root earlier w = (Returned tt, w1, out1) ->
  exists wa wb wc wd oa ob oc od oe,
    Path_mkdir_parents root w = (Returned tt, wa, oa)
    /\ Path_write_text (root // "CMakeLists.txt") (create_main_cmakelists config) wa
       = (Returned tt, wb, ob)
    /\ create_executable_sources config root wb = (Returned tt, wc, oc)
    /\ Path_mkdir false (root // "lib") wc = (Returned tt, wd, od)
    /\ for_each earlier (create_library (root // "lib")) wd = (Returned tt, w1, oe).
Proof.
  unfold before_library.
  intros ([] & wa & oa & o1 & Ha & H & _)%bind_returned.
  apply bind_returned in H as ([] & wb & ob & o2 & Hb & H & _).
  apply bind_returned in H as ([] & wc & oc & o3 & Hc & H & _).
  apply bind_returned in H as ([] & wd & od & oe & Hd & H & _).
  now exists wa, wb, wc, wd, oa, ob, oc, od, oe.
Qed.

(** * The claim about library names *)

(** C10, as the code has it.  Let the run reach the library [lib]: the root
    did not exist, and the steps before it, from making the root to the
    libraries [earlier], have returned and left the world [w1].
    - If an earlier library has the name of [lib], [main] stops there with
      [FileExistsError] for the library's directory; [w1] is the world it
      leaves, with the root directory and its manifest in place.
    - If the world was well-formed, the earlier libraries are confined (their
      names are one path component, their sources and headers relative and
      without [..]), and the name of [lib] is one component that no earlier
      library has, then making the directory of [lib] succeeds. *)
Theorem library_directory_creation
    (arg : option Path) (w w1 : world) (config : Config)
    (earlier later : list Library) (lib : Library) (e : errno) (out1 : list string) :
  let root := project_root config in
  let lib_path := root // "lib" // lib_name lib in
  template w = TemplateDocument config ->
  os_stat w root = inl e ->
  libraries config = earlier ++ lib :: later ->
  before_library config root earlier w = (Returned tt, w1, out1) ->
  (In (lib_name lib) (map lib_name earlier) ->
   main arg w
   = (Raised (FileExistsError (path_str lib_path)), w1,
      [ "Creating project '" +:+ projectName config +:+ "' in '"
        +:+ path_str root +:+ "'..." ] ++ out1)
   /\ os_stat w1 root = inr Dir
   /\ exists text, os_stat w1 (root // "CMakeLists.txt") = inr (File text))
  /\ (world_wf w ->
      forallb library_confined earlier = true ->
      single_component (lib_name lib) = true ->
      ~ In (lib_name lib) (map lib_name earlier) ->
      exists w2, Path_mkdir false lib_path w1 = (Returned tt, w2, [])).
Proof.
  intros root lib_path Ht Hstat Hlibs Hbefore.
  destruct (before_library_returned _ _ _ _ _ _ Hbefore)
    as (wa & wb & wc & wd & oa & ob & oc & od & oe & Ha & Hb & Hc & Hd & He).
  assert (Hlib : forall I, call_stable I -> forall y, preserves I (create_library (root // "lib") y))
    by (intros I HI y; now apply preserves_create_library).
  split.
  - intros (dup & Hname & Hdup)%in_map_iff.
    assert (Hbd : extends wb wd).
    { eapply extends_trans.
      - eapply (preserves_run (extends wb)); [| apply extends_refl | exact Hc].
        apply preserves_create_executable_sources, extends_call_stable.
      - eapply (preserves_run (extends wc)); [| apply extends_refl | exact Hd].
        apply preserves_Path_mkdir, extends_call_stable. }
    assert (Hd1 : extends wd w1).
    { eapply (preserves_run (extends wd)); [| apply extends_refl | exact He].
      apply preserves_for_each. intros y. apply Hlib, extends_call_stable. }
    assert (Hab : extends wa wb).
    { eapply (preserves_run (extends wa)); [| apply extends_refl | exact Hb].
      apply preserves_Path_write_text, extends_call_stable. }
    split; [| split].
    + rewrite (main_loaded _ _ _ Ht).
      rewrite (generate_raises_at_library config earlier lib later w e w1 out1
                 (FileExistsError (path_str lib_path)) w1 [] Hlibs Hstat Hbefore).
      { now rewrite app_nil_r. }
      unfold create_library. apply bind_raised.
      destruct (for_each_returned_In _ _ _ _ _ _
                  (fun y w0 => Hlib _ (extends_call_stable w0) y) He Hdup)
        as (wx & wy & o & Hrun & _ & Hy).
      apply create_library_stat in Hrun. rewrite Hname in Hrun.
      eapply Path_mkdir_exists, stat_Dir_extends; eassumption.
    + eapply stat_Dir_extends; [| eapply mkdir_parents_stat, Ha].
      eapply extends_trans; [exact Hab |]. eapply extends_trans; eassumption.
    + eapply stat_File_extends; [| eapply Path_write_text_stat, Hb].
      eapply extends_trans; eassumption.
  - intros Hwf Hconf Hname Hfresh.
    assert (Hwfc : world_wf wc).
    { eapply preserves_run;
        [now apply preserves_create_executable_sources, world_wf_call_stable | | exact Hc].
      eapply preserves_run;
        [now apply preserves_Path_write_text, world_wf_call_stable | | exact Hb].
      eapply preserves_run; [| exact Hwf | exact Ha].
      now apply preserves_mkdir_parents, world_wf_call_stable. }
    apply Path_mkdir_returned in Hd as [Hmk _].
    pose proof (proj1 world_wf_call_stable _ _ _ Hwfc Hmk) as Hwfd.
    pose proof (os_mkdir_extends _ _ _ Hmk) as Hcd.
    pose proof Hmk as (lib_key & Hr & Hnew & Hwd)%os_mkdir_inv.
    assert (Hrd : resolve wd (root // "lib") = inr lib_key)
      by now apply (resolve_extends wc).
    assert (Hdd : node_at (fs wd) lib_key = Some Dir).
    { rewrite Hwd. simpl. apply node_at_insert_eq.
      eapply node_at_None_ne_root; eassumption. }
    assert (Hinv : library_loop_inv wd lib_key (map lib_name earlier) w1).
    { eapply preserves_run; [| | exact He].
      - apply preserves_for_each_In. intros y Hy.
        apply preserves_create_library_inv; [exact Hrd | exact Hdd | |].
        + rewrite forallb_forall in Hconf. now apply Hconf.
        + now apply in_map.
      - split; [exact Hwfd | split; [apply extends_refl |]].
        intros c Hc'. exfalso. apply Hc'. rewrite Hwd. simpl.
        rewrite node_at_insert_ne by (symmetry; apply snoc_ne_self).
        destruct (lib_key ++ [c]) eqn:E; [now destruct lib_key |].
        simpl. rewrite <- E. apply fresh_no_descendants; [apply Hwfc | exact Hnew]. }
    destruct Hinv as (_ & Hext & Hchildren).
    destruct (lib_dir_later _ _ _ Hrd Hdd _ Hext) as [Hr1 Hd1].
    eexists. apply Path_mkdir_fresh with (k := lib_key ++ [lib_name lib]).
    + now apply resolve_child.
    + destruct (node_at (fs w1) (lib_key ++ [lib_name lib])) eqn:E; [| reflexivity].
      exfalso. apply Hfresh, Hchildren. congruence.
Qed.

(** C10 as stated fails: two libraries with different names, no root before
    the run, and the second library's [mkdir] raises [FileExistsError]: the
    first library's source [../b] was written where the directory of the
    second belongs. *)
Lemma library_directory_counterexample :
  let w := empty_home (TemplateDocument escaping_source_config) in
  let root := project_root escaping_source_config in
  map lib_name (libraries escaping_source_config) = ["a"; "b"]
  /\ os_stat w root = inl ENOENT
  /\ fst (fst (main None w)) = Raised (FileExistsError "demo/lib/b")
  /\ exists w1 out1,
       before_library escaping_source_config root
         [ {| lib_name := "a"; lib_sources := ["../b"]; lib_headers := [] |} ] w
       = (Returned tt, w1, out1)
       /\ Path_mkdir false (root // "lib" // "b") w1
          = (Raised (FileExistsError "demo/lib/b"), w1, []).
Proof.
  cbv zeta. split; [reflexivity | split; [reflexivity | split; [vm_compute; reflexivity |]]].
  eexists _, _. split; vm_compute; reflexivity.
Qed.

(** * The theorems at concrete inputs *)

(** C1 at a configuration without the key. *)
Lemma enableTests_absent_witness :
  enableTests plain_config = None
  /\ (dict_get (enableTests plain_config) true <> dict_get (enableTests plain_config) false
      /\ (exists body, create_main_cmakelists plain_config = body +:+ testing_block)
      /\ In "add_subdirectory(tests)" (lines (create_main_cmakelists plain_config))
      /\ forall root w, create_tests plain_config root w = (Returned tt, w, [])).
Proof.
  split; [reflexivity |].
  apply (enableTests_absent_defaults_disagree plain_config). reflexivity.
Defined.

(** C2 in a home directory that has [demo] already. *)
Lemma existing_root_witness :
  let w := occupied_home (TemplateDocument demo_config) in
  template w = TemplateDocument demo_config
  /\ os_stat w (project_root demo_config) = inr Dir
  /\ main None w = (Returned tt, w, [ "Error: Directory 'demo' already exists." ]).
Proof.
  cbv zeta. split; [reflexivity | split; [vm_compute; reflexivity |]].
  apply (existing_root_aborts None (occupied_home (TemplateDocument demo_config))
           demo_config Dir); vm_compute; reflexivity.
Defined.

(** C3, amended, at the scenario of the specification. *)
Lemma manifest_lines_witness :
  config_single_line demo_config = true
  /\ lines_starting "add_subdirectory(lib/" (create_main_cmakelists demo_config)
     = [ "add_subdirectory(lib/foo)" ]
  /\ lines_starting "add_executable(" (create_main_cmakelists demo_config)
     = [ "add_executable(app main.c)" ].
Proof.
  split; [reflexivity |].
  destruct (manifest_lines_follow_configuration demo_config eq_refl) as (Hlib & Hexe & _).
  split; [exact Hlib | exact Hexe].
Defined.

(** C4, amended, after a first run that went through and left the template
    as it was. *)
Lemma second_run_witness :
  let w := empty_home (TemplateDocument demo_config) in
  let w1 := world_after (main None w) in
  template w = TemplateDocument demo_config
  /\ template w1 = TemplateDocument demo_config
  /\ main None w1 = (Returned tt, w1, [ "Error: Directory 'demo' already exists." ]).
Proof.
  cbv zeta.
  assert (Ht : template (empty_home (TemplateDocument demo_config))
               = TemplateDocument demo_config) by (vm_compute; reflexivity).
  assert (Ht1 : template (world_after (main None (empty_home (TemplateDocument demo_config))))
                = TemplateDocument demo_config) by (vm_compute; reflexivity).
  split; [exact Ht | split; [exact Ht1 |]].
  apply (second_run_fails_already_exists None None
           (empty_home (TemplateDocument demo_config)) demo_config Ht).
  - right. eexists _, _. vm_compute. reflexivity.
  - exact Ht1.
Defined.

(** C6 at the scenario of the specification. *)
Lemma tests_directory_witness :
  let w := empty_home (TemplateDocument demo_config) in
  let w' := world_after (main None w) in
  world_wf w
  /\ main None w = (Returned tt, w', snd (main None w))
  /\ exists k,
       resolve w' (project_root demo_config // "tests") = inr k
       /\ node_at (fs w') k = Some Dir
       /\ forall rel, rel <> [] -> fs w' !! (k ++ rel) = tests_tree !! rel.
Proof.
  cbv zeta.
  assert (Hwf : world_wf (empty_home (TemplateDocument demo_config)))
    by (apply (bool_decide_eq_true_1 (world_wf _)); vm_compute; reflexivity).
  assert (Hrun : main None (empty_home (TemplateDocument demo_config))
                 = (Returned tt,
                    world_after (main None (empty_home (TemplateDocument demo_config))),
                    snd (main None (empty_home (TemplateDocument demo_config)))))
    by (vm_compute; reflexivity).
  assert (Hstat : os_stat (empty_home (TemplateDocument demo_config))
                    (project_root demo_config) = inl ENOENT)
    by (vm_compute; reflexivity).
  split; [exact Hwf | split; [exact Hrun |]].
  exact (proj1 (tests_directory_is_fixed None
                  (empty_home (TemplateDocument demo_config)) _ demo_config ENOENT _
                  eq_refl Hwf Hstat eq_refl Hrun)).
Defined.

(** C7 with and without the argument, in an empty home directory. *)
Lemma cli_argument_witness :
  let w := empty_home (TemplateDocument demo_config) in
  main (Some (parse_path "elsewhere")) w = main None w
  /\ exists n, os_stat (world_after (main (Some (parse_path "elsewhere")) w))
                 (project_root demo_config) = inr n.
Proof.
  cbv zeta.
  destruct (cli_argument_is_ignored (Some (parse_path "elsewhere")) None
              (empty_home (TemplateDocument demo_config))) as (Hsame & _ & Hroot).
  split; [exact Hsame |].
  eapply (Hroot demo_config); [reflexivity | vm_compute; reflexivity].
Defined.

(** C8 for a missing and for a malformed template. *)
Lemma template_errors_witness :
  main None (empty_home TemplateMissing)
  = (Returned tt, empty_home TemplateMissing,
     [ "Error: '/opt/tool/project_template.json' not found." ])
  /\ main None (empty_home (TemplateMalformed sample_decode_error))
     = (Returned tt, empty_home (TemplateMalformed sample_decode_error),
        [ "Error decoding JSON from '/opt/tool/project_template.json': Expecting value: line 2 column 3 (char 9)" ]).
Proof.
  split.
  - exact (proj1 (template_errors_write_nothing None (empty_home TemplateMissing)) eq_refl).
  - exact (proj2 (template_errors_write_nothing None
             (empty_home (TemplateMalformed sample_decode_error))) _ eq_refl).
Defined.

(** C5 at a name with small letters, a hyphen and a digit, for two headers. *)
Lemma header_guard_witness :
  ascii_text "my-lib2" = true
  /\ header_guard (library_named "my-lib2") "my-lib2.h" = "MY-LIB2_H"
  /\ header_guard (library_named "my-lib2") "other.h" = "MY-LIB2_H"
  /\ String.length (header_guard (library_named "my-lib2") "other.h") = 9%nat
  /\ String.get 3 (header_guard (library_named "my-lib2") "other.h") = Some "L"%char.
Proof.
  destruct (header_guard_from_library_name (library_named "my-lib2") "my-lib2.h" eq_refl)
    as (Hguard & _ & _ & _ & _ & Hsame).
  destruct (header_guard_from_library_name (library_named "my-lib2") "other.h" eq_refl)
    as (_ & _ & Hlen & Hget & _).
  split; [reflexivity | split; [exact Hguard | split; [| split]]].
  - rewrite (proj1 (Hsame "other.h")). exact Hguard.
  - exact Hlen.
  - exact (Hget 3%nat "l"%char eq_refl).
Defined.

(** C10, amended, for two libraries of one name and for two of different
    names. *)
Lemma library_directory_witness :
  let same := two_libraries_config "foo" "foo" in
  let other := two_libraries_config "foo" "bar" in
  let w := empty_home (TemplateDocument same) in
  let v := empty_home (TemplateDocument other) in
  fst (fst (main None w)) = Raised (FileExistsError "demo/lib/foo")
  /\ exists v1 v2,
       world_after (before_library other (project_root other) [library_named "foo"] v) = v1
       /\ Path_mkdir false (project_root other // "lib" // "bar") v1 = (Returned tt, v2, []).
Proof.
  cbv zeta. split.
  - pose proof (library_directory_creation None
      (empty_home (TemplateDocument (two_libraries_config "foo" "foo")))
      (world_after (before_library (two_libraries_config "foo" "foo")
                      (project_root (two_libraries_config "foo" "foo"))
                      [library_named "foo"]
                      (empty_home (TemplateDocument (two_libraries_config "foo" "foo")))))
      (two_libraries_config "foo" "foo") [library_named "foo"] [] (library_named "foo")
      ENOENT
      (snd (before_library (two_libraries_config "foo" "foo")
              (project_root (two_libraries_config "foo" "foo"))
              [library_named "foo"]
              (empty_home (TemplateDocument (two_libraries_config "foo" "foo")))))
      eq_refl eq_refl eq_refl) as H.
    cbv zeta in H. destruct H as [H _]; [vm_compute; reflexivity |].
    destruct H as [H _]; [now left |]. now rewrite H.
  - pose proof (library_directory_creation None
      (empty_home (TemplateDocument (two_libraries_config "foo" "bar")))
      (world_after (before_library (two_libraries_config "foo" "bar")
                      (project_root (two_libraries_config "foo" "bar"))
                      [library_named "foo"]
                      (empty_home (TemplateDocument (two_libraries_config "foo" "bar")))))
      (two_libraries_config "foo" "bar") [library_named "foo"] [] (library_named "bar")
      ENOENT
      (snd (before_library (two_libraries_config "foo" "bar")
              (project_root (two_libraries_config "foo" "bar"))
              [library_named "foo"]
              (empty_home (TemplateDocument (two_libraries_config "foo" "bar")))))
      eq_refl eq_refl eq_refl) as H.
    cbv zeta in H. destruct H as [_ H]; [vm_compute; reflexivity |].
    destruct H as [v2 H].
    + apply (bool_decide_eq_true_1 (world_wf _)). vm_compute. reflexivity.
    + reflexivity.
    + reflexivity.
    + intros [E|[]]. discriminate E.
    + eexists _, v2. split; [reflexivity | exact H].
Defined.

(** * Further properties of [main] *)

(** ** What [main] never does *)

Lemma preserves_read_script_dir I : preserves I read_script_dir.
Proof. intros w Hw. exact Hw. Qed.

Lemma preserves_read_template I p : preserves I (read_template p).
Proof. intros w Hw. exact Hw. Qed.

Lemma preserves_generate I config : call_stable I -> preserves I (generate config).
Proof.
  intros HI. unfold generate.
  apply preserves_bind; [apply preserves_Path_exists | intros found].
  destruct found; [apply preserves_print |].
  apply preserves_bind; [apply preserves_print | intros _].
  apply preserves_bind; [now apply preserves_mkdir_parents | intros _].
  exact (preserves_populate I config (project_root config) HI).
Qed.

Lemma preserves_main I arg : call_stable I -> preserves I (main arg).
Proof.
  intros HI. unfold main.
  apply preserves_bind; [apply preserves_read_script_dir | intros dir].
  apply preserves_bind; [apply preserves_read_template | intros loaded].
  destruct loaded; [apply preserves_print | apply preserves_print | | intros w Hw; exact Hw].
  now apply preserves_generate.
Qed.

(** X1: whatever the template holds and however the run ends, [main] removes
    nothing and changes no file into a directory or a directory into a
    file; the working directory stays; and a well-formed file system stays
    well-formed.  The text of a file may change, the template's too. *)
Theorem main_only_adds (arg : option Path) (w : world) :
  cwd (world_after (main arg w)) = cwd w
  /\ (forall k n, node_at (fs w) k = Some n ->
        exists n', node_at (fs (world_after (main arg w))) k = Some n' /\ same_kind n n')
  /\ (forall k, node_at (fs w) k = Some Dir ->
        node_at (fs (world_after (main arg w))) k = Some Dir)
  /\ (world_wf w -> world_wf (world_after (main arg w))).
Proof.
  assert (He : extends w (world_after (main arg w)))
    by (apply (preserves_main (extends w) arg (extends_call_stable w)), extends_refl).
  destruct He as (Hcwd & _ & _ & Hgrows).
  split; [exact Hcwd | split; [exact Hgrows | split]].
  - intros k Hk. exact (grows_Dir _ _ k Hgrows Hk).
  - apply (preserves_main world_wf arg world_wf_call_stable).
Qed.

(** ** What [main] prints *)

Section Output.

Lemma silent_ret {A} (a : A) : silent (ret a).
Proof. intros w. reflexivity. Qed.

Lemma silent_bind {A B} (m : M A) (k : A -> M B) :
  silent m -> (forall a, silent (k a)) -> silent (bind m k).
Proof.
  intros Hm Hk w. specialize (Hm w). unfold bind.
  destruct (m w) as [[[a|e] w1] o1]; simpl in *; [| exact Hm].
  specialize (Hk a w1). destruct (k a w1) as [[r w2] o2]. simpl in *. now subst.
Qed.

Lemma silent_for_each {A} (xs : list A) (body : A -> M unit) :
  (forall x, silent (body x)) -> silent (for_each xs body).
Proof.
  intros Hbody. induction xs as [|x xs IH]; simpl; [apply silent_ret |].
  apply silent_bind; [apply Hbody | intros _; exact IH].
Qed.

Lemma silent_Path_mkdir exist_ok p : silent (Path_mkdir exist_ok p).
Proof.
  intros w. unfold Path_mkdir. destruct (os_mkdir w p) as [[]|w']; try reflexivity;
    now destruct (exist_ok && is_dir w p).
Qed.

Lemma silent_mkdir_parents a rparts exist_ok : silent (mkdir_parents a rparts exist_ok).
Proof.
  revert exist_ok. induction rparts as [|c rparent IH]; intros exist_ok w; simpl;
    (destruct (os_mkdir w _) as [[]|w']; try reflexivity;
     try (now destruct (exist_ok && _))).
  apply (silent_bind _ _ (IH true) (fun _ => silent_Path_mkdir exist_ok _)).
Qed.

Lemma silent_Path_write_text p data : silent (Path_write_text p data).
Proof. intros w. unfold Path_write_text. now destruct (os_write w p data). Qed.

Lemma silent_create_executable_sources config root :
  silent (create_executable_sources config root).
Proof.
  apply silent_for_each. intros exe. apply silent_for_each. intros src.
  apply silent_Path_write_text.
Qed.

Lemma silent_create_library lib_dir lib : silent (create_library lib_dir lib).
Proof.
  unfold create_library.
  repeat (apply silent_bind; [| intros _]);
    try apply silent_for_each; intros;
    first [apply silent_Path_mkdir | apply silent_Path_write_text].
Qed.

Lemma silent_create_libraries config root : silent (create_libraries config root).
Proof.
  apply silent_bind; [apply silent_Path_mkdir | intros _].
  apply silent_for_each, silent_create_library.
Qed.

Lemma silent_create_tests config root : silent (create_tests config root).
Proof.
  unfold create_tests. destruct (dict_get (enableTests config) false); [| apply silent_ret].
  repeat (apply silent_bind; [| intros _]);
    first [apply silent_Path_mkdir | apply silent_Path_write_text].
Qed.

Lemma reports_bind_silent {A B} final (m : M A) (k : A -> M B) w :
  silent m -> (forall a w1, reports final (k a w1)) -> reports final (bind m k w).
Proof.
  intros Hm Hk. specialize (Hm w). unfold reports, bind in *.
  destruct (m w) as [[[a|e] w1] o1]; simpl in *; [| exact Hm].
  specialize (Hk a w1). destruct (k a w1) as [[r w2] o2]. simpl in *. now subst.
Qed.

Lemma reports_populate config w :
  reports (success_lines config) (populate config (project_root config) w).
Proof.
  unfold populate.
  apply reports_bind_silent; [apply silent_Path_write_text | intros _ w1].
  apply reports_bind_silent; [apply silent_create_executable_sources | intros _ w2].
  apply reports_bind_silent; [apply silent_create_libraries | intros _ w3].
  apply reports_bind_silent; [apply silent_create_tests | intros _ w4].
  reflexivity.
Qed.

End Output.

(** X2: when the template is loaded and the root is absent, [main] first
    prints the line that announces the project; it prints the five closing
    lines exactly when it returns, and nothing more when a step raises. *)
Theorem main_output (arg : option Path) (w w' : world) (config : Config) (e : errno)
    (r : result unit) (out : list string) :
  template w = TemplateDocument config ->
  os_stat w (project_root config) = inl e ->
  main arg w = (r, w', out) ->
  out = creating_line config
        :: match r with
           | Returned _ => success_lines config
           | Raised _ => []
           end.
Proof.
  intros Ht Hstat. rewrite (main_loaded _ _ _ Ht), (generate_fresh _ _ _ Hstat).
  erewrite bind_run by reflexivity.
  pose proof (reports_bind_silent (success_lines config)
                (Path_mkdir_parents (project_root config))
                (fun _ => populate config (project_root config)) w
                (silent_mkdir_parents _ _ _)
                (fun _ w1 => reports_populate config w1)) as H.
  unfold reports in H. intros [= <- _ <-]. unfold creating_line. simpl. f_equal. exact H.
Qed.

(** * Further properties of the generated text *)

Section MoreManifestLines.

Lemma filter_link_lines exes :
  List.filter (String.prefix "target_link_libraries(") (flat_map executable_lines exes)
  = map link_line (List.filter has_dependencies exes).
Proof.
  induction exes as [|exe exes IH]; [reflexivity |].
  cbn [flat_map]. rewrite List.filter_app, IH.
  assert (Hl : String.prefix "target_link_libraries(" (link_line exe) = true)
    by (unfold link_line; apply prefix_append).
  unfold executable_lines.
  change (executable_line exe :: ?l) with ([executable_line exe] ++ l).
  rewrite !List.filter_app.
  assert (He : List.filter (String.prefix "target_link_libraries(") [executable_line exe] = [])
    by reflexivity.
  rewrite He.
  match goal with
  | |- context [List.filter ?p (?a :: ?b :: ?c :: [?d])] =>
      assert (Ht : List.filter p (a :: b :: c :: [d]) = []) by reflexivity; rewrite Ht
  end.
  cbn [List.filter]. unfold has_dependencies.
  destruct (exe_dependencies exe) as [[|d ds]|]; cbn [List.filter app map];
    rewrite ?Hl; reflexivity.
Qed.

Lemma filter_link_lines_lib libs :
  List.filter (String.prefix "target_link_libraries(") (map library_line libs) = [].
Proof. induction libs as [|lib libs IH]; simpl; [reflexivity | exact IH]. Qed.

Lemma filter_subdirectory_lines_lib libs :
  List.filter (String.prefix "add_subdirectory(") (map library_line libs)
  = map library_line libs.
Proof.
  induction libs as [|lib libs IH]; [reflexivity |].
  cbn [map List.filter].
  assert (H : String.prefix "add_subdirectory(" (library_line lib) = true) by reflexivity.
  now rewrite H, IH.
Qed.

Lemma filter_subdirectory_lines_exe exes :
  List.filter (String.prefix "add_subdirectory(") (flat_map executable_lines exes) = [].
Proof.
  induction exes as [|exe exes IH]; simpl; [reflexivity |].
  rewrite List.filter_app, IH, app_nil_r. unfold executable_lines.
  destruct (exe_dependencies exe) as [[|d ds]|]; reflexivity.
Qed.

End MoreManifestLines.

(** X3: when no text of the configuration holds a line feed, the lines of
    the root manifest that start with [target_link_libraries(] are the link
    lines of the executables that have a non-empty [dependencies], in the
    order of the configuration; an executable without dependencies gets
    none. *)
Theorem link_lines_follow_dependencies (config : Config) :
  config_single_line config = true ->
  lines_starting "target_link_libraries(" (create_main_cmakelists config)
  = map link_line (List.filter has_dependencies (executables config)).
Proof.
  intros H. unfold lines_starting. rewrite (lines_create_main_cmakelists _ H).
  unfold manifest_lines. rewrite !List.filter_app.
  rewrite filter_link_lines_lib, filter_link_lines.
  destruct (dict_get (enableTests config) true); simpl; now rewrite ?app_nil_r.
Qed.

(** C9: the manifest is the same whether the [dependencies] key of an
    executable is absent or holds the empty list.  The manifest is the
    header, the libraries' lines and one block per executable, and the block
    of an executable has its [target_link_libraries] line exactly when its
    dependencies, an absent key read as the empty list, are not empty; when
    no text of the configuration holds a line feed, the
    [target_link_libraries(] lines of the manifest are the lines of those
    executables, one each, in their order. *)
Theorem absent_dependencies_same_as_empty (config : Config) (exes : list Executable) :
  Forall2 (fun e e' =>
             exe_name e = exe_name e' /\ exe_sources e = exe_sources e'
             /\ effective_dependencies e = effective_dependencies e')
          (executables config) exes ->
  create_main_cmakelists (with_executables config exes)
  = create_main_cmakelists config
  /\ create_main_cmakelists config
     = main_header (projectName config) (py_str (cStandard config))
                   (py_str (cppStandard config))
       +:+ unlines (map library_line (libraries config))
       +:+ nl +:+ "# Add executables" +:+ nl
       +:+ foldr (fun exe rest =>
                    executable_line exe +:+ nl
                    +:+ (match effective_dependencies exe with
                         | [] => EmptyString
                         | _ :: _ => link_line exe +:+ nl
                         end)
                    +:+ target_properties (exe_name exe) +:+ rest)
                 EmptyString (executables config)
       +:+ (if dict_get (enableTests config) true then testing_block else EmptyString)
  /\ (config_single_line config = true ->
      lines_starting "target_link_libraries(" (create_main_cmakelists config)
      = map link_line
          (List.filter (fun exe => match effective_dependencies exe with
                                   | [] => false
                                   | _ :: _ => true
                                   end)
                       (executables config)))
  /\ forall content exe,
       add_executable_block content exe
       = content +:+ executable_line exe +:+ nl
         +:+ (match exe_dependencies exe with
              | Some (_ :: _) => link_line exe +:+ nl
              | _ => EmptyString
              end)
         +:+ target_properties (exe_name exe).
Proof.
  intros Hsame. split; [| split; [| split]].
  - assert (Hblocks :
      foldr (fun exe acc => executable_block exe +:+ acc) EmptyString exes
      = foldr (fun exe acc => executable_block exe +:+ acc) EmptyString
              (executables config)).
    { induction Hsame as [|e e' es es' (Hn & Hs & Hd) _ IH]; simpl; [reflexivity |].
      rewrite IH. f_equal.
      unfold executable_block, executable_line, link_line.
      unfold effective_dependencies in *. rewrite Hn, Hs.
      destruct (exe_dependencies e) as [[|d ds]|],
               (exe_dependencies e') as [[|d' ds']|];
        simpl in Hd; try discriminate; try reflexivity.
      now rewrite Hd. }
    rewrite !create_main_cmakelists_eq. simpl. now rewrite Hblocks.
  - rewrite create_main_cmakelists_eq. clear Hsame.
    assert (Hblocks : forall l,
      foldr (fun exe acc => executable_block exe +:+ acc) EmptyString l
      = foldr (fun exe rest =>
                 executable_line exe +:+ nl
                 +:+ (match effective_dependencies exe with
                      | [] => EmptyString
                      | _ :: _ => link_line exe +:+ nl
                      end)
                 +:+ target_properties (exe_name exe) +:+ rest)
              EmptyString l).
    { intros l. induction l as [|exe rest IH]; simpl; [reflexivity |].
      rewrite IH. unfold executable_block, effective_dependencies.
      destruct (exe_dependencies exe) as [[|d ds]|]; simpl dict_get; cbv iota;
        now rewrite ?append_assoc. }
    now rewrite Hblocks.
  - intros H. unfold lines_starting. rewrite (lines_create_main_cmakelists _ H).
    unfold manifest_lines. rewrite !List.filter_app.
    rewrite filter_link_lines_lib, filter_link_lines.
    assert (Hf : forall l,
      List.filter has_dependencies l
      = List.filter (fun exe => match effective_dependencies exe with
                                | [] => false
                                | _ :: _ => true
                                end) l).
    { intros l. induction l as [|exe l IH]; simpl; [reflexivity |].
      rewrite IH. unfold has_dependencies, effective_dependencies.
      now destruct (exe_dependencies exe) as [[|d ds]|]. }
    rewrite Hf.
    destruct (dict_get (enableTests config) true); simpl; now rewrite ?app_nil_r.
  - intros content exe. rewrite add_executable_block_eq.
    unfold executable_block. now rewrite ?append_assoc.
Qed.

(** X4: when no text of the configuration holds a line feed, the
    [add_subdirectory(] lines of the root manifest are the libraries' lines
    and, when [enableTests] is true or absent, one last line for [tests];
    with [enableTests] false there is no line for [tests]. *)
Theorem subdirectory_lines_of_manifest (config : Config) :
  config_single_line config = true ->
  lines_starting "add_subdirectory(" (create_main_cmakelists config)
  = map library_line (libraries config)
    ++ (if dict_get (enableTests config) true then [ "add_subdirectory(tests)" ] else []).
Proof.
  intros H. unfold lines_starting. rewrite (lines_create_main_cmakelists _ H).
  unfold manifest_lines. rewrite !List.filter_app.
  rewrite filter_subdirectory_lines_lib, filter_subdirectory_lines_exe.
  destruct (dict_get (enableTests config) true); simpl; now rewrite ?app_nil_r.
Qed.

(** X5: when neither the name nor a source of a library holds a line feed,
    its manifest is three lines: the [add_library] line with the sources in
    their order, an empty line, and the line that makes [include] a public
    include directory.  The headers do not occur in it. *)
Theorem library_manifest_lines (lib : Library) :
  single_line (lib_name lib) = true ->
  forallb single_line (lib_sources lib) = true ->
  lines (create_lib_cmakelists lib)
  = [ "add_library(" +:+ lib_name lib +:+ " " +:+ join " " (lib_sources lib) +:+ ")";
      EmptyString;
      "target_include_directories(" +:+ lib_name lib +:+ " PUBLIC include)";
      EmptyString ].
Proof.
  intros Hn Hs. unfold create_lib_cmakelists. cbv zeta.
  rewrite <- (append_nil_r (unlines _)). rewrite lines_unlines; [reflexivity |].
  apply single_line_join_space in Hs.
  cbn [forallb]. rewrite !single_line_append, Hn, Hs. reflexivity.
Qed.

(** * Runs that cannot succeed *)

Section FailingRuns.

(** A loop that has returned has run every round, each from a world in
    which the invariant of the loop held. *)
Lemma for_each_returned_inv {A} (I : world -> Prop) (xs : list A) (body : A -> M unit)
    x w w' out :
  (forall y, preserves I (body y)) ->
  I w ->
  for_each xs body w = (Returned tt, w', out) ->
  In x xs ->
  exists wa wb o, I wa /\ body x wa = (Returned tt, wb, o).
Proof.
  intros Hbody. revert w out. induction xs as [|a xs IH]; intros w out Hw; simpl; [tauto |].
  intros ([] & w1 & o1 & o2 & Ha & Hrest & _)%bind_returned [<-|Hin].
  - now exists w, w1, o1.
  - apply (IH w1 o2); [| exact Hrest | exact Hin].
    eapply preserves_run; [apply Hbody | exact Hw | exact Ha].
Qed.

(** When [mkdir(parents=True)] returns, its last step was an [os.mkdir] of
    the path itself. *)
Lemma mkdir_parents_last a rparts w w' out :
  mkdir_parents a rparts false w = (Returned tt, w', out) ->
  exists w0, extends w w0 /\ (world_wf w -> world_wf w0)
             /\ os_mkdir w0 {| path_anchor := a; path_parts := rev rparts |} = inr w'.
Proof.
  destruct rparts as [|c rparent]; simpl.
  - destruct (os_mkdir w _) as [e|w1] eqn:H.
    + destruct e; discriminate.
    + intros [= <- _]. exists w. split; [apply extends_refl | split; [trivial | exact H]].
  - destruct (os_mkdir w _) as [e|w1] eqn:H.
    + destruct e; try discriminate.
      intros ([] & w1 & o1 & o2 & Hparents & Hlast & _)%bind_returned.
      apply Path_mkdir_returned in Hlast as [Hlast _].
      exists w1. split; [| split; [| exact Hlast]].
      * eapply (preserves_run (extends w)); [| apply extends_refl | exact Hparents].
        apply preserves_mkdir_parents, extends_call_stable.
      * intros Hwf. eapply preserves_run; [| exact Hwf | exact Hparents].
        apply preserves_mkdir_parents, world_wf_call_stable.
    + intros [= <- _]. exists w. split; [apply extends_refl | split; [trivial | exact H]].
Qed.

Lemma mkdir_parents_returned p w w' out :
  Path_mkdir_parents p w = (Returned tt, w', out) ->
  exists w0, extends w w0 /\ (world_wf w -> world_wf w0) /\ os_mkdir w0 p = inr w'.
Proof.
  unfold Path_mkdir_parents. intros H%mkdir_parents_last.
  rewrite rev_involutive in H. now destruct p.
Qed.

(** The root that [mkdir(parents=True)] has made in a well-formed world is
    an empty directory. *)
Lemma root_made p w w' out :
  world_wf w ->
  Path_mkdir_parents p w = (Returned tt, w', out) ->
  exists k,
    world_wf w' /\ extends w w'
    /\ resolve w' p = inr k /\ node_at (fs w') k = Some Dir
    /\ forall rel, rel <> [] -> fs w' !! (k ++ rel) = None.
Proof.
  intros Hwf (w0 & He0 & Hwf0 & Hmk)%mkdir_parents_returned.
  specialize (Hwf0 Hwf).
  pose proof (proj1 world_wf_call_stable _ _ _ Hwf0 Hmk) as Hwf'.
  pose proof (os_mkdir_extends _ _ _ Hmk) as He'.
  pose proof Hmk as (k & Hr & Hnew & Hw')%os_mkdir_inv.
  exists k. split; [exact Hwf' | split; [eapply extends_trans; eassumption | split; [| split]]].
  - now apply (resolve_extends w0).
  - rewrite Hw'. simpl. apply node_at_insert_eq. eapply node_at_None_ne_root; eassumption.
  - intros rel Hrel. rewrite Hw'. simpl. rewrite lookup_insert_ne.
    + apply fresh_no_descendants; [apply Hwf0 | exact Hnew].
    + intros E. apply Hrel. apply (app_inv_head k). now rewrite app_nil_r.
Qed.

(** Writing a file makes no directory. *)
Lemma write_keeps_no_subdirectory w0 k p data :
  preserves (fun w => extends w0 w /\ no_subdirectory k w) (Path_write_text p data).
Proof.
  intros w [He Hno]. unfold Path_write_text, world_after.
  destruct (os_write w p data) as [err|w'] eqn:H; simpl; [now split |].
  split; [eapply extends_trans; [exact He | eapply os_write_extends, H] |].
  apply os_write_inv in H as (k' & _ & _ & ->). intros c. simpl.
  destruct (decide (k' = k ++ [c])) as [->|E].
  - rewrite node_at_insert_eq; [discriminate | now destruct k].
  - rewrite node_at_insert_ne by exact E. apply Hno.
Qed.

(** Every source of every executable is a file once
    [create_executable_sources] has returned. *)
Lemma executable_source_written config root w w' out exe s :
  create_executable_sources config root w = (Returned tt, w', out) ->
  In exe (executables config) -> In s (exe_sources exe) ->
  exists text, os_stat w' (root // s) = inr (File text).
Proof.
  intros Hrun Hexe Hs. unfold create_executable_sources in Hrun.
  assert (Hinner : forall (x : Executable) w0,
            preserves (extends w0)
              (for_each (exe_sources x)
                 (fun src => Path_write_text (root // src) (exe_source_text x)))).
  { intros x w0. apply preserves_for_each. intros src.
    apply preserves_Path_write_text, extends_call_stable. }
  destruct (for_each_returned_In _ _ _ _ _ _ Hinner Hrun Hexe)
    as (wa & wb & o & Hloop & _ & Hb).
  destruct (for_each_returned_In _ _ _ _ _ _
              (fun y w0 => preserves_Path_write_text (extends w0) _ _ (extends_call_stable w0))
              Hloop Hs) as (wc & wd & o' & Hwrite & _ & Hd).
  apply Path_write_text_stat in Hwrite.
  destruct (stat_File_extends _ _ _ _ Hd Hwrite) as [t1 H1].
  exact (stat_File_extends _ _ _ _ Hb H1).
Qed.

(** Every library has gone through [create_library] once
    [create_libraries] has returned. *)
Lemma create_libraries_returned_In config root w w' out lib :
  create_libraries config root w = (Returned tt, w', out) ->
  In lib (libraries config) ->
  exists wa wb o, create_library (root // "lib") lib wa = (Returned tt, wb, o).
Proof.
  unfold create_libraries.
  intros ([] & w1 & o1 & o2 & _ & Hloop & _)%bind_returned Hin.
  destruct (for_each_returned_In _ _ _ _ _ _
              (fun y w0 => preserves_create_library (extends w0) _ y (extends_call_stable w0))
              Hloop Hin) as (wa & wb & o & H & _).
  now exists wa, wb, o.
Qed.

End FailingRuns.

(** X6: sources in subdirectories are not supported.  When an executable
    declares a source with a directory in front of the file name (as in
    [src/main.c]), a run of [main] that starts in a well-formed world
    without the root never returns: no directory is made for the sources
    of executables, and the write raises. *)
Theorem source_in_subdirectory_fails
    (arg : option Path) (w w' : world) (config : Config) (exe : Executable) (s : string)
    (e : errno) (r : result unit) (out : list string) :
  template w = TemplateDocument config ->
  world_wf w ->
  os_stat w (project_root config) = inl e ->
  In exe (executables config) ->
  In s (exe_sources exe) ->
  has_directory_part s = true ->
  main arg w = (r, w', out) ->
  exists ex, r = Raised ex.
Proof.
  intros Ht Hwf Hstat Hexe Hs Hdir Hmain.
  destruct r as [[]|ex]; [exfalso | now exists ex].
  destruct (main_returned _ _ _ _ _ _ Ht Hstat Hmain) as (wa & oa & op & Ha & Hp).
  apply populate_returned in Hp as (wb & wc & wd & ob & oc & od & ot & Hb & Hc & _).
  destruct (root_made _ _ _ _ Hwf Ha) as (k & _ & _ & Hr & Hk & Hempty).
  set (root := project_root config) in *.
  set (I := fun v => extends wa v /\ no_subdirectory k v).
  assert (Ia : I wa).
  { split; [apply extends_refl |]. intros c.
    destruct (k ++ [c]) eqn:E; [now destruct k |]. simpl. rewrite <- E.
    rewrite Hempty; [discriminate | discriminate]. }
  assert (Ib : I wb).
  { eapply preserves_run; [apply (write_keeps_no_subdirectory wa k) | exact Ia | exact Hb]. }
  unfold create_executable_sources in Hc.
  assert (Hinner : forall x : Executable,
            preserves I (for_each (exe_sources x)
                           (fun src => Path_write_text (root // src) (exe_source_text x)))).
  { intros x. apply preserves_for_each. intros src. apply write_keeps_no_subdirectory. }
  destruct (for_each_returned_inv I _ _ _ _ _ _ Hinner Ib Hc Hexe) as (wx & wy & o & Ix & Hloop).
  destruct (for_each_returned_inv I _ _ _ _ _ _
              (fun y => write_keeps_no_subdirectory wa k _ _) Ix Hloop Hs)
    as (wu & wv & o' & [Hext Hno] & Hwrite).
  unfold Path_write_text in Hwrite.
  destruct (os_write wu (root // s) (exe_source_text exe)) as [err|wz] eqn:Hos;
    [discriminate |].
  apply os_write_inv in Hos as (k' & Hres & _).
  unfold has_directory_part in Hdir. unfold path_div in Hres.
  destruct (path_anchor (parse_path s)); try discriminate.
  destruct (path_parts (parse_path s)) as [|d [|f rest]]; try discriminate.
  rewrite (resolve_below _ _ _ _ (resolve_extends _ _ _ _ Hext Hr)) in Hres.
  simpl in Hres. rewrite (grows_Dir _ _ _ (proj2 (proj2 (proj2 Hext))) Hk) in Hres.
  unfold step_into in Hres. unfold not_dotdot in Hdir.
  destruct (String.eqb d ".."); [discriminate |].
  specialize (Hno d).
  destruct (node_at (fs wu) (k ++ [d])) as [[data|]|]; try discriminate. now apply Hno.
Qed.

(** X7: an executable source that takes the place of [lib].  When a source
    of an executable is the path [lib] of the root, the libraries step
    raises [FileExistsError] for [lib] as soon as the sources are written,
    and a run of [main] that starts without the root never returns. *)
Theorem source_named_lib_fails
    (arg : option Path) (w : world) (config : Config) (exe : Executable) (s : string)
    (e : errno) :
  template w = TemplateDocument config ->
  os_stat w (project_root config) = inl e ->
  In exe (executables config) ->
  In s (exe_sources exe) ->
  project_root config // s = project_root config // "lib" ->
  (forall r w' out, main arg w = (r, w', out) -> exists ex, r = Raised ex)
  /\ (forall wb wc oc,
        create_executable_sources config (project_root config) wb = (Returned tt, wc, oc) ->
        create_libraries config (project_root config) wc
        = (Raised (FileExistsError (path_str (project_root config // "lib"))), wc, [])).
Proof.
  intros Ht Hstat Hexe Hs Hpath.
  assert (Hstep : forall wb wc oc,
    create_executable_sources config (project_root config) wb = (Returned tt, wc, oc) ->
    create_libraries config (project_root config) wc
    = (Raised (FileExistsError (path_str (project_root config // "lib"))), wc, [])).
  { intros wb wc oc Hc.
    destruct (executable_source_written _ _ _ _ _ _ _ Hc Hexe Hs) as [text Hfile].
    rewrite Hpath in Hfile. unfold create_libraries.
    apply bind_raised. eapply Path_mkdir_exists, Hfile. }
  split; [| exact Hstep].
  intros r w' out Hmain. destruct r as [[]|ex]; [exfalso | now exists ex].
  destruct (main_returned _ _ _ _ _ _ Ht Hstat Hmain) as (wa & oa & op & Ha & Hp).
  apply populate_returned in Hp as (wb & wc & wd & ob & oc & od & ot & Hb & Hc & Hd & _).
  rewrite (Hstep _ _ _ Hc) in Hd. discriminate.
Qed.

(** X8: an executable source that takes the place of [tests].  With
    [enableTests] true, when a source of an executable is the path [tests]
    of the root, a run of [main] that starts without the root never
    returns: the file is still there when the tests step wants to make the
    directory. *)
Theorem source_named_tests_fails
    (arg : option Path) (w w' : world) (config : Config) (exe : Executable) (s : string)
    (e : errno) (r : result unit) (out : list string) :
  template w = TemplateDocument config ->
  os_stat w (project_root config) = inl e ->
  dict_get (enableTests config) false = true ->
  In exe (executables config) ->
  In s (exe_sources exe) ->
  project_root config // s = project_root config // "tests" ->
  main arg w = (r, w', out) ->
  exists ex, r = Raised ex.
Proof.
  intros Ht Hstat Hflag Hexe Hs Hpath Hmain.
  destruct r as [[]|ex]; [exfalso | now exists ex].
  destruct (main_returned _ _ _ _ _ _ Ht Hstat Hmain) as (wa & oa & op & Ha & Hp).
  apply populate_returned in Hp as (wb & wc & wd & ob & oc & od & ot & Hb & Hc & Hd & He).
  destruct (executable_source_written _ _ _ _ _ _ _ Hc Hexe Hs) as [text Hfile].
  rewrite Hpath in Hfile.
  assert (Hcd : extends wc wd).
  { eapply (preserves_run (extends wc)); [| apply extends_refl | exact Hd].
    apply preserves_create_libraries, extends_call_stable. }
  destruct (stat_File_extends _ _ _ _ Hcd Hfile) as [text' Hfile'].
  unfold create_tests in He. rewrite Hflag in He.
  rewrite (bind_raised _ _ _ _ _ _ (Path_mkdir_exists _ _ _ Hfile')) in He. discriminate.
Qed.

(** X9: a library source that takes the place of [include].  When a source
    of a library is the path [include] of the library's directory,
    [create_library] never returns for that library, in any world, and so
    a run of [main] that starts without the root never returns. *)
Theorem library_source_named_include_fails
    (arg : option Path) (w : world) (config : Config) (lib : Library) (s : string)
    (e : errno) :
  In s (lib_sources lib) ->
  (forall lib_dir,
     lib_dir // lib_name lib // s = lib_dir // lib_name lib // "include") ->
  (forall lib_dir v r v' out,
     create_library lib_dir lib v = (r, v', out) -> exists ex, r = Raised ex)
  /\ (template w = TemplateDocument config ->
      os_stat w (project_root config) = inl e ->
      In lib (libraries config) ->
      forall r w' out, main arg w = (r, w', out) -> exists ex, r = Raised ex).
Proof.
  intros Hs Hpath.
  assert (Hlib : forall lib_dir v r v' out,
            create_library lib_dir lib v = (r, v', out) -> exists ex, r = Raised ex).
  { intros lib_dir v r v' out Hrun.
    destruct r as [[]|ex]; [exfalso | now exists ex].
    unfold create_library in Hrun.
    apply bind_returned in Hrun as ([] & w1 & o1 & o2 & _ & Hrun & _).
    apply bind_returned in Hrun as ([] & w2 & o3 & o4 & _ & Hrun & _).
    apply bind_returned in Hrun as ([] & w3 & o5 & o6 & Hsrc & Hrun & _).
    apply bind_returned in Hrun as ([] & w4 & o7 & o8 & Hmk & _).
    destruct (for_each_returned_In _ _ _ _ _ _
                (fun y w0 => preserves_Path_write_text (extends w0) _ _ (extends_call_stable w0))
                Hsrc Hs) as (wa & wb & o & Hwrite & _ & Hb).
    apply Path_write_text_stat in Hwrite. rewrite Hpath in Hwrite.
    destruct (stat_File_extends _ _ _ _ Hb Hwrite) as [text Hfile].
    rewrite (Path_mkdir_exists _ _ _ Hfile) in Hmk. discriminate. }
  split; [exact Hlib |].
  intros Ht Hstat Hin r w' out Hmain.
  destruct r as [[]|ex]; [exfalso | now exists ex].
  destruct (main_returned _ _ _ _ _ _ Ht Hstat Hmain) as (wa & oa & op & Ha & Hp).
  apply populate_returned in Hp as (wb & wc & wd & ob & oc & od & ot & Hb & Hc & Hd & _).
  destruct (create_libraries_returned_In _ _ _ _ _ _ Hd Hin) as (wx & wy & o & Hrun).
  destruct (Hlib _ _ _ _ _ Hrun) as [ex Hex]. discriminate.
Qed.

(** * Runs that succeed *)

Section BuiltTree.

Implicit Types (m : gmap (list string) node) (k dir : list string).

Lemma node_at_snoc m k c : node_at m (k ++ [c]) = m !! (k ++ [c]).
Proof. now destruct k. Qed.

Lemma set_fs_same w : set_fs w (fs w) = w.
Proof. now destruct w. Qed.

Lemma forallb_impl {A} (f g : A -> bool) (xs : list A) :
  (forall x, f x = true -> g x = true) -> forallb f xs = true -> forallb g xs = true.
Proof.
  intros H. induction xs as [|x xs IH]; simpl; [trivial |].
  intros [Hx Hxs]%andb_true_iff. now rewrite (H x Hx), (IH Hxs).
Qed.

Lemma write_all_lookup_other dir names text m k :
  (forall s, In s names -> k <> dir ++ [s]) ->
  write_all dir names text m !! k = m !! k.
Proof.
  unfold write_all. revert m.
  induction names as [|s names IH]; intros m H; simpl; [reflexivity |].
  rewrite IH by (intros s' Hs'; apply H; now right).
  apply lookup_insert_ne. intros E. now apply (H s (or_introl eq_refl)).
Qed.

Lemma write_all_frame dir names text m k :
  (forall rel, k <> dir ++ rel) -> write_all dir names text m !! k = m !! k.
Proof. intros H. apply write_all_lookup_other. intros s _. apply H. Qed.

Lemma write_all_lookup_in dir names text m s :
  In s names -> write_all dir names text m !! (dir ++ [s]) = Some (File (text s)).
Proof.
  revert m. induction names as [|s' names IH]; intros m; [intros [] |].
  intros Hin.
  change (write_all dir (s' :: names) text m)
    with (write_all dir names text (<[dir ++ [s'] := File (text s')]> m)).
  destruct (in_dec string_dec s names) as [Hlater|Hlast].
  - now apply IH.
  - destruct Hin as [->|Hin]; [| contradiction].
    rewrite write_all_lookup_other.
    + apply lookup_insert_eq.
    + intros s2 Hs2 E%app_inv_head. injection E as ->. contradiction.
Qed.

Lemma write_all_not_dir dir names text m k :
  node_at m k <> Some Dir -> node_at (write_all dir names text m) k <> Some Dir.
Proof.
  unfold write_all. revert m.
  induction names as [|s names IH]; intros m H; simpl; [exact H |].
  apply IH. destruct (decide (dir ++ [s] = k)) as [<-|E].
  - rewrite node_at_insert_eq; [discriminate | now destruct dir].
  - now rewrite node_at_insert_ne.
Qed.

Lemma build_executables_lookup_other k exes m k' :
  (forall exe s, In exe exes -> In s (exe_sources exe) -> k' <> k ++ [s]) ->
  build_executables k exes m !! k' = m !! k'.
Proof.
  unfold build_executables. revert m.
  induction exes as [|exe exes IH]; intros m H; simpl; [reflexivity |].
  rewrite IH by (intros x s Hx; apply H; now right).
  apply write_all_lookup_other. intros s. apply H. now left.
Qed.

Lemma build_executables_not_dir k exes m k' :
  node_at m k' <> Some Dir -> node_at (build_executables k exes m) k' <> Some Dir.
Proof.
  unfold build_executables. revert m.
  induction exes as [|exe exes IH]; intros m H; simpl; [exact H |].
  apply IH. now apply write_all_not_dir.
Qed.

(** [build_library] changes nothing outside the library's directory. *)
Lemma build_library_frame lib_key m lib k :
  (forall rel, k <> (lib_key ++ [lib_name lib]) ++ rel) ->
  build_library lib_key m lib !! k = m !! k.
Proof.
  intros H. unfold build_library. cbv zeta.
  rewrite write_all_frame by (intros rel; rewrite <- app_assoc; apply H).
  rewrite lookup_insert_ne by (intros E; now apply (H ["include"])).
  rewrite write_all_frame by exact H.
  rewrite lookup_insert_ne by (intros E; now apply (H ["CMakeLists.txt"])).
  rewrite lookup_insert_ne; [reflexivity |].
  intros E. apply (H []). now rewrite app_nil_r.
Qed.

Lemma libraries_frame lib_key libs m k :
  (forall lib rel, In lib libs -> k <> (lib_key ++ [lib_name lib]) ++ rel) ->
  fold_left (build_library lib_key) libs m !! k = m !! k.
Proof.
  revert m. induction libs as [|lib libs IH]; intros m H; simpl; [reflexivity |].
  rewrite IH by (intros x rel Hx; apply H; now right).
  apply build_library_frame. intros rel. apply H. now left.
Qed.

Lemma build_tests_frame k config m k' :
  (forall rel, k' <> (k ++ ["tests"]) ++ rel) ->
  build_tests k config m !! k' = m !! k'.
Proof.
  intros H. unfold build_tests.
  destruct (dict_get (enableTests config) false); [| reflexivity]. cbv zeta.
  rewrite lookup_insert_ne by (intros E; now apply (H ["test_foo.cpp"])).
  rewrite lookup_insert_ne by (intros E; now apply (H ["CMakeLists.txt"])).
  rewrite lookup_insert_ne; [reflexivity |].
  intros E. apply (H []). now rewrite app_nil_r.
Qed.

(** ** The steps, one by one *)

Lemma bind_step_silent {A B} (m : M A) (k : A -> M B) w a w1 x :
  m w = (Returned a, w1, []) -> k a w1 = x -> bind m k w = x.
Proof.
  intros Hm <-. unfold bind. rewrite Hm. now destruct (k a w1) as [[r w2] o2].
Qed.

Lemma bind_print {B} line (k : unit -> M B) w r w' out :
  k tt w = (r, w', out) -> bind (print line) k w = (r, w', line :: out).
Proof. intros Hk. unfold bind, print. now rewrite Hk. Qed.

Lemma directory_at_extends w w' p k :
  directory_at w p k -> world_wf w' -> extends w w' -> directory_at w' p k.
Proof.
  intros (_ & Hr & Hd) Hwf He. split; [exact Hwf | split].
  - eapply resolve_extends; eassumption.
  - eapply grows_Dir; [apply He | exact Hd].
Qed.

Lemma write_child w p k s data :
  directory_at w p k -> single_component s = true ->
  node_at (fs w) (k ++ [s]) <> Some Dir ->
  Path_write_text (p // s) data w
  = (Returned tt, set_fs w (<[k ++ [s] := File data]> (fs w)), [])
  /\ directory_at (set_fs w (<[k ++ [s] := File data]> (fs w))) p k
  /\ extends w (set_fs w (<[k ++ [s] := File data]> (fs w))).
Proof.
  intros Hdir Hs Hnode. pose proof Hdir as (Hwf & Hr & Hd).
  assert (Hrun : Path_write_text (p // s) data w
                 = (Returned tt, set_fs w (<[k ++ [s] := File data]> (fs w)), []))
    by (apply Path_write_text_ok; [now apply resolve_child | exact Hnode]).
  assert (He : extends w (set_fs w (<[k ++ [s] := File data]> (fs w)))).
  { eapply (preserves_run (extends w)); [| apply extends_refl | exact Hrun].
    apply preserves_Path_write_text, extends_call_stable. }
  assert (Hwf' : world_wf (set_fs w (<[k ++ [s] := File data]> (fs w)))).
  { eapply preserves_run; [| exact Hwf | exact Hrun].
    apply preserves_Path_write_text, world_wf_call_stable. }
  split; [exact Hrun | split; [| exact He]].
  eapply directory_at_extends; eassumption.
Qed.

Lemma mkdir_child w p k s :
  directory_at w p k -> single_component s = true ->
  node_at (fs w) (k ++ [s]) = None ->
  Path_mkdir false (p // s) w
  = (Returned tt, set_fs w (<[k ++ [s] := Dir]> (fs w)), [])
  /\ directory_at (set_fs w (<[k ++ [s] := Dir]> (fs w))) p k
  /\ directory_at (set_fs w (<[k ++ [s] := Dir]> (fs w))) (p // s) (k ++ [s])
  /\ extends w (set_fs w (<[k ++ [s] := Dir]> (fs w)))
  /\ empty_below (k ++ [s]) (<[k ++ [s] := Dir]> (fs w)).
Proof.
  intros Hdir Hs Hnode. pose proof Hdir as (Hwf & Hr & Hd).
  assert (Hrun : Path_mkdir false (p // s) w
                 = (Returned tt, set_fs w (<[k ++ [s] := Dir]> (fs w)), []))
    by (apply Path_mkdir_fresh; [now apply resolve_child | exact Hnode]).
  assert (He : extends w (set_fs w (<[k ++ [s] := Dir]> (fs w)))).
  { eapply (preserves_run (extends w)); [| apply extends_refl | exact Hrun].
    apply preserves_Path_mkdir, extends_call_stable. }
  assert (Hwf' : world_wf (set_fs w (<[k ++ [s] := Dir]> (fs w)))).
  { eapply preserves_run; [| exact Hwf | exact Hrun].
    apply preserves_Path_mkdir, world_wf_call_stable. }
  assert (Hdir' : directory_at (set_fs w (<[k ++ [s] := Dir]> (fs w))) p k)
    by (eapply directory_at_extends; eassumption).
  split; [exact Hrun | split; [exact Hdir' | split; [| split; [exact He |]]]].
  - split; [exact Hwf' | split].
    + apply resolve_child; [apply Hdir' | apply Hdir' | exact Hs].
    + simpl. apply node_at_insert_eq. now destruct k.
  - intros rel Hrel. rewrite lookup_insert_ne.
    + apply fresh_no_descendants; [apply Hwf | exact Hnode].
    + intros E. apply Hrel. apply (app_inv_head (k ++ [s])). now rewrite app_nil_r.
Qed.

Lemma write_all_run w p k names text :
  directory_at w p k ->
  forallb single_component names = true ->
  (forall s, In s names -> node_at (fs w) (k ++ [s]) <> Some Dir) ->
  for_each names (fun s => Path_write_text (p // s) (text s)) w
  = (Returned tt, set_fs w (write_all k names text (fs w)), [])
  /\ directory_at (set_fs w (write_all k names text (fs w))) p k
  /\ extends w (set_fs w (write_all k names text (fs w))).
Proof.
  revert w. induction names as [|s names IH]; intros w Hdir Hsingle Hnodes.
  - unfold write_all. simpl. rewrite set_fs_same.
    split; [reflexivity | split; [exact Hdir | apply extends_refl]].
  - simpl in Hsingle. apply andb_true_iff in Hsingle as [Hs Hsingle].
    destruct (write_child w p k s (text s) Hdir Hs (Hnodes s (or_introl eq_refl)))
      as (Hrun & Hdir1 & He1).
    destruct (IH _ Hdir1 Hsingle) as (Hrun2 & Hdir2 & He2).
    { intros s' Hs'. simpl. destruct (decide (k ++ [s] = k ++ [s'])) as [<-|E].
      - rewrite node_at_insert_eq; [discriminate | now destruct k].
      - rewrite node_at_insert_ne by exact E. apply Hnodes. now right. }
    split; [| split; [exact Hdir2 | eapply extends_trans; eassumption]].
    simpl for_each. apply (bind_step_silent _ _ _ _ _ _ Hrun). exact Hrun2.
Qed.

Lemma executables_run w p k exes :
  directory_at w p k ->
  forallb (fun exe => forallb single_component (exe_sources exe)) exes = true ->
  no_subdirectory k w ->
  for_each exes
    (fun exe => for_each (exe_sources exe)
                  (fun src => Path_write_text (p // src) (exe_source_text exe))) w
  = (Returned tt, set_fs w (build_executables k exes (fs w)), [])
  /\ directory_at (set_fs w (build_executables k exes (fs w))) p k
  /\ extends w (set_fs w (build_executables k exes (fs w))).
Proof.
  revert w. induction exes as [|exe exes IH]; intros w Hdir Hsingle Hno.
  - unfold build_executables. simpl. rewrite set_fs_same.
    split; [reflexivity | split; [exact Hdir | apply extends_refl]].
  - simpl in Hsingle. apply andb_true_iff in Hsingle as [Hs Hsingle].
    destruct (write_all_run w p k (exe_sources exe) (fun _ => exe_source_text exe)
                Hdir Hs (fun s _ => Hno s)) as (Hrun & Hdir1 & He1).
    destruct (IH _ Hdir1 Hsingle) as (Hrun2 & Hdir2 & He2).
    { intros c. simpl. apply write_all_not_dir, Hno. }
    split; [| split; [exact Hdir2 | eapply extends_trans; eassumption]].
    simpl for_each. apply (bind_step_silent _ _ _ _ _ _ Hrun). exact Hrun2.
Qed.

End BuiltTree.

Section SuccessfulRun.

Implicit Types (m : gmap (list string) node) (k : list string).

Lemma safe_library_sources lib :
  safe_library lib = true ->
  single_component (lib_name lib) = true
  /\ forallb single_component (lib_sources lib) = true
  /\ (forall s, In s (lib_sources lib) -> s <> "include")
  /\ forallb single_component (lib_headers lib) = true.
Proof.
  unfold safe_library. intros [[Hn Hs]%andb_true_iff Hh]%andb_true_iff.
  split; [exact Hn | split; [| split; [| exact Hh]]].
  - eapply forallb_impl; [| exact Hs]. now intros s [H _]%andb_true_iff.
  - intros s Hin ->. rewrite forallb_forall in Hs. specialize (Hs _ Hin).
    now apply andb_true_iff in Hs as [_ Hs].
Qed.

(** A safe library in a fresh place: [create_library] returns, and what it
    adds is [build_library]. *)
Lemma create_library_run w lib_dir lib_key lib :
  directory_at w lib_dir lib_key ->
  safe_library lib = true ->
  node_at (fs w) (lib_key ++ [lib_name lib]) = None ->
  create_library lib_dir lib w
  = (Returned tt, set_fs w (build_library lib_key (fs w) lib), [])
  /\ directory_at (set_fs w (build_library lib_key (fs w) lib)) lib_dir lib_key
  /\ extends w (set_fs w (build_library lib_key (fs w) lib)).
Proof.
  intros Hdir (Hname & Hsrcs & Hinc & Hhdrs)%safe_library_sources Hfresh.
  set (dir := lib_key ++ [lib_name lib]) in *.
  destruct (mkdir_child w lib_dir lib_key (lib_name lib) Hdir Hname Hfresh)
    as (Hrun1 & _ & Hd1 & He1 & Hempty1).
  fold dir in Hrun1, Hd1, He1, Hempty1.
  set (w1 := set_fs w (<[dir := Dir]> (fs w))) in *.
  destruct (write_child w1 (lib_dir // lib_name lib) dir "CMakeLists.txt"
              (create_lib_cmakelists lib) Hd1 eq_refl) as (Hrun2 & Hd2 & He2).
  { rewrite node_at_snoc. simpl. now rewrite Hempty1. }
  set (w2 := set_fs w1 (<[dir ++ ["CMakeLists.txt"] := File (create_lib_cmakelists lib)]>
                          (fs w1))) in *.
  destruct (write_all_run w2 (lib_dir // lib_name lib) dir (lib_sources lib)
              (fun _ => lib_source_text lib) Hd2 Hsrcs) as (Hrun3 & Hd3 & He3).
  { intros s _. simpl. destruct (decide (dir ++ ["CMakeLists.txt"] = dir ++ [s])) as [<-|E].
    - rewrite node_at_insert_eq; [discriminate | now destruct dir].
    - rewrite node_at_insert_ne by exact E. rewrite node_at_snoc, Hempty1; discriminate. }
  set (w3 := set_fs w2 (write_all dir (lib_sources lib) (fun _ => lib_source_text lib)
                          (fs w2))) in *.
  destruct (mkdir_child w3 (lib_dir // lib_name lib) dir "include" Hd3 eq_refl)
    as (Hrun4 & _ & Hd4 & He4 & Hempty4).
  { rewrite node_at_snoc. simpl.
    rewrite write_all_lookup_other
      by (intros s Hs E%app_inv_head; injection E as E; symmetry in E; now apply (Hinc s)).
    rewrite lookup_insert_ne by (intros E%app_inv_head; discriminate).
    now apply Hempty1. }
  set (w4 := set_fs w3 (<[dir ++ ["include"] := Dir]> (fs w3))) in *.
  destruct (write_all_run w4 (lib_dir // lib_name lib // "include") (dir ++ ["include"])
              (lib_headers lib) (header_text lib) Hd4 Hhdrs) as (Hrun5 & Hd5 & He5).
  { intros s _. rewrite node_at_snoc. simpl. rewrite Hempty4; discriminate. }
  assert (He : extends w (set_fs w (build_library lib_key (fs w) lib))).
  { eapply extends_trans; [exact He1 |]. eapply extends_trans; [exact He2 |].
    eapply extends_trans; [exact He3 |]. eapply extends_trans; [exact He4 |]. exact He5. }
  split; [| split; [| exact He]].
  - unfold create_library. cbv zeta.
    apply (bind_step_silent _ _ _ _ _ _ Hrun1).
    apply (bind_step_silent _ _ _ _ _ _ Hrun2).
    apply (bind_step_silent _ _ _ _ _ _ Hrun3).
    apply (bind_step_silent _ _ _ _ _ _ Hrun4).
    exact Hrun5.
  - eapply directory_at_extends; [exact Hdir | apply Hd5 | exact He].
Qed.

Lemma libraries_run w lib_dir lib_key libs :
  directory_at w lib_dir lib_key ->
  forallb safe_library libs = true ->
  NoDup (map lib_name libs) ->
  (forall lib, In lib libs -> node_at (fs w) (lib_key ++ [lib_name lib]) = None) ->
  for_each libs (create_library lib_dir) w
  = (Returned tt, set_fs w (fold_left (build_library lib_key) libs (fs w)), [])
  /\ directory_at (set_fs w (fold_left (build_library lib_key) libs (fs w))) lib_dir lib_key
  /\ extends w (set_fs w (fold_left (build_library lib_key) libs (fs w))).
Proof.
  revert w. induction libs as [|lib libs IH]; intros w Hdir Hsafe Hnodup Hfresh.
  - simpl. rewrite set_fs_same.
    split; [reflexivity | split; [exact Hdir | apply extends_refl]].
  - simpl in Hsafe. apply andb_true_iff in Hsafe as [Hlib Hsafe].
    simpl in Hnodup. apply NoDup_cons in Hnodup as [Hnew Hnodup].
    destruct (create_library_run w lib_dir lib_key lib Hdir Hlib
                (Hfresh lib (or_introl eq_refl))) as (Hrun & Hdir1 & He1).
    destruct (IH _ Hdir1 Hsafe Hnodup) as (Hrun2 & Hdir2 & He2).
    { intros lib' Hin. rewrite node_at_snoc. simpl.
      rewrite build_library_frame.
      - rewrite <- node_at_snoc. apply Hfresh. now right.
      - intros rel E. rewrite <- app_assoc in E. apply app_inv_head in E.
        injection E as E _. apply Hnew. rewrite <- E.
        apply list_elem_of_In, in_map, Hin. }
    split; [| split; [exact Hdir2 | eapply extends_trans; eassumption]].
    simpl for_each. apply (bind_step_silent _ _ _ _ _ _ Hrun). exact Hrun2.
Qed.

Lemma tests_run w root k config :
  directory_at w root k ->
  (dict_get (enableTests config) false = true ->
   node_at (fs w) (k ++ ["tests"]) = None) ->
  create_tests config root w
  = (Returned tt, set_fs w (build_tests k config (fs w)), []).
Proof.
  intros Hdir Hfresh. unfold build_tests.
  destruct (dict_get (enableTests config) false) eqn:Hflag.
  - destruct (mkdir_child w root k "tests" Hdir eq_refl (Hfresh eq_refl))
      as (Hmk & _ & Hd & _).
    destruct (create_tests_made config root w _ _ (proj1 Hdir) Hflag Hmk)
      as (k' & Hr & _ & Hrun).
    rewrite (resolve_child w root k "tests" (proj1 (proj2 Hdir)) (proj2 (proj2 Hdir)) eq_refl)
      in Hr.
    injection Hr as <-. exact Hrun.
  - unfold create_tests. rewrite Hflag, set_fs_same. reflexivity.
Qed.

Lemma safe_config_parts config :
  safe_config config = true ->
  forallb (fun exe => forallb single_component (exe_sources exe)) (executables config) = true
  /\ (forall exe s, In exe (executables config) -> In s (exe_sources exe) ->
        s <> "lib"
        /\ (dict_get (enableTests config) false = true -> s <> "tests"))
  /\ forallb safe_library (libraries config) = true
  /\ NoDup (map lib_name (libraries config)).
Proof.
  unfold safe_config.
  intros [[Hexes Hlibs]%andb_true_iff Hnodup%bool_decide_eq_true]%andb_true_iff.
  split; [| split; [| split; [exact Hlibs | exact Hnodup]]].
  - eapply forallb_impl; [| exact Hexes]. intros exe. apply forallb_impl.
    unfold safe_executable_source. now intros s [[H _]%andb_true_iff _]%andb_true_iff.
  - intros exe s Hexe Hs. rewrite forallb_forall in Hexes. specialize (Hexes _ Hexe).
    rewrite forallb_forall in Hexes. specialize (Hexes _ Hs).
    unfold safe_executable_source in Hexes.
    apply andb_true_iff in Hexes as [[_ Hlib]%andb_true_iff Htests].
    split.
    + intros ->. discriminate.
    + intros Hflag ->. rewrite Hflag in Htests. discriminate.
Qed.

(** A safe configuration in a well-formed world in which the root can be
    made: [generate] returns, prints the opening and the closing lines, and
    what it adds to the world with the new root is [build_project]. *)
Lemma generate_builds_project w wa oa config e :
  world_wf w ->
  os_stat w (project_root config) = inl e ->
  Path_mkdir_parents (project_root config) w = (Returned tt, wa, oa) ->
  safe_config config = true ->
  exists k,
    directory_at wa (project_root config) k
    /\ empty_below k (fs wa)
    /\ generate config w
       = (Returned tt, set_fs wa (build_project k config (fs wa)),
          creating_line config :: success_lines config).
Proof.
  intros Hwf Hstat Ha (Hsingle & Hnames & Hlibs & Hnodup)%safe_config_parts.
  destruct (root_made _ _ _ _ Hwf Ha) as (k & Hwfa & _ & Hr & Hk & Hempty).
  assert (Hoa : oa = []).
  { pose proof (silent_mkdir_parents (path_anchor (project_root config))
                  (rev (path_parts (project_root config))) false w) as H.
    unfold Path_mkdir_parents in Ha. now rewrite Ha in H. }
  subst oa. set (root := project_root config) in *.
  assert (Hdira : directory_at wa root k) by (split; [exact Hwfa | now split]).
  exists k. split; [exact Hdira | split; [exact Hempty |]].
  (* the root manifest *)
  destruct (write_child wa root k "CMakeLists.txt" (create_main_cmakelists config)
              Hdira eq_refl) as (Hrun1 & Hd1 & He1).
  { rewrite node_at_snoc, Hempty; discriminate. }
  set (wb := set_fs wa (<[k ++ ["CMakeLists.txt"] := File (create_main_cmakelists config)]>
                          (fs wa))) in *.
  (* the sources of the executables *)
  destruct (executables_run wb root k (executables config) Hd1 Hsingle)
    as (Hrun2 & Hd2 & He2).
  { intros c. simpl. destruct (decide (k ++ ["CMakeLists.txt"] = k ++ [c])) as [<-|E].
    - rewrite node_at_insert_eq; [discriminate | now destruct k].
    - rewrite node_at_insert_ne by exact E. rewrite node_at_snoc, Hempty; discriminate. }
  set (wc := set_fs wb (build_executables k (executables config) (fs wb))) in *.
  (* lib *)
  destruct (mkdir_child wc root k "lib" Hd2 eq_refl) as (Hrun3 & Hd3 & Hd3' & He3 & Hempty3).
  { rewrite node_at_snoc. simpl.
    rewrite build_executables_lookup_other
      by (intros exe s Hexe Hs E%app_inv_head; injection E as E; symmetry in E;
          now apply (proj1 (Hnames exe s Hexe Hs))).
    rewrite lookup_insert_ne by (intros E%app_inv_head; discriminate).
    now apply Hempty. }
  set (wd := set_fs wc (<[k ++ ["lib"] := Dir]> (fs wc))) in *.
  (* the libraries *)
  destruct (libraries_run wd (root // "lib") (k ++ ["lib"]) (libraries config)
              Hd3' Hlibs Hnodup) as (Hrun4 & Hd4 & He4).
  { intros lib _. rewrite node_at_snoc. simpl. now apply Hempty3. }
  set (we := set_fs wd (fold_left (build_library (k ++ ["lib"])) (libraries config)
                          (fs wd))) in *.
  (* tests *)
  assert (Hde : directory_at we root k).
  { eapply directory_at_extends; [exact Hd3 | apply Hd4 | exact He4]. }
  pose proof (tests_run we root k config Hde) as Hrun5.
  assert (Htests : dict_get (enableTests config) false = true ->
                   node_at (fs we) (k ++ ["tests"]) = None).
  { intros Hflag. rewrite node_at_snoc. simpl.
    rewrite libraries_frame
      by (intros lib rel _ E; rewrite <- !app_assoc in E; apply app_inv_head in E;
          discriminate).
    rewrite lookup_insert_ne by (intros E%app_inv_head; discriminate).
    rewrite build_executables_lookup_other
      by (intros exe s Hexe Hs E%app_inv_head; injection E as E; symmetry in E;
          now apply (proj2 (Hnames exe s Hexe Hs) Hflag)).
    rewrite lookup_insert_ne by (intros E%app_inv_head; discriminate).
    now apply Hempty. }
  specialize (Hrun5 Htests).
  rewrite (generate_fresh _ _ _ Hstat). fold root.
  apply bind_print.
  apply (bind_step_silent _ _ _ _ _ _ Ha).
  unfold populate.
  apply (bind_step_silent _ _ _ _ _ _ Hrun1).
  apply (bind_step_silent _ _ _ _ _ _ Hrun2).
  assert (Hlibrun : create_libraries config root wc = (Returned tt, we, [])).
  { unfold create_libraries. apply (bind_step_silent _ _ _ _ _ _ Hrun3). exact Hrun4. }
  apply (bind_step_silent _ _ _ _ _ _ Hlibrun).
  apply (bind_step_silent _ _ _ _ _ _ Hrun5).
  reflexivity.
Qed.

End SuccessfulRun.

Section BuiltTreeContents.

Implicit Types (m : gmap (list string) node) (k : list string).

Lemma build_project_frame k config m k' :
  (forall rel, k' <> k ++ rel) -> build_project k config m !! k' = m !! k'.
Proof.
  intros H. unfold build_project. cbv zeta.
  rewrite build_tests_frame by (intros rel; rewrite <- app_assoc; apply H).
  rewrite libraries_frame by (intros lib rel _; rewrite <- !app_assoc; apply H).
  rewrite lookup_insert_ne by (intros E; now apply (H ["lib"])).
  rewrite build_executables_lookup_other by (intros exe s _ _; apply H).
  apply lookup_insert_ne. intros E. now apply (H ["CMakeLists.txt"]).
Qed.

Lemma build_executables_snoc k exes exe m :
  build_executables k (exes ++ [exe]) m
  = write_all k (exe_sources exe) (fun _ => exe_source_text exe)
      (build_executables k exes m).
Proof. unfold build_executables. now rewrite fold_left_app. Qed.

(** A source of an executable holds the program of an executable that
    declares it: of the last one. *)
Lemma build_executables_lookup_in k exes m exe s :
  In exe exes -> In s (exe_sources exe) ->
  exists exe', In exe' exes /\ In s (exe_sources exe')
               /\ build_executables k exes m !! (k ++ [s])
                  = Some (File (exe_source_text exe')).
Proof.
  induction exes as [|last exes IH] using rev_ind; [intros [] |].
  intros Hexe Hs. rewrite build_executables_snoc.
  destruct (in_dec string_dec s (exe_sources last)) as [Hlast|Hnot].
  - exists last. split; [apply in_or_app; right; now left | split; [exact Hlast |]].
    apply (write_all_lookup_in k (exe_sources last) (fun _ => exe_source_text last)).
    exact Hlast.
  - apply in_app_or in Hexe as [Hexe|[<-|[]]]; [| contradiction].
    destruct (IH Hexe Hs) as (exe' & Hin & Hs' & Hlook).
    exists exe'. split; [apply in_or_app; now left | split; [exact Hs' |]].
    rewrite write_all_lookup_other; [exact Hlook |].
    intros s2 Hs2 E%app_inv_head. injection E as ->. contradiction.
Qed.

(** What [build_library] leaves in the directory of the library. *)
Lemma build_library_contents lib_key m lib :
  (forall s, In s (lib_sources lib) -> s <> "include") ->
  let dir := lib_key ++ [lib_name lib] in
  build_library lib_key m lib !! dir = Some Dir
  /\ build_library lib_key m lib !! (dir ++ ["include"]) = Some Dir
  /\ (forall hdr, In hdr (lib_headers lib) ->
        build_library lib_key m lib !! (dir ++ ["include"; hdr])
        = Some (File (header_text lib hdr)))
  /\ (forall s, In s (lib_sources lib) ->
        build_library lib_key m lib !! (dir ++ [s]) = Some (File (lib_source_text lib)))
  /\ (~ In "CMakeLists.txt" (lib_sources lib) ->
      build_library lib_key m lib !! (dir ++ ["CMakeLists.txt"])
      = Some (File (create_lib_cmakelists lib))).
Proof.
  intros Hinc dir. unfold build_library. cbv zeta. fold dir.
  assert (Hlen : forall (a : list string) b c, a <> (a ++ [b]) ++ c).
  { intros a b c E. apply (f_equal List.length) in E. rewrite !length_app in E.
    simpl in E. lia. }
  split; [| split; [| split; [| split]]].
  - rewrite (write_all_lookup_other (dir ++ ["include"])) by (intros s _; apply Hlen).
    rewrite lookup_insert_ne by apply snoc_ne_self.
    rewrite (write_all_lookup_other dir)
      by (intros s _ E; now apply (snoc_ne_self dir s)).
    rewrite lookup_insert_ne by apply snoc_ne_self.
    apply lookup_insert_eq.
  - rewrite (write_all_lookup_other (dir ++ ["include"]))
      by (intros s _ E; now apply (snoc_ne_self (dir ++ ["include"]) s)).
    apply lookup_insert_eq.
  - intros hdr Hhdr.
    replace (dir ++ ["include"; hdr]) with ((dir ++ ["include"]) ++ [hdr])
      by now rewrite <- app_assoc.
    now apply write_all_lookup_in.
  - intros s Hs.
    rewrite (write_all_lookup_other (dir ++ ["include"]))
      by (intros h _ E; rewrite <- app_assoc in E; apply app_inv_head in E; discriminate).
    rewrite lookup_insert_ne
      by (intros E%app_inv_head; injection E as E; now apply (Hinc s)).
    now apply (write_all_lookup_in dir (lib_sources lib) (fun _ => lib_source_text lib)).
  - intros Hno.
    rewrite (write_all_lookup_other (dir ++ ["include"]))
      by (intros h _ E; rewrite <- app_assoc in E; apply app_inv_head in E; discriminate).
    rewrite lookup_insert_ne by (intros E%app_inv_head; discriminate).
    rewrite (write_all_lookup_other dir)
      by (intros s Hs E%app_inv_head; injection E as <-; contradiction).
    apply lookup_insert_eq.
Qed.

(** With different names, the directory of a library is as its own
    [build_library] has left it. *)
Lemma libraries_contents lib_key libs m lib :
  NoDup (map lib_name libs) -> In lib libs ->
  exists m', forall rel,
    fold_left (build_library lib_key) libs m !! ((lib_key ++ [lib_name lib]) ++ rel)
    = build_library lib_key m' lib !! ((lib_key ++ [lib_name lib]) ++ rel).
Proof.
  revert m. induction libs as [|lib0 libs IH]; intros m Hnodup; [intros [] |].
  simpl in Hnodup. apply NoDup_cons in Hnodup as [Hnew Hnodup].
  intros [->|Hin]; simpl.
  - exists m. intros rel. apply libraries_frame.
    intros lib' rel' Hin' E. rewrite <- !app_assoc in E. apply app_inv_head in E.
    injection E as E _. apply Hnew. rewrite E. apply list_elem_of_In, in_map, Hin'.
  - apply IH; assumption.
Qed.

End BuiltTreeContents.

(** X10: a safe configuration is materialised.  When the world is
    well-formed, the root is absent and can be made, every source of an
    executable is one path component other than [lib] (and other than
    [tests] when tests are enabled), and the libraries have different names
    and are safe, then [main] returns, prints the opening line and the five
    closing lines, and leaves the world with the new root plus exactly the
    tree of the project. *)
Theorem safe_configuration_is_materialised
    (arg : option Path) (w wa : world) (oa : list string) (config : Config) (e : errno) :
  template w = TemplateDocument config ->
  world_wf w ->
  os_stat w (project_root config) = inl e ->
  Path_mkdir_parents (project_root config) w = (Returned tt, wa, oa) ->
  safe_config config = true ->
  exists k,
    resolve wa (project_root config) = inr k
    /\ main arg w
       = (Returned tt, set_fs wa (build_project k config (fs wa)),
          creating_line config :: success_lines config).
Proof.
  intros Ht Hwf Hstat Ha Hsafe.
  destruct (generate_builds_project _ _ _ _ _ Hwf Hstat Ha Hsafe) as (k & Hdir & _ & Hrun).
  exists k. split; [apply Hdir |]. now rewrite (main_loaded _ _ _ Ht).
Qed.

(** X11: a safe configuration stays inside its root.  Under the conditions
    of X10, whatever does not lie at or below the root is, after the run,
    as it was when the root had been made. *)
Theorem safe_configuration_stays_in_root
    (arg : option Path) (w wa : world) (oa : list string) (config : Config) (e : errno) :
  template w = TemplateDocument config ->
  world_wf w ->
  os_stat w (project_root config) = inl e ->
  Path_mkdir_parents (project_root config) w = (Returned tt, wa, oa) ->
  safe_config config = true ->
  exists k,
    resolve wa (project_root config) = inr k
    /\ forall k', (forall rel, k' <> k ++ rel) ->
                  fs (world_after (main arg w)) !! k' = fs wa !! k'.
Proof.
  intros Ht Hwf Hstat Ha Hsafe.
  destruct (generate_builds_project _ _ _ _ _ Hwf Hstat Ha Hsafe) as (k & Hdir & _ & Hrun).
  exists k. split; [apply Hdir |]. intros k' Hk'.
  rewrite (main_loaded _ _ _ Ht), Hrun. unfold world_after. simpl.
  now apply build_project_frame.
Qed.

(** X12: the tree of a library.  Under the conditions of X10, after the run
    every library has its directory under [lib], with the [include]
    directory, every header with the text of [header_text], every source
    with the text of [lib_source_text], and the library's manifest, unless
    a source of the library is itself called [CMakeLists.txt]. *)
Theorem library_tree_is_written
    (arg : option Path) (w wa : world) (oa : list string) (config : Config) (e : errno)
    (lib : Library) :
  template w = TemplateDocument config ->
  world_wf w ->
  os_stat w (project_root config) = inl e ->
  Path_mkdir_parents (project_root config) w = (Returned tt, wa, oa) ->
  safe_config config = true ->
  In lib (libraries config) ->
  exists k,
    resolve wa (project_root config) = inr k
    /\ let tree := fs (world_after (main arg w)) in
       tree !! (k ++ ["lib"]) = Some Dir
       /\ tree !! (k ++ ["lib"; lib_name lib]) = Some Dir
       /\ tree !! (k ++ ["lib"; lib_name lib; "include"]) = Some Dir
       /\ (forall hdr, In hdr (lib_headers lib) ->
             tree !! (k ++ ["lib"; lib_name lib; "include"; hdr])
             = Some (File (header_text lib hdr)))
       /\ (forall s, In s (lib_sources lib) ->
             tree !! (k ++ ["lib"; lib_name lib; s]) = Some (File (lib_source_text lib)))
       /\ (~ In "CMakeLists.txt" (lib_sources lib) ->
           tree !! (k ++ ["lib"; lib_name lib; "CMakeLists.txt"])
           = Some (File (create_lib_cmakelists lib))).
Proof.
  intros Ht Hwf Hstat Ha Hsafe Hin.
  destruct (generate_builds_project _ _ _ _ _ Hwf Hstat Ha Hsafe) as (k & Hdir & _ & Hrun).
  pose proof Hsafe as (_ & _ & Hlibs & Hnodup)%safe_config_parts.
  assert (Hinc : forall s, In s (lib_sources lib) -> s <> "include").
  { rewrite forallb_forall in Hlibs. apply (safe_library_sources _ (Hlibs _ Hin)). }
  exists k. split; [apply Hdir |]. cbv zeta.
  rewrite (main_loaded _ _ _ Ht), Hrun. unfold world_after. simpl.
  unfold build_project. cbv zeta.
  set (m3 := <[k ++ ["lib"] := Dir]> _).
  assert (Htests : forall rel,
            build_tests k config (fold_left (build_library (k ++ ["lib"]))
                                    (libraries config) m3) !! (k ++ "lib" :: rel)
            = fold_left (build_library (k ++ ["lib"])) (libraries config) m3
              !! (k ++ "lib" :: rel)).
  { intros rel. apply build_tests_frame. intros rel' E. rewrite <- app_assoc in E.
    apply app_inv_head in E. discriminate. }
  destruct (libraries_contents (k ++ ["lib"]) (libraries config) m3 lib Hnodup Hin)
    as (m' & Hlib).
  destruct (build_library_contents (k ++ ["lib"]) m' lib Hinc)
    as (Hd & Hi & Hh & Hs & Hm).
  assert (Hflat : forall rel,
            k ++ "lib" :: lib_name lib :: rel = ((k ++ ["lib"]) ++ [lib_name lib]) ++ rel)
    by (intros rel; now rewrite <- !app_assoc).
  split; [| split; [| split; [| split; [| split]]]].
  - rewrite (Htests []).
    rewrite libraries_frame.
    + subst m3. apply lookup_insert_eq.
    + intros lib' rel _ E. apply (f_equal List.length) in E.
      rewrite !length_app in E. simpl in E. lia.
  - rewrite Htests, (Hflat []), Hlib, app_nil_r. exact Hd.
  - rewrite Htests, (Hflat ["include"]), Hlib. exact Hi.
  - intros hdr Hhdr. rewrite Htests, (Hflat ["include"; hdr]), Hlib. now apply Hh.
  - intros s Hs'. rewrite Htests, (Hflat [s]), Hlib. now apply Hs.
  - intros Hno. rewrite Htests, (Hflat ["CMakeLists.txt"]), Hlib. now apply Hm.
Qed.

(** X13: the files of the root.  Under the conditions of X10, after the run
    every source of every executable is a file of the root that holds the
    placeholder program of an executable that declares it, and
    [CMakeLists.txt] holds the root manifest, unless a source of an
    executable is itself called [CMakeLists.txt]. *)
Theorem root_files_are_written
    (arg : option Path) (w wa : world) (oa : list string) (config : Config) (e : errno) :
  template w = TemplateDocument config ->
  world_wf w ->
  os_stat w (project_root config) = inl e ->
  Path_mkdir_parents (project_root config) w = (Returned tt, wa, oa) ->
  safe_config config = true ->
  exists k,
    resolve wa (project_root config) = inr k
    /\ let tree := fs (world_after (main arg w)) in
       (forall exe s, In exe (executables config) -> In s (exe_sources exe) ->
          exists exe', In exe' (executables config) /\ In s (exe_sources exe')
                       /\ tree !! (k ++ [s]) = Some (File (exe_source_text exe')))
       /\ ((forall exe, In exe (executables config) ->
              ~ In "CMakeLists.txt" (exe_sources exe)) ->
           tree !! (k ++ ["CMakeLists.txt"]) = Some (File (create_main_cmakelists config))).
Proof.
  intros Ht Hwf Hstat Ha Hsafe.
  destruct (generate_builds_project _ _ _ _ _ Hwf Hstat Ha Hsafe) as (k & Hdir & _ & Hrun).
  pose proof Hsafe as (_ & Hnames & _ & _)%safe_config_parts.
  exists k. split; [apply Hdir |]. cbv zeta.
  rewrite (main_loaded _ _ _ Ht), Hrun. unfold world_after. simpl.
  assert (Hlater : forall c,
            c <> "lib" ->
            (dict_get (enableTests config) false = true -> c <> "tests") ->
            build_project k config (fs wa) !! (k ++ [c])
            = build_executables k (executables config)
                (<[k ++ ["CMakeLists.txt"] := File (create_main_cmakelists config)]> (fs wa))
              !! (k ++ [c])).
  { intros c Hlib Htests. unfold build_project. cbv zeta.
    assert (Ht' : forall m, build_tests k config m !! (k ++ [c]) = m !! (k ++ [c])).
    { intros m. unfold build_tests.
      destruct (dict_get (enableTests config) false); [| reflexivity]. cbv zeta.
      rewrite lookup_insert_ne
        by (intros E; rewrite <- app_assoc in E; apply app_inv_head in E; discriminate).
      rewrite lookup_insert_ne
        by (intros E; rewrite <- app_assoc in E; apply app_inv_head in E; discriminate).
      apply lookup_insert_ne. intros E%app_inv_head. injection E as E.
      now apply Htests. }
    rewrite Ht'.
    rewrite libraries_frame
      by (intros lib rel _ E; rewrite <- !app_assoc in E; apply app_inv_head in E;
          discriminate).
    apply lookup_insert_ne. intros E%app_inv_head. injection E as E. now apply Hlib. }
  split.
  - intros exe s Hexe Hs. destruct (Hnames exe s Hexe Hs) as [Hlib Htests].
    rewrite (Hlater s Hlib Htests).
    now apply build_executables_lookup_in with (exe := exe).
  - intros Hno. rewrite Hlater by (try discriminate; intros _; discriminate).
    rewrite build_executables_lookup_other.
    + apply lookup_insert_eq.
    + intros exe s Hexe Hs E%app_inv_head. injection E as <-. exact (Hno exe Hexe Hs).
Qed.

(** * Making the root *)

Section MakingTheRoot.

Implicit Types (m : gmap (list string) node) (k cur : list string).

(** In a well-formed file system a path without [..] to a node that is
    there resolves to it. *)
Lemma walk_present m cur comps n :
  fs_wf m -> forallb not_dotdot comps = true ->
  node_at m (cur ++ comps) = Some n ->
  walk m cur comps = inr (cur ++ comps).
Proof.
  intros Hwf. revert n. induction comps as [|c comps IH] using rev_ind; intros n Hdd Hn.
  - now rewrite app_nil_r.
  - rewrite forallb_app' in Hdd. apply andb_true_iff in Hdd as [Hdd Hc].
    simpl in Hc. rewrite andb_true_r in Hc.
    pose proof (fs_wf_parent _ _ _ Hwf Hn) as Hp.
    rewrite app_assoc, removelast_snoc in Hp.
    rewrite (walk_app _ _ _ _ _ (IH _ Hdd Hp)). simpl. rewrite Hp.
    unfold step_into. unfold not_dotdot in Hc. destruct (String.eqb c ".."); [discriminate |].
    now rewrite app_assoc.
Qed.

Lemma walk_app_error m cur cs1 cs2 e :
  walk m cur cs1 = inl e -> walk m cur (cs1 ++ cs2) = inl e.
Proof.
  revert cur. induction cs1 as [|c cs IH]; intros cur; simpl; [discriminate |].
  destruct (node_at m cur) as [[data|]|]; trivial. apply IH.
Qed.

Lemma make_dirs_lookup_long m cur comps k :
  List.length cur + List.length comps < List.length k ->
  make_dirs m cur comps !! k = m !! k.
Proof.
  revert m cur. induction comps as [|c cs IH]; intros m cur H; simpl; [reflexivity |].
  rewrite IH by (rewrite length_app; simpl in *; lia).
  destruct (m !! (cur ++ [c])); [reflexivity |].
  apply lookup_insert_ne. intros E. rewrite <- E, length_app in H. simpl in H. lia.
Qed.

Lemma make_dirs_snoc m cur comps c :
  make_dirs m cur (comps ++ [c])
  = match make_dirs m cur comps !! (cur ++ comps ++ [c]) with
    | Some _ => make_dirs m cur comps
    | None => <[cur ++ comps ++ [c] := Dir]> (make_dirs m cur comps)
    end.
Proof.
  revert m cur. induction comps as [|x xs IH]; intros m cur; simpl; [reflexivity |].
  rewrite IH. now rewrite <- !app_assoc.
Qed.

(** Nothing is made on the way to a node that is there. *)
Lemma make_dirs_present m cur comps n :
  fs_wf m -> node_at m (cur ++ comps) = Some n -> make_dirs m cur comps = m.
Proof.
  intros Hwf. revert cur. induction comps as [|c cs IH]; intros cur Hn; simpl; [reflexivity |].
  destruct (m !! (cur ++ [c])) as [x|] eqn:Hc.
  - apply IH. now rewrite <- app_assoc.
  - exfalso. assert (Hnone : node_at m (cur ++ [c]) = None) by now rewrite node_at_snoc.
    pose proof (fresh_no_descendants m (cur ++ [c]) cs Hwf Hnone) as H.
    rewrite <- app_assoc in H. simpl in H.
    destruct (cur ++ c :: cs) eqn:E; [now destruct cur | simpl in Hn; congruence].
Qed.

Lemma start_at_wf w a : world_wf w -> node_at (fs w) (start_at w a) = Some Dir.
Proof. intros [_ Hcwd]. now destruct a. Qed.

Lemma resolve_start w a parts :
  resolve w {| path_anchor := a; path_parts := parts |} = walk (fs w) (start_at w a) parts.
Proof. reflexivity. Qed.

(** A path without [..] that [stat] fails on is not there. *)
Lemma stat_error_absent w a parts e :
  world_wf w -> forallb not_dotdot parts = true ->
  os_stat w {| path_anchor := a; path_parts := parts |} = inl e ->
  node_at (fs w) (start_at w a ++ parts) = None.
Proof.
  intros [Hwf _] Hdd Hstat.
  destruct (node_at (fs w) (start_at w a ++ parts)) as [n|] eqn:Hn; [| reflexivity].
  unfold os_stat in Hstat.
  rewrite resolve_start, (walk_present _ _ _ _ Hwf Hdd Hn), Hn in Hstat. discriminate.
Qed.

Lemma os_mkdir_exists w p n : os_stat w p = inr n -> os_mkdir w p = inl EEXIST.
Proof.
  unfold os_stat, os_mkdir. destruct (resolve w p) as [e|k]; [discriminate |].
  now destruct (node_at (fs w) k).
Qed.

Lemma os_mkdir_fresh w p k :
  resolve w p = inr k -> node_at (fs w) k = None ->
  os_mkdir w p = inr (set_fs w (<[k := Dir]> (fs w))).
Proof. intros Hr Hk. unfold os_mkdir. now rewrite Hr, Hk. Qed.

(** [mkdir(parents=True)] on a path without [..] that is not there, or
    that is a directory when [exist_ok] is set: it returns, and it has made
    the directories of [make_dirs]. *)
Lemma mkdir_parents_run a rparts exist_ok w :
  world_wf w ->
  forallb not_dotdot (rev rparts) = true ->
  os_stat w {| path_anchor := a; path_parts := rev rparts |} = inl ENOENT
  \/ (exist_ok = true
      /\ os_stat w {| path_anchor := a; path_parts := rev rparts |} = inr Dir) ->
  exists w',
    mkdir_parents a rparts exist_ok w = (Returned tt, w', [])
    /\ w' = set_fs w (make_dirs (fs w) (start_at w a) (rev rparts))
    /\ world_wf w'
    /\ os_stat w' {| path_anchor := a; path_parts := rev rparts |} = inr Dir.
Proof.
  revert exist_ok w. induction rparts as [|c rparent IH]; intros exist_ok w Hwf Hdd Hstat.
  - assert (Hs : os_stat w {| path_anchor := a; path_parts := [] |} = inr Dir).
    { unfold os_stat. rewrite resolve_start. simpl. now rewrite (start_at_wf _ a Hwf). }
    simpl rev in Hstat. destruct Hstat as [H|[-> _]]; [congruence |].
    exists w. simpl. rewrite (os_mkdir_exists _ _ _ Hs). unfold is_dir. rewrite Hs. simpl.
    now rewrite set_fs_same.
  - simpl rev in *. rewrite forallb_app' in Hdd. apply andb_true_iff in Hdd as [Hdd Hc].
    simpl in Hc. rewrite andb_true_r in Hc.
    set (parent := {| path_anchor := a; path_parts := rev rparent |}) in *.
    set (self := {| path_anchor := a; path_parts := rev rparent ++ [c] |}) in *.
    assert (Hstep : forall k, node_at (fs w) k = Some Dir ->
                              walk (fs w) k [c] = inr (k ++ [c])).
    { intros k Hk. simpl. rewrite Hk. unfold step_into. unfold not_dotdot in Hc.
      now destruct (String.eqb c ".."). }
    assert (Hrec : os_mkdir w self = inl ENOENT -> os_stat w parent = inl ENOENT ->
                   exists w',
                     mkdir_parents a (c :: rparent) exist_ok w = (Returned tt, w', [])
                     /\ w' = set_fs w (make_dirs (fs w) (start_at w a) (rev rparent ++ [c]))
                     /\ world_wf w' /\ os_stat w' self = inr Dir).
    { intros Hmk Hparent.
      destruct (IH true w Hwf Hdd (or_introl Hparent)) as (w1 & Hrun & Hw1 & Hwf1 & Hs1).
      pose proof (stat_error_absent _ _ _ _ Hwf Hdd Hparent) as Habsent.
      pose proof (fresh_no_descendants _ _ [c] (proj1 Hwf) Habsent) as Hchild.
      assert (Hr1 : resolve w1 parent = inr (start_at w a ++ rev rparent)
                    /\ node_at (fs w1) (start_at w a ++ rev rparent) = Some Dir).
      { unfold os_stat in Hs1. destruct (resolve w1 parent) as [e|kp] eqn:Hr; [discriminate |].
        pose proof Hr as Hkp. unfold parent in Hkp. rewrite resolve_start in Hkp.
        apply walk_confined in Hkp; [| exact Hdd].
        assert (Hst : start_at w1 a = start_at w a) by now rewrite Hw1.
        rewrite Hst in Hkp. subst kp. split; [reflexivity |].
        now destruct (node_at (fs w1) (start_at w a ++ rev rparent)) as [[data|]|]. }
      destruct Hr1 as [Hr1 Hd1].
      assert (Hself : resolve w1 self = inr ((start_at w a ++ rev rparent) ++ [c])).
      { change self with {| path_anchor := path_anchor parent;
                            path_parts := path_parts parent ++ [c] |}.
        rewrite (resolve_below _ _ _ _ Hr1). simpl. rewrite Hd1.
        unfold step_into. unfold not_dotdot in Hc. now destruct (String.eqb c ".."). }
      assert (Hnew : node_at (fs w1) ((start_at w a ++ rev rparent) ++ [c]) = None).
      { rewrite node_at_snoc, Hw1. simpl.
        rewrite make_dirs_lookup_long; [exact Hchild |].
        rewrite !length_app. simpl. lia. }
      pose proof (os_mkdir_fresh _ _ _ Hself Hnew) as Hmk1.
      exists (set_fs w1 (<[(start_at w a ++ rev rparent) ++ [c] := Dir]> (fs w1))).
      split; [| split; [| split]].
      - simpl. fold parent. fold self. rewrite Hmk.
        rewrite (bind_run _ _ _ _ _ _ Hrun). unfold Path_mkdir, world_after.
        now rewrite Hmk1.
      - rewrite make_dirs_snoc. rewrite node_at_snoc, <- app_assoc in Hnew.
        rewrite Hw1 in Hnew |- *. simpl in Hnew |- *. rewrite Hnew.
        now rewrite <- app_assoc.
      - exact (proj1 world_wf_call_stable _ _ _ Hwf1 Hmk1).
      - exact (os_mkdir_stat _ _ _ Hmk1). }
    destruct (resolve w parent) as [e|kp] eqn:Hrp.
    + assert (Hrs : resolve w self = inl e).
      { unfold self. rewrite resolve_start. apply walk_app_error.
        now rewrite <- resolve_start. }
      assert (He : e = ENOENT).
      { unfold os_stat in Hstat. rewrite Hrs in Hstat.
        destruct Hstat as [H|[_ H]]; congruence. }
      subst e. apply Hrec.
      * unfold os_mkdir. now rewrite Hrs.
      * unfold os_stat. now rewrite Hrp.
    + pose proof Hrp as Hkp. unfold parent in Hkp. rewrite resolve_start in Hkp.
      apply walk_confined in Hkp; [| exact Hdd]. subst kp.
      assert (Hrs : resolve w self = walk (fs w) (start_at w a ++ rev rparent) [c]).
      { change self with {| path_anchor := path_anchor parent;
                            path_parts := path_parts parent ++ [c] |}.
        apply resolve_below, Hrp. }
      destruct (node_at (fs w) (start_at w a ++ rev rparent)) as [[data|]|] eqn:Hnode.
      * exfalso. unfold os_stat in Hstat. rewrite Hrs in Hstat. simpl in Hstat.
        rewrite Hnode in Hstat. destruct Hstat as [H|[_ H]]; discriminate.
      * rewrite (Hstep _ Hnode) in Hrs.
        destruct Hstat as [Hstat|[-> Hstat]].
        -- assert (Hnew : node_at (fs w) ((start_at w a ++ rev rparent) ++ [c]) = None).
           { unfold os_stat in Hstat. rewrite Hrs in Hstat.
             now destruct (node_at (fs w) ((start_at w a ++ rev rparent) ++ [c])). }
           pose proof (os_mkdir_fresh _ _ _ Hrs Hnew) as Hmk.
           exists (set_fs w (<[(start_at w a ++ rev rparent) ++ [c] := Dir]> (fs w))).
           split; [| split; [| split]].
           ++ simpl. fold self. now rewrite Hmk.
           ++ rewrite make_dirs_snoc, (make_dirs_present _ _ _ _ (proj1 Hwf) Hnode).
              rewrite node_at_snoc, <- app_assoc in Hnew. rewrite Hnew.
              now rewrite <- app_assoc.
           ++ exact (proj1 world_wf_call_stable _ _ _ Hwf Hmk).
           ++ exact (os_mkdir_stat _ _ _ Hmk).
        -- exists w. split; [| split; [| split]]; [| | exact Hwf | exact Hstat].
           ++ simpl. fold self. rewrite (os_mkdir_exists _ _ _ Hstat).
              unfold is_dir. now rewrite Hstat.
           ++ assert (Hthere : node_at (fs w) (start_at w a ++ rev rparent ++ [c]) = Some Dir).
              { unfold os_stat in Hstat. rewrite Hrs in Hstat. rewrite app_assoc.
                now destruct (node_at (fs w) ((start_at w a ++ rev rparent) ++ [c]))
                  as [[data|]|]. }
              now rewrite (make_dirs_present _ _ _ _ (proj1 Hwf) Hthere), set_fs_same.
      * apply Hrec.
        -- unfold os_mkdir. rewrite Hrs. simpl. now rewrite Hnode.
        -- unfold os_stat. now rewrite Hrp, Hnode.
Qed.

End MakingTheRoot.

(** What [build_project] leaves directly in the root under a name that is
    neither [lib] nor, with tests enabled, [tests]. *)
Lemma build_project_root_entry (k : list string) (config : Config)
    (m : gmap (list string) node) (c : string) :
  c <> "lib" ->
  (dict_get (enableTests config) false = true -> c <> "tests") ->
  build_project k config m !! (k ++ [c])
  = build_executables k (executables config)
      (<[k ++ ["CMakeLists.txt"] := File (create_main_cmakelists config)]> m)
    !! (k ++ [c]).
Proof.
  intros Hlib Htests. unfold build_project. cbv zeta.
  assert (Ht : forall m', build_tests k config m' !! (k ++ [c]) = m' !! (k ++ [c])).
  { intros m'. unfold build_tests.
    destruct (dict_get (enableTests config) false); [| reflexivity]. cbv zeta.
    rewrite lookup_insert_ne
      by (intros E; rewrite <- app_assoc in E; apply app_inv_head in E; discriminate).
    rewrite lookup_insert_ne
      by (intros E; rewrite <- app_assoc in E; apply app_inv_head in E; discriminate).
    apply lookup_insert_ne. intros E%app_inv_head. injection E as E.
    now apply Htests. }
  rewrite Ht.
  rewrite libraries_frame
    by (intros lib rel _ E; rewrite <- !app_assoc in E; apply app_inv_head in E;
        discriminate).
  apply lookup_insert_ne. intros E%app_inv_head. injection E as E. now apply Hlib.
Qed.

(** X14: the root holds nothing else.  Under the conditions of X10, what
    lies directly in the root after the run is [CMakeLists.txt], [lib],
    [tests] when tests are enabled, or a source of an executable. *)
Theorem root_holds_nothing_else
    (arg : option Path) (w wa : world) (oa : list string) (config : Config) (e : errno) :
  template w = TemplateDocument config ->
  world_wf w ->
  os_stat w (project_root config) = inl e ->
  Path_mkdir_parents (project_root config) w = (Returned tt, wa, oa) ->
  safe_config config = true ->
  exists k,
    resolve wa (project_root config) = inr k
    /\ forall c, fs (world_after (main arg w)) !! (k ++ [c]) <> None ->
         c = "CMakeLists.txt"
         \/ c = "lib"
         \/ (c = "tests" /\ dict_get (enableTests config) false = true)
         \/ exists exe, In exe (executables config) /\ In c (exe_sources exe).
Proof.
  intros Ht Hwf Hstat Ha Hsafe.
  destruct (generate_builds_project _ _ _ _ _ Hwf Hstat Ha Hsafe)
    as (k & Hdir & Hempty & Hrun).
  exists k. split; [apply Hdir |]. intros c.
  rewrite (main_loaded _ _ _ Ht), Hrun. unfold world_after. simpl. intros Hc.
  destruct (string_dec c "CMakeLists.txt") as [Hm|Hm]; [now left |].
  destruct (string_dec c "lib") as [Hl|Hl]; [now right; left |].
  assert (Htests : (c = "tests" /\ dict_get (enableTests config) false = true)
                   \/ (dict_get (enableTests config) false = true -> c <> "tests")).
  { destruct (string_dec c "tests") as [Hs|Hs]; [| now right].
    destruct (dict_get (enableTests config) false); [now left | right; discriminate]. }
  destruct Htests as [Htests|Htests]; [now right; right; left |].
  right; right; right.
  destruct (List.Exists_dec (fun exe => In c (exe_sources exe)) (executables config)
              (fun exe => in_dec string_dec c (exe_sources exe))) as [Hex|Hno].
  - apply List.Exists_exists in Hex as (exe & Hexe & Hin). now exists exe.
  - exfalso. apply Hc.
    rewrite build_project_root_entry by assumption.
    rewrite build_executables_lookup_other.
    + rewrite lookup_insert_ne by (intros E%app_inv_head; congruence).
      apply Hempty. discriminate.
    + intros exe s Hexe Hin E%app_inv_head. injection E as <-.
      apply Hno, List.Exists_exists. now exists exe.
Qed.

(** X15: missing directories on the way to the root are made.  In a
    well-formed world, for a safe configuration whose root has no [..] and
    is not found because a directory on the way or the root itself is
    missing, [main] returns with the opening and the closing lines, and the
    world it leaves is the one it started in with the missing directories
    of the root and the tree of the project added. *)
Theorem project_in_missing_directories
    (arg : option Path) (w : world) (config : Config) :
  template w = TemplateDocument config ->
  world_wf w ->
  forallb not_dotdot (path_parts (project_root config)) = true ->
  os_stat w (project_root config) = inl ENOENT ->
  safe_config config = true ->
  main arg w
  = (Returned tt,
     set_fs w (build_project
                 (start_of w (project_root config) ++ path_parts (project_root config))
                 config
                 (make_dirs (fs w) (start_of w (project_root config))
                    (path_parts (project_root config)))),
     creating_line config :: success_lines config).
Proof.
  intros Ht Hwf Hdd Hstat Hsafe.
  assert (Hroot : project_root config
                  = {| path_anchor := path_anchor (project_root config);
                       path_parts := path_parts (project_root config) |})
    by now destruct (project_root config).
  destruct (mkdir_parents_run (path_anchor (project_root config))
              (rev (path_parts (project_root config))) false w Hwf)
    as (wa & Ha & Hwa & Hwfa & Hsa).
  { now rewrite rev_involutive. }
  { left. now rewrite rev_involutive, <- Hroot. }
  rewrite rev_involutive in Hwa.
  change (Path_mkdir_parents (project_root config) w = (Returned tt, wa, [])) in Ha.
  destruct (generate_builds_project _ _ _ _ _ Hwf Hstat Ha Hsafe)
    as (k & (_ & Hk & _) & _ & Hrun).
  rewrite Hroot, resolve_start in Hk. apply walk_confined in Hk; [| exact Hdd].
  rewrite (main_loaded _ _ _ Ht), Hrun. subst k wa. reflexivity.
Qed.

Lemma mkdir_parents_not_a_directory a rparts w :
  os_mkdir w {| path_anchor := a; path_parts := rev rparts |} = inl ENOTDIR ->
  mkdir_parents a rparts false w
  = (Raised (NotADirectoryError
               (path_str {| path_anchor := a; path_parts := rev rparts |})), w, []).
Proof. destruct rparts as [|c rparent]; simpl; intros H; now rewrite H. Qed.

(** X16: a root below a regular file.  When a component on the way to the
    root is a regular file, [main] prints the opening line and ends in the
    [NotADirectoryError] of [root.mkdir], with the root as its file name;
    the world is left as it was. *)
Theorem root_below_a_file_aborts (arg : option Path) (w : world) (config : Config) :
  template w = TemplateDocument config ->
  os_stat w (project_root config) = inl ENOTDIR ->
  main arg w
  = (Raised (NotADirectoryError (path_str (project_root config))), w,
     [creating_line config]).
Proof.
  intros Ht Hstat.
  assert (Hmk : os_mkdir w (project_root config) = inl ENOTDIR).
  { unfold os_stat in Hstat. unfold os_mkdir.
    destruct (resolve w (project_root config)) as [e|k]; [congruence |].
    now destruct (node_at (fs w) k). }
  assert (Hrun : Path_mkdir_parents (project_root config) w
                 = (Raised (NotADirectoryError (path_str (project_root config))), w, [])).
  { unfold Path_mkdir_parents. destruct (project_root config) as [a parts].
    cbn [path_anchor path_parts].
    pose proof (mkdir_parents_not_a_directory a (rev parts) w) as H.
    rewrite rev_involutive in H. exact (H Hmk). }
  rewrite (main_loaded _ _ _ Ht), (generate_fresh _ _ _ Hstat).
  unfold bind at 1. unfold print.
  now rewrite (bind_raised _ _ _ _ _ _ Hrun).
Qed.

(** ** The template after a run *)

Section TemplateAfterRun.






End TemplateAfterRun.


(** * The further properties at concrete inputs *)

Lemma home_with_wf config : world_wf (home_with config).
Proof. apply (bool_decide_eq_true_1 (world_wf _)). vm_compute. reflexivity. Qed.

(** X1 for the scenario of the specification. *)
Lemma only_adds_witness :
  world_wf (home_with demo_config)
  /\ world_wf (world_after (main None (home_with demo_config))).
Proof.
  split; [apply home_with_wf |].
  apply (main_only_adds None (home_with demo_config)), home_with_wf.
Defined.

(** X2 for a run that returns and for a run that raises. *)
Lemma output_lines_witness :
  snd (main None (home_with demo_config))
  = creating_line demo_config :: success_lines demo_config
  /\ snd (main None (home_with (hello_config ["src/main.c"] false)))
     = [ creating_line (hello_config ["src/main.c"] false) ].
Proof.
  split.
  - assert (Hrun : main None (home_with demo_config)
                   = (Returned tt, world_after (main None (home_with demo_config)),
                      snd (main None (home_with demo_config))))
      by (vm_compute; reflexivity).
    assert (Hstat : os_stat (home_with demo_config) (project_root demo_config) = inl ENOENT)
      by (vm_compute; reflexivity).
    exact (main_output None (home_with demo_config) _ demo_config ENOENT _ _
             eq_refl Hstat Hrun).
  - assert (Hrun : main None (home_with (hello_config ["src/main.c"] false))
                   = (Raised (FileNotFoundError "demo/src/main.c"),
                      world_after (main None (home_with (hello_config ["src/main.c"] false))),
                      snd (main None (home_with (hello_config ["src/main.c"] false)))))
      by (vm_compute; reflexivity).
    assert (Hstat : os_stat (home_with (hello_config ["src/main.c"] false))
                      (project_root (hello_config ["src/main.c"] false)) = inl ENOENT)
      by (vm_compute; reflexivity).
    exact (main_output None (home_with (hello_config ["src/main.c"] false)) _
             (hello_config ["src/main.c"] false) ENOENT _ _ eq_refl Hstat Hrun).
Defined.

(** X3 for the scenario of the specification and for an executable without
    dependencies. *)
Lemma link_lines_witness :
  lines_starting "target_link_libraries(" (create_main_cmakelists demo_config)
  = [ "target_link_libraries(app PRIVATE foo)" ]
  /\ lines_starting "target_link_libraries(" (create_main_cmakelists plain_config) = [].
Proof.
  split.
  - exact (link_lines_follow_dependencies demo_config eq_refl).
  - exact (link_lines_follow_dependencies plain_config eq_refl).
Defined.

(** C9: no key against the empty list, and against a list of two. *)
Lemma absent_dependencies_witness :
  create_main_cmakelists (with_executables plain_config [ plain_executable (Some []) ])
  = create_main_cmakelists plain_config
  /\ lines_starting "target_link_libraries(" (create_main_cmakelists plain_config) = []
  /\ lines_starting "target_link_libraries("
       (create_main_cmakelists
          (with_executables plain_config [ plain_executable (Some ["foo"; "bar"]) ]))
     = [ "target_link_libraries(app PRIVATE foo bar)" ].
Proof.
  destruct (absent_dependencies_same_as_empty plain_config [ plain_executable (Some []) ])
    as (Hsame & _ & Hnone & _); [repeat constructor |].
  destruct (absent_dependencies_same_as_empty
              (with_executables plain_config [ plain_executable (Some ["foo"; "bar"]) ])
              [ plain_executable (Some ["foo"; "bar"]) ])
    as (_ & _ & Hlink & _); [repeat constructor |].
  split; [exact Hsame | split; [exact (Hnone eq_refl) | exact (Hlink eq_refl)]].
Defined.

(** X4 with tests enabled and with tests disabled. *)
Lemma subdirectory_lines_witness :
  lines_starting "add_subdirectory(" (create_main_cmakelists demo_config)
  = [ "add_subdirectory(lib/foo)"; "add_subdirectory(tests)" ]
  /\ lines_starting "add_subdirectory("
       (create_main_cmakelists (hello_config ["main.c"] false)) = [].
Proof.
  split.
  - exact (subdirectory_lines_of_manifest demo_config eq_refl).
  - exact (subdirectory_lines_of_manifest (hello_config ["main.c"] false) eq_refl).
Defined.

(** X5 for a library with two sources. *)
Lemma library_manifest_witness :
  lines (create_lib_cmakelists
           {| lib_name := "foo"; lib_sources := ["foo.c"; "bar.c"];
              lib_headers := ["foo.h"] |})
  = [ "add_library(foo foo.c bar.c)"; EmptyString;
      "target_include_directories(foo PUBLIC include)"; EmptyString ].
Proof.
  exact (library_manifest_lines
           {| lib_name := "foo"; lib_sources := ["foo.c"; "bar.c"];
              lib_headers := ["foo.h"] |} eq_refl eq_refl).
Defined.

(** X6 for the source [src/main.c]. *)
Lemma source_in_subdirectory_witness :
  has_directory_part "src/main.c" = true
  /\ exists ex, fst (fst (main None (home_with (hello_config ["src/main.c"] false))))
                = Raised ex.
Proof.
  split; [reflexivity |].
  eapply (source_in_subdirectory_fails None
            (home_with (hello_config ["src/main.c"] false))
            (world_after (main None (home_with (hello_config ["src/main.c"] false))))
            (hello_config ["src/main.c"] false)
            {| exe_name := "app"; exe_sources := ["src/main.c"];
               exe_dependencies := None |}
            "src/main.c" ENOENT _
            (snd (main None (home_with (hello_config ["src/main.c"] false))))).
  - reflexivity.
  - apply home_with_wf.
  - vm_compute. reflexivity.
  - now left.
  - now left.
  - reflexivity.
  - now destruct (main None (home_with (hello_config ["src/main.c"] false))) as [[r w'] out].
Defined.

(** X7 for an executable with the source [lib]. *)
Lemma source_named_lib_witness :
  exists ex, fst (fst (main None (home_with (hello_config ["lib"] false)))) = Raised ex.
Proof.
  assert (Hstat : os_stat (home_with (hello_config ["lib"] false))
                    (project_root (hello_config ["lib"] false)) = inl ENOENT)
    by (vm_compute; reflexivity).
  apply (proj1 (source_named_lib_fails None (home_with (hello_config ["lib"] false))
                  (hello_config ["lib"] false)
                  {| exe_name := "app"; exe_sources := ["lib"]; exe_dependencies := None |}
                  "lib" ENOENT eq_refl Hstat (or_introl eq_refl) (or_introl eq_refl) eq_refl)
           (fst (fst (main None (home_with (hello_config ["lib"] false)))))
           (world_after (main None (home_with (hello_config ["lib"] false))))
           (snd (main None (home_with (hello_config ["lib"] false))))).
  now destruct (main None (home_with (hello_config ["lib"] false))) as [[r w'] out].
Defined.

(** X8 for an executable with the source [tests]. *)
Lemma source_named_tests_witness :
  exists ex, fst (fst (main None (home_with (hello_config ["tests"] true)))) = Raised ex.
Proof.
  eapply (source_named_tests_fails None
            (home_with (hello_config ["tests"] true))
            (world_after (main None (home_with (hello_config ["tests"] true))))
            (hello_config ["tests"] true)
            {| exe_name := "app"; exe_sources := ["tests"]; exe_dependencies := None |}
            "tests" ENOENT _
            (snd (main None (home_with (hello_config ["tests"] true))))).
  - reflexivity.
  - vm_compute. reflexivity.
  - reflexivity.
  - now left.
  - now left.
  - reflexivity.
  - now destruct (main None (home_with (hello_config ["tests"] true))) as [[r w'] out].
Defined.

(** X9 for a library with the source [./include]. *)
Lemma library_source_named_include_witness :
  (forall lib_dir v r v' out,
     create_library lib_dir include_source_library v = (r, v', out) ->
     exists ex, r = Raised ex)
  /\ forall r w' out,
       main None (home_with include_source_config) = (r, w', out) ->
       exists ex, r = Raised ex.
Proof.
  destruct (library_source_named_include_fails None (home_with include_source_config)
              include_source_config include_source_library "./include" ENOENT)
    as [Hlib Hmain].
  - now left.
  - intros lib_dir. reflexivity.
  - split; [exact Hlib |]. apply Hmain.
    + reflexivity.
    + vm_compute. reflexivity.
    + now left.
Defined.

(** X10 for the scenario of the specification. *)
Lemma safe_configuration_witness :
  safe_config demo_config = true
  /\ exists k,
       resolve (root_made_in (home_with demo_config) demo_config) (project_root demo_config)
       = inr k
       /\ main None (home_with demo_config)
          = (Returned tt,
             set_fs (root_made_in (home_with demo_config) demo_config)
               (build_project k demo_config
                  (fs (root_made_in (home_with demo_config) demo_config))),
             creating_line demo_config :: success_lines demo_config).
Proof.
  assert (Hsafe : safe_config demo_config = true) by (vm_compute; reflexivity).
  split; [exact Hsafe |].
  apply (safe_configuration_is_materialised None (home_with demo_config)
           (root_made_in (home_with demo_config) demo_config) [] demo_config ENOENT).
  - reflexivity.
  - apply home_with_wf.
  - vm_compute. reflexivity.
  - vm_compute. reflexivity.
  - exact Hsafe.
Defined.

(** X11 for the scenario of the specification: the home directory itself
    is as it was. *)
Lemma stays_in_root_witness :
  exists k,
    resolve (root_made_in (home_with demo_config) demo_config) (project_root demo_config)
    = inr k
    /\ forall k', (forall rel, k' <> k ++ rel) ->
         fs (world_after (main None (home_with demo_config))) !! k'
         = fs (root_made_in (home_with demo_config) demo_config) !! k'.
Proof.
  apply (safe_configuration_stays_in_root None (home_with demo_config)
           (root_made_in (home_with demo_config) demo_config) [] demo_config ENOENT).
  - reflexivity.
  - apply home_with_wf.
  - vm_compute. reflexivity.
  - vm_compute. reflexivity.
  - vm_compute. reflexivity.
Defined.

(** X12 for the library [foo] of the scenario of the specification. *)
Lemma library_tree_witness :
  exists k,
    resolve (root_made_in (home_with demo_config) demo_config) (project_root demo_config)
    = inr k
    /\ fs (world_after (main None (home_with demo_config))) !! (k ++ ["lib"; "foo"; "foo.c"])
       = Some (File (lib_source_text (library_named "foo"))).
Proof.
  destruct (library_tree_is_written None (home_with demo_config)
              (root_made_in (home_with demo_config) demo_config) [] demo_config ENOENT
              (library_named "foo"))
    as (k & Hk & _ & _ & _ & _ & Hsources & _).
  - reflexivity.
  - apply home_with_wf.
  - vm_compute. reflexivity.
  - vm_compute. reflexivity.
  - vm_compute. reflexivity.
  - now left.
  - exists k. split; [exact Hk |]. apply (Hsources "foo.c"). now left.
Defined.

(** X13 for the scenario of the specification. *)
Lemma root_files_witness :
  exists k,
    resolve (root_made_in (home_with demo_config) demo_config) (project_root demo_config)
    = inr k
    /\ fs (world_after (main None (home_with demo_config))) !! (k ++ ["CMakeLists.txt"])
       = Some (File (create_main_cmakelists demo_config)).
Proof.
  destruct (root_files_are_written None (home_with demo_config)
              (root_made_in (home_with demo_config) demo_config) [] demo_config ENOENT)
    as (k & Hk & _ & Hmanifest).
  - reflexivity.
  - apply home_with_wf.
  - vm_compute. reflexivity.
  - vm_compute. reflexivity.
  - vm_compute. reflexivity.
  - exists k. split; [exact Hk |]. apply Hmanifest.
    intros exe [<-|[]] [E|[]]. discriminate.
Defined.

(** X14 for the scenario of the specification: no [build] directory is
    made. *)
Lemma nothing_else_witness :
  exists k,
    resolve (root_made_in (home_with demo_config) demo_config) (project_root demo_config)
    = inr k
    /\ fs (world_after (main None (home_with demo_config))) !! (k ++ ["build"]) = None.
Proof.
  destruct (root_holds_nothing_else None (home_with demo_config)
              (root_made_in (home_with demo_config) demo_config) [] demo_config ENOENT)
    as (k & Hk & Honly).
  - reflexivity.
  - apply home_with_wf.
  - vm_compute. reflexivity.
  - vm_compute. reflexivity.
  - vm_compute. reflexivity.
  - exists k. split; [exact Hk |].
    destruct (decide (fs (world_after (main None (home_with demo_config)))
                        !! (k ++ ["build"]) = None)) as [Hnone|Hsome]; [exact Hnone |].
    exfalso.
    destruct (Honly "build" Hsome) as [E|[E|[[E _]|(exe & [<-|[]] & [E|[]])]]];
      discriminate E.
Defined.

(** X15 for an output directory two levels down, neither level there. *)
Lemma missing_directories_witness :
  os_stat (home_with deep_config) (parse_path "out") = inl ENOENT
  /\ main None (home_with deep_config)
     = (Returned tt,
        set_fs (home_with deep_config)
          (build_project ["home"; "u"; "out"; "projects"; "demo"] deep_config
             (make_dirs (fs (home_with deep_config)) ["home"; "u"]
                ["out"; "projects"; "demo"])),
        creating_line deep_config :: success_lines deep_config).
Proof.
  split; [vm_compute; reflexivity |].
  apply (project_in_missing_directories None (home_with deep_config) deep_config).
  - reflexivity.
  - apply home_with_wf.
  - reflexivity.
  - vm_compute. reflexivity.
  - vm_compute. reflexivity.
Defined.

(** X16 for an output directory that is a regular file. *)
Lemma root_below_a_file_witness :
  main None (notes_home (TemplateDocument under_file_config))
  = (Raised (NotADirectoryError "notes.txt/demo"),
     notes_home (TemplateDocument under_file_config),
     [ "Creating project 'demo' in 'notes.txt/demo'..." ]).
Proof.
  apply (root_below_a_file_aborts None (notes_home (TemplateDocument under_file_config))
           under_file_config).
  - reflexivity.
  - vm_compute. reflexivity.
Defined.

